(** * Drones: remote-control link over UDP (test_client.py / test_server.py)
      and the local vJoy calibration helpers (calibration.py,
      calibration_with_display.py, movements.py).

    Shallow embedding of the Python sources, one Rocq module per Python
    module, followed by the properties of the specification.

    Python numbers are [int] (unbounded, [Z]) or [float].  A finite float is
    modelled by the rational it denotes, the special values by constructors
    of their own; comparisons between [int] and [float] and the conversion
    [int(x)] are exact in Python, and are exact here.  Float arithmetic
    occurs only in the circle generators, where it is written over the
    rationals, without rounding. *)

From Stdlib Require Import ZArith QArith Lqa Lia List Sorted.
From Stdlib Require Import Strings.Byte.
From stdpp Require Import gmap strings.
Import ListNotations.

Local Open Scope Z_scope.

(** ** Python numbers *)
Module Py.

Inductive pyfloat : Type :=
| Finite (q : Q)
| Inf (negative : bool)
| NaN.

Inductive value : Type :=
| Int (z : Z)
| Float (f : pyfloat).

(** The float a number compares as. *)
Definition as_float (v : value) : pyfloat :=
  match v with
  | Int z => Finite (inject_Z z)
  | Float f => f
  end.

Definition Qltb (a b : Q) : bool :=
  match Qcompare a b with Lt => true | _ => false end.

Definition Qeqb (a b : Q) : bool :=
  match Qcompare a b with Eq => true | _ => false end.

(** [a < b] on floats: false as soon as one side is NaN. *)
Definition float_lt (a b : pyfloat) : bool :=
  match a, b with
  | NaN, _ | _, NaN => false
  | Inf true, Inf true => false
  | Inf true, _ => true
  | _, Inf true => false
  | Inf false, _ => false
  | Finite _, Inf false => true
  | Finite x, Finite y => Qltb x y
  end.

Definition float_eq (a b : pyfloat) : bool :=
  match a, b with
  | NaN, _ | _, NaN => false
  | Inf s, Inf t => Bool.eqb s t
  | Finite x, Finite y => Qeqb x y
  | _, _ => false
  end.

(** [a < b], [a > b], [a <= b], [a == b] *)
Definition lt (a b : value) : bool := float_lt (as_float a) (as_float b).
Definition gt (a b : value) : bool := lt b a.
Definition eq (a b : value) : bool := float_eq (as_float a) (as_float b).
Definition le (a b : value) : bool := lt a b || eq a b.

(** The two-argument builtins: [min(a, b)] keeps [a] unless [b < a],
    [max(a, b)] keeps [a] unless [b > a]. *)
Definition min (a b : value) : value := if lt b a then b else a.
Definition max (a b : value) : value := if gt b a then b else a.

(** [lo <= v <= hi] *)
Definition between (lo hi v : value) : bool := le lo v && le v hi.

(** [int(v)]: truncation toward zero; [ValueError] on NaN and
    [OverflowError] on an infinity, both rendered as [None]. *)
Definition int (v : value) : option Z :=
  match v with
  | Int z => Some z
  | Float (Finite q) => Some (Z.quot (Qnum q) (Zpos (Qden q)))
  | Float (Inf _) => None
  | Float NaN => None
  end.

(** [range(start, stop, step)] as the list it enumerates; [step = 0]
    raises in Python and is never used by the sources. *)
Definition range (start stop step : Z) : list Z :=
  let n :=
    if 0 <? step then (stop - start + step - 1) / step
    else if step <? 0 then (start - stop - step - 1) / (- step)
    else 0 in
  map (fun k => start + Z.of_nat k * step) (seq 0 (Z.to_nat n)).

(** [a / b] on two integers: true division, a float;
    [ZeroDivisionError], rendered as [None], when [b] is 0. *)
Definition truediv (a b : Z) : option value :=
  if b =? 0 then None
  else Some (Float (Finite (inject_Z a / inject_Z b))).

End Py.

(** ** The [struct] module, format ['iiii'] *)
Module Struct.

(** Native byte order of the machine struct runs on. *)
Inductive byteorder : Type := LittleEndian | BigEndian.

Definition INT_MIN : Z := - 2 ^ 31.
Definition INT_MAX : Z := 2 ^ 31 - 1.

Definition byte_of_Z (z : Z) : byte :=
  match Byte.of_N (Z.to_N (Z.land z 255)) with
  | Some b => b
  | None => x00
  end.

Definition Z_of_byte (b : byte) : Z := Z.of_N (Byte.to_N b).

(** The four bytes of a 32-bit word, least significant first. *)
Definition word_bytes (u : Z) : list byte :=
  [ byte_of_Z u; byte_of_Z (Z.shiftr u 8);
    byte_of_Z (Z.shiftr u 16); byte_of_Z (Z.shiftr u 24) ].

Definition in_order (o : byteorder) (l : list byte) : list byte :=
  match o with
  | LittleEndian => l
  | BigEndian => rev l
  end.

(** One ['i'] field: a C int, [struct.error] outside its range. *)
Definition pack_i (o : byteorder) (v : Z) : option (list byte) :=
  if (INT_MIN <=? v) && (v <=? INT_MAX)
  then Some (in_order o (word_bytes (v mod 2 ^ 32)))
  else None.

Definition word_of_bytes (l : list byte) : Z :=
  fold_right (fun b acc => Z.lor (Z_of_byte b) (Z.shiftl acc 8)) 0 l.

Definition signed32 (u : Z) : Z :=
  if u <? 2 ^ 31 then u else u - 2 ^ 32.

Definition unpack_i (o : byteorder) (l : list byte) : Z :=
  signed32 (word_of_bytes (in_order o l)).

(** [struct.pack('iiii', a, b, c, d)] *)
Definition pack_iiii (o : byteorder) (a b c d : Z) : option (list byte) :=
  match pack_i o a, pack_i o b, pack_i o c, pack_i o d with
  | Some ba, Some bb, Some bc, Some bd => Some (ba ++ bb ++ bc ++ bd)
  | _, _, _, _ => None
  end.

(** [struct.unpack('iiii', data)]: [struct.error] unless [data] has
    exactly 16 bytes. *)
Definition unpack_iiii (o : byteorder) (data : list byte)
  : option (Z * Z * Z * Z) :=
  match data with
  | [a0; a1; a2; a3; b0; b1; b2; b3; c0; c1; c2; c3; d0; d1; d2; d3] =>
      Some (unpack_i o [a0; a1; a2; a3], unpack_i o [b0; b1; b2; b3],
            unpack_i o [c0; c1; c2; c3], unpack_i o [d0; d1; d2; d3])
  | _ => None
  end.

End Struct.

(** ** What a run does to the outside world *)
Module IO.

(** The axis identifiers of pyvjoy used by the sources. *)
Inductive axis : Type :=
| HID_USAGE_X
| HID_USAGE_Y
| HID_USAGE_Z
| HID_USAGE_RX.

#[global] Instance axis_eq_dec : EqDecision axis.
Proof. solve_decision. Defined.

Inductive event : Type :=
| Sendto (payload : list byte) (ip : string) (port : Z)
| SetAxis (axis_id : axis) (value : Z)
| Print (line : string)
| PrintRecv (roll pitch yaw throttle : Z)
| Sleep (milliseconds : Z)
| CameraStop
| Close (socket_name : string).

Definition trace : Type := list event.

(** The calls to [joystick.set_axis] of a run, in order. *)
Definition device_writes (t : trace) : list (axis * Z) :=
  flat_map (fun e => match e with SetAxis a v => [(a, v)] | _ => [] end) t.

(** Every call to [joystick.set_axis] of a run passes a value between
    two bounds. *)
Definition writes_between (lo hi : Z) (t : trace) : Prop :=
  Forall (fun w => lo <= snd w <= hi) (device_writes t).

(** The datagrams handed to [sendto], in order. *)
Definition datagrams (t : trace) : list (list byte) :=
  flat_map (fun e => match e with Sendto p _ _ => [p] | _ => [] end) t.

(** Statements: they read and write the module's state [S], append to the
    trace, and either return or let an exception escape. *)
Inductive outcome (A : Type) : Type :=
| Returned (a : A)
| Raised.
Arguments Returned {A} a.
Arguments Raised {A}.

Definition M (S A : Type) : Type := S -> outcome A * S * trace.

Definition ret {S A : Type} (a : A) : M S A := fun st => (Returned a, st, []).

Definition bind {S A B : Type} (m : M S A) (k : A -> M S B) : M S B :=
  fun st =>
    match m st with
    | (Returned a, st1, t1) =>
        match k a st1 with
        | (r, st2, t2) => (r, st2, t1 ++ t2)
        end
    | (Raised, st1, t1) => (Raised, st1, t1)
    end.

#[global] Instance M_ret {S : Type} : MRet (M S) := @ret S.
#[global] Instance M_bind {S : Type} : MBind (M S) :=
  fun A B k m => bind m k.

Definition raise {S A : Type} : M S A := fun st => (Raised, st, []).
Definition emit {S : Type} (e : event) : M S unit :=
  fun st => (Returned tt, st, [e]).
Definition modify {S : Type} (f : S -> S) : M S unit :=
  fun st => (Returned tt, f st, []).

(** [try: body except Exception: handler] *)
Definition try_except {S : Type} (body handler : M S unit) : M S unit :=
  fun st =>
    match body st with
    | (Raised, st1, t1) =>
        match handler st1 with
        | (r, st2, t2) => (r, st2, t1 ++ t2)
        end
    | returned => returned
    end.

(** A thread body: an exception that escapes ends the thread, not the
    program that joins it. *)
Definition thread {S : Type} (body : M S unit) : M S unit :=
  try_except body (ret tt).

Fixpoint for_each {S A : Type} (l : list A) (body : A -> M S unit)
  : M S unit :=
  match l with
  | [] => ret tt
  | x :: rest => body x ;; for_each rest body
  end.

Definition trace_of {S A : Type} (m : M S A) (st : S) : trace := snd (m st).
Definition state_of {S A : Type} (m : M S A) (st : S) : S := snd (fst (m st)).
Definition outcome_of {S A : Type} (m : M S A) (st : S) : outcome A :=
  fst (fst (m st)).

(** A statement all of whose device writes are between two bounds,
    whatever state it starts from. *)
Definition writes_only_between {S : Type} (lo hi : Z) (m : M S unit) : Prop :=
  forall st, writes_between lo hi (trace_of m st).

(** [joystick.set_axis(axis_id, value)]: the driver takes the call or
    raises; [accepts] says which. *)
Definition joystick_set_axis {S : Type} (accepts : axis -> Z -> bool)
  (axis_id : axis) (value : Z) : M S unit :=
  fun st =>
    if accepts axis_id value
    then (Returned tt, st, [SetAxis axis_id value])
    else (Raised, st, [SetAxis axis_id value]).

(** Of [joystick.set_axis] calls written one after the other, those that
    are made: the first call the driver refuses raises, so the calls
    made are those up to that one, itself included. *)
Fixpoint calls_made (accepts : axis -> Z -> bool) (calls : list (axis * Z))
  : list (axis * Z) :=
  match calls with
  | [] => []
  | c :: rest =>
      c :: (if accepts (fst c) (snd c) then calls_made accepts rest else [])
  end.



(** How a process ends: [sys.exit(arg)] and the builtin [exit(arg)] raise
    [SystemExit]; without an argument the exit status is 0. *)
Definition exit_status (arg : option Z) : Z :=
  match arg with
  | None => 0
  | Some code => code
  end.

(** An exception nobody catches prints a traceback and ends the process
    with status 1. *)
Definition uncaught_status : Z := 1.

(** Outcome of [pyvjoy.VJoyDevice(id)] at start-up. *)
Inductive device_init : Type := DeviceLoaded | DeviceError.

(** The top of a script either falls through to the rest of the file or
    ends the process with a status. *)
Inductive startup_result : Type :=
| FallsThrough (t : trace)
| Exits (status : Z) (t : trace).

(** A statement that, started in a state where [P] holds, stops, by a
    return or by an exception, in a state where [Q] holds, with a trace
    that satisfies [T]. *)
Definition hoare {S : Type} (P Q : S -> Prop) (T : trace -> Prop)
  (m : M S unit) : Prop :=
  forall st, P st -> Q (state_of m st) /\ T (trace_of m st).

(** [try: body finally: final]: [final] runs whether [body] returned
    or raised, and an exception of [body] escapes after it. *)
Definition try_finally {S : Type} (body final : M S unit) : M S unit :=
  fun st =>
    match body st with
    | (r, st1, t1) =>
        match final st1 with
        | (Returned _, st2, t2) => (r, st2, t1 ++ t2)
        | (Raised, st2, t2) => (Raised, st2, t1 ++ t2)
        end
    end.

(** The last value written to an axis in a run, [d] when there is none. *)
Definition last_write (a : axis) (d : Z) (t : trace) : Z :=
  fold_left (fun acc w => if decide (fst w = a) then snd w else acc)
    (device_writes t) d.

End IO.

(** ** test_client.py *)
Module TestClient.
Import IO.

Definition TARGET_IP : string := "127.0.0.1".
Definition VIDEO_PORT : Z := 9001.
Definition CONTROL_PORT : Z := 9000.

Definition MIN_VAL : Z := 1.
Definition MAX_VAL : Z := 32768.
Definition MID_VAL : Z := 16384.
Definition RADIUS : Z := 16000.

(** The module-level dictionary, as the file initialises it. *)
Definition stick_state : gmap string Py.value :=
  <["roll" := Py.Int MID_VAL]>
    (<["pitch" := Py.Int MID_VAL]>
       (<["yaw" := Py.Int MID_VAL]>
          (<["throttle" := Py.Int 0]> ∅))).

(** The dictionary that holds a given sample. *)
Definition state_of_sample (roll pitch yaw throttle : Z)
  : gmap string Py.value :=
  <["roll" := Py.Int roll]>
    (<["pitch" := Py.Int pitch]>
       (<["yaw" := Py.Int yaw]>
          (<["throttle" := Py.Int throttle]> ∅))).

Definition setitem (key : string) (v : Py.value)
  : M (gmap string Py.value) unit :=
  modify (fun st => <[key := v]> st).

(** [int(stick_state[key])]: [None] when the key is missing or the
    conversion raises. *)
Definition int_of_key (st : gmap string Py.value) (key : string) : option Z :=
  match st !! key with
  | Some v => Py.int v
  | None => None
  end.

(** A channel value is in range when [MIN_VAL <= v <= MAX_VAL]. *)
Definition value_in_range (v : Py.value) : bool :=
  Py.between (Py.Int MIN_VAL) (Py.Int MAX_VAL) v.

Definition int_in_range (z : Z) : bool := (MIN_VAL <=? z) && (z <=? MAX_VAL).

Definition axis_in_range (st : gmap string Py.value) (key : string) : bool :=
  match st !! key with
  | Some v => value_in_range v
  | None => false
  end.

Definition state_in_range (st : gmap string Py.value) : bool :=
  forallb (axis_in_range st) ["roll"; "pitch"; "yaw"; "throttle"].

(** The results of [math.cos] and [math.sin] lie in [-1, 1]. *)
Definition unit_interval (c : Q) : bool :=
  Qle_bool (- 1) c && Qle_bool c 1.

(** [MID_VAL + (c * RADIUS)] for a float [c]. *)
Definition around_mid (c : Q) : Py.value :=
  Py.Float (Py.Finite (inject_Z MID_VAL + c * inject_Z RADIUS)).

(** What the user does at the menu, with the run of the chosen pattern:
    for the circles one pair ([math.cos(angle)], [math.sin(angle)]) per
    turn made while [keep_running] is seen true; for the throttle ramp,
    per turn of the outer loop, the number of ramp values written before
    [keep_running] is seen false. *)
Inductive choice : Type :=
| Circles (turns : list (Q * Q))
| ThrottleUp (rounds : list nat)
| OtherKey.

Definition choice_ok (c : choice) : bool :=
  match c with
  | Circles turns =>
      forallb (fun cs => unit_interval (fst cs) && unit_interval (snd cs)) turns
  | _ => true
  end.

Section WithByteOrder.
Variable o : Struct.byteorder.

(** Whether [sock_out.sendto(packet, ...)] goes through; it raises
    otherwise. *)
Variable sendto_ok : list byte -> bool.

(** The packet [send_packet] builds; [None] when the [try] block raised
    before the [sendto]. *)
Definition packet_of (st : gmap string Py.value) : option (list byte) :=
  match int_of_key st "roll", int_of_key st "pitch",
        int_of_key st "yaw", int_of_key st "throttle" with
  | Some roll, Some pitch, Some yaw, Some throttle =>
      Struct.pack_iiii o roll pitch yaw throttle
  | _, _, _, _ => None
  end.

(** [send_packet]: every exception is caught and printed, that of the
    packing, before any call, and that of a [sendto] that raises, after
    the call. *)
Definition send_packet : M (gmap string Py.value) unit := fun st =>
  match packet_of st with
  | Some packet =>
      (Returned tt, st,
       Sendto packet TARGET_IP CONTROL_PORT
       :: (if sendto_ok packet then [] else [Print "Send Error"]))
  | None => (Returned tt, st, [Print "Send Error"])
  end.

Definition update_axis (axis_name : string) (value : Py.value)
  : M (gmap string Py.value) unit :=
  match Py.int (Py.max (Py.Int MIN_VAL) (Py.min (Py.Int MAX_VAL) value)) with
  | Some val => setitem axis_name (Py.Int val) ;; send_packet
  | None => raise
  end.

Definition center_sticks : M (gmap string Py.value) unit :=
  setitem "roll" (Py.Int MID_VAL) ;;
  setitem "pitch" (Py.Int MID_VAL) ;;
  setitem "yaw" (Py.Int MID_VAL) ;;
  setitem "throttle" (Py.Int MID_VAL) ;;
  send_packet ;;
  emit (Print " -> Sticks Centered.").

(** One turn of the loop of [circles_worker]. *)
Definition circles_iteration (cos_a sin_a : Q)
  : M (gmap string Py.value) unit :=
  setitem "yaw" (around_mid cos_a) ;;
  setitem "throttle" (around_mid sin_a) ;;
  setitem "roll" (around_mid cos_a) ;;
  setitem "pitch" (around_mid (- sin_a)) ;;
  send_packet ;;
  emit (Sleep 10).

Definition circles_worker (turns : list (Q * Q))
  : M (gmap string Py.value) unit :=
  for_each turns (fun cs => circles_iteration (fst cs) (snd cs)).

(** One turn of the outer loop of [throttle_up_worker]: the ramp up to
    the [break], then the two holds. *)
Definition throttle_up_iteration (steps : nat)
  : M (gmap string Py.value) unit :=
  for_each (firstn steps (Py.range MID_VAL MAX_VAL 1000))
    (fun i => update_axis "throttle" (Py.Int i) ;; emit (Sleep 10)) ;;
  update_axis "throttle" (Py.Int MAX_VAL) ;;
  emit (Sleep 500) ;;
  update_axis "throttle" (Py.Int MID_VAL) ;;
  emit (Sleep 500).

Definition throttle_up_worker (rounds : list nat)
  : M (gmap string Py.value) unit :=
  center_sticks ;;
  for_each rounds throttle_up_iteration.

(** [start_pattern]: the worker runs in its thread until Enter is
    pressed, then the sticks are centred. *)
Definition start_pattern (target_func : M (gmap string Py.value) unit)
  : M (gmap string Py.value) unit :=
  thread target_func ;; center_sticks.

Definition menu_choice (c : choice) : M (gmap string Py.value) unit :=
  match c with
  | Circles turns => start_pattern (circles_worker turns)
  | ThrottleUp rounds => start_pattern (throttle_up_worker rounds)
  | OtherKey => ret tt
  end.

(** The main block up to the choice of Exit: centre the sticks, then
    serve the menu; the sockets are closed at the end. *)
Definition main (choices : list choice) : M (gmap string Py.value) unit :=
  center_sticks ;;
  for_each choices menu_choice ;;
  emit (Close "sock_in") ;;
  emit (Close "sock_out").

(** The trace of the program started on the initial dictionary. *)
Definition run (choices : list choice) : trace :=
  trace_of (main choices) stick_state.

(** A datagram carries four integers of the range. *)
Definition packet_in_range (packet : list byte) : bool :=
  match Struct.unpack_iiii o packet with
  | Some (roll, pitch, yaw, throttle) =>
      forallb int_in_range [roll; pitch; yaw; throttle]
  | None => false
  end.

(** Every datagram of a run carries four integers of the range. *)
Definition transmits_in_range (t : trace) : bool :=
  forallb packet_in_range (datagrams t).

(** A statement that, started on a dictionary in range, leaves it in
    range and transmits in range; and one that does so from any
    dictionary. *)
Definition keeps_range (m : M (gmap string Py.value) unit) : Prop :=
  forall st, state_in_range st = true ->
    state_in_range (state_of m st) = true /\
    transmits_in_range (trace_of m st) = true.

Definition sets_range (m : M (gmap string Py.value) unit) : Prop :=
  forall st,
    state_in_range (state_of m st) = true /\
    transmits_in_range (trace_of m st) = true.

End WithByteOrder.

End TestClient.

(** ** test_server.py *)
Module TestServer.
Import IO.

Definition CLIENT_IP : string := "127.0.0.1".
Definition VIDEO_PORT : Z := 9001.
Definition CONTROL_PORT : Z := 9000.
Definition VJOY_DEVICE_ID : Z := 1.

(** The [try] around [pyvjoy.VJoyDevice(VJOY_DEVICE_ID)]: on an exception
    the handler prints and calls [exit()], without an argument. *)
Definition setup_vjoy (d : device_init) : startup_result :=
  match d with
  | DeviceLoaded => FallsThrough [Print "vJoy Device 1 loaded successfully."]
  | DeviceError => Exits (exit_status None) [Print "vJoy Error"]
  end.

(** What [drone_inputs_socket.recvfrom(1024)] does in one turn. *)
Inductive recv_result : Type :=
| Datagram (data : list byte)
| BlockingIOError
| ConnectionResetError
| OtherException.

Section ControlReceiver.
Variable o : Struct.byteorder.
Variable accepts : axis -> Z -> bool.

(** The body of [if len(data) == 16:]. *)
Definition apply_controls (data : list byte) : M unit unit :=
  match Struct.unpack_iiii o data with
  | Some (roll, pitch, yaw, throttle) =>
      joystick_set_axis accepts HID_USAGE_X roll ;;
      joystick_set_axis accepts HID_USAGE_Y pitch ;;
      joystick_set_axis accepts HID_USAGE_RX yaw ;;
      joystick_set_axis accepts HID_USAGE_Z throttle ;;
      (if 1000 <? throttle
       then emit (PrintRecv roll pitch yaw throttle)
       else ret tt)
  | None => raise
  end.

(** One turn of [while running:]. *)
Definition receive_iteration (r : recv_result) : M unit unit :=
  try_except
    (match r with
     | BlockingIOError => emit (Sleep 1)
     | ConnectionResetError => ret tt
     | OtherException => raise
     | Datagram data =>
         if Nat.eqb (length data) 16 then apply_controls data else ret tt
     end)
    (emit (Print "Control Error")).

(** [receive_controls], for the turns made while [running] is seen true:
    one result of [recvfrom] per turn. *)
Definition receive_controls (turns : list recv_result) : M unit unit :=
  emit (Print "Control listener thread started...") ;;
  for_each turns receive_iteration.

End ControlReceiver.

Section VideoProducer.
(** The capture source and the codec are external: [frame] is what the
    camera returns, [resize] is [cv2.resize(frame, (480, 360))] and
    [imencode] the buffer of [cv2.imencode('.jpg', frame, ...)]. *)
Variable frame : Type.
Variable resize : frame -> frame.
Variable imencode : frame -> list byte.

(** One turn of the main loop; [None] when no frame is available. *)
Definition video_iteration (latest : option frame) : M unit unit :=
  match latest with
  | Some f =>
      let buffer := imencode (resize f) in
      if Z.of_nat (length buffer) <? 65000
      then emit (Sendto buffer CLIENT_IP VIDEO_PORT)
      else ret tt
  | None => ret tt
  end.

(** The main loop up to the [KeyboardInterrupt], then its handler. *)
Definition video_loop (frames : list (option frame)) : M unit unit :=
  for_each frames video_iteration ;;
  emit (Print "Stopping...") ;;
  emit CameraStop ;;
  emit (Close "video_socket") ;;
  emit (Close "drone_inputs_socket").


End VideoProducer.

End TestServer.

(** ** calibration.py *)
Module Calibration.
Import IO.

Definition DEVICE_ID : Z := 1.
Definition MIN_VAL : Z := 1.
Definition MAX_VAL : Z := 32768.
Definition MID_VAL : Z := 16384.
Definition RADIUS : Z := 16000.

Definition AXIS_LEFT_H : axis := HID_USAGE_RX.
Definition AXIS_LEFT_V : axis := HID_USAGE_Z.
Definition AXIS_RIGHT_H : axis := HID_USAGE_X.
Definition AXIS_RIGHT_V : axis := HID_USAGE_Y.

(** The [try] around [pyvjoy.VJoyDevice(DEVICE_ID)]: [sys.exit(1)]. *)
Definition setup_vjoy (d : device_init) : startup_result :=
  match d with
  | DeviceLoaded => FallsThrough []
  | DeviceError =>
      Exits (exit_status (Some 1)) [Print "Error initializing vJoy"]
  end.

Section WithDevice.
Variable accepts : axis -> Z -> bool.

Definition set_axis (axis_id : axis) (value : Py.value) : M unit unit :=
  match Py.int (Py.max (Py.Int MIN_VAL) (Py.min (Py.Int MAX_VAL) value)) with
  | Some val => joystick_set_axis accepts axis_id val
  | None => raise
  end.

Definition center_sticks : M unit unit :=
  set_axis AXIS_LEFT_H (Py.Int MID_VAL) ;;
  set_axis AXIS_LEFT_V (Py.Int MID_VAL) ;;
  set_axis AXIS_RIGHT_H (Py.Int MID_VAL) ;;
  set_axis AXIS_RIGHT_V (Py.Int MID_VAL) ;;
  emit (Print " -> Sticks Centered.").

(** [MID_VAL + (x * RADIUS)] for a float [x]. *)
Definition around_mid (x : Q) : Py.value :=
  Py.Float (Py.Finite (inject_Z MID_VAL + x * inject_Z RADIUS)).

(** One turn of [circles_worker], from [math.cos(angle)] and
    [math.sin(angle)]. *)
Definition circles_iteration (cos_a sin_a : Q) : M unit unit :=
  set_axis AXIS_LEFT_H (around_mid cos_a) ;;
  set_axis AXIS_LEFT_V (around_mid sin_a) ;;
  set_axis AXIS_RIGHT_H (around_mid cos_a) ;;
  set_axis AXIS_RIGHT_V (around_mid (- sin_a)) ;;
  emit (Sleep 10).

Definition circles_worker (turns : list (Q * Q)) : M unit unit :=
  for_each turns (fun cs => circles_iteration (fst cs) (snd cs)).

(** The five ramps.  As in the client, a run of a worker is given by the
    number of ramp values written, in each turn of the outer loop, before
    [keep_running] is seen false and the [for] loop left. *)
Definition throttle_up_iteration (steps : nat) : M unit unit :=
  for_each (firstn steps (Py.range MID_VAL MAX_VAL 1000))
    (fun i => set_axis AXIS_LEFT_V (Py.Int i) ;; emit (Sleep 10)) ;;
  set_axis AXIS_LEFT_V (Py.Int MAX_VAL) ;;
  emit (Sleep 500) ;;
  set_axis AXIS_LEFT_V (Py.Int MID_VAL) ;;
  emit (Sleep 500).

Definition throttle_up_worker (rounds : list nat) : M unit unit :=
  set_axis AXIS_LEFT_H (Py.Int MID_VAL) ;;
  set_axis AXIS_RIGHT_H (Py.Int MID_VAL) ;;
  set_axis AXIS_RIGHT_V (Py.Int MID_VAL) ;;
  for_each rounds throttle_up_iteration.

Definition pitch_up_iteration (steps : nat) : M unit unit :=
  for_each (firstn steps (Py.range MID_VAL MAX_VAL 1000))
    (fun i => set_axis AXIS_RIGHT_V (Py.Int i) ;; emit (Sleep 10)) ;;
  set_axis AXIS_RIGHT_V (Py.Int MAX_VAL) ;;
  emit (Sleep 500) ;;
  set_axis AXIS_RIGHT_V (Py.Int MID_VAL) ;;
  emit (Sleep 500).

Definition pitch_up_worker (rounds : list nat) : M unit unit :=
  set_axis AXIS_LEFT_H (Py.Int MID_VAL) ;;
  set_axis AXIS_LEFT_V (Py.Int MID_VAL) ;;
  set_axis AXIS_RIGHT_H (Py.Int MID_VAL) ;;
  for_each rounds pitch_up_iteration.

Definition roll_right_iteration (steps : nat) : M unit unit :=
  for_each (firstn steps (Py.range MID_VAL MAX_VAL 1000))
    (fun i => set_axis AXIS_RIGHT_H (Py.Int i) ;; emit (Sleep 10)) ;;
  set_axis AXIS_RIGHT_H (Py.Int MAX_VAL) ;;
  emit (Sleep 500) ;;
  set_axis AXIS_RIGHT_H (Py.Int MID_VAL) ;;
  emit (Sleep 500).

Definition roll_right_worker (rounds : list nat) : M unit unit :=
  set_axis AXIS_LEFT_H (Py.Int MID_VAL) ;;
  set_axis AXIS_LEFT_V (Py.Int MID_VAL) ;;
  set_axis AXIS_RIGHT_V (Py.Int MID_VAL) ;;
  for_each rounds roll_right_iteration.

Definition yaw_left_iteration (steps : nat) : M unit unit :=
  for_each (firstn steps (Py.range MID_VAL MIN_VAL (-1000)))
    (fun i => set_axis AXIS_LEFT_H (Py.Int i) ;; emit (Sleep 10)) ;;
  set_axis AXIS_LEFT_H (Py.Int MIN_VAL) ;;
  emit (Sleep 500) ;;
  set_axis AXIS_LEFT_H (Py.Int MID_VAL) ;;
  emit (Sleep 500).

Definition yaw_left_worker (rounds : list nat) : M unit unit :=
  set_axis AXIS_LEFT_V (Py.Int MID_VAL) ;;
  set_axis AXIS_RIGHT_H (Py.Int MID_VAL) ;;
  set_axis AXIS_RIGHT_V (Py.Int MID_VAL) ;;
  for_each rounds yaw_left_iteration.

Definition throttle_down_iteration (steps : nat) : M unit unit :=
  for_each (firstn steps (Py.range MID_VAL MIN_VAL (-1000)))
    (fun i => set_axis AXIS_LEFT_V (Py.Int i) ;; emit (Sleep 10)) ;;
  set_axis AXIS_LEFT_V (Py.Int MIN_VAL) ;;
  emit (Sleep 500) ;;
  set_axis AXIS_LEFT_V (Py.Int MID_VAL) ;;
  emit (Sleep 500).

Definition throttle_down_worker (rounds : list nat) : M unit unit :=
  set_axis AXIS_LEFT_H (Py.Int MID_VAL) ;;
  set_axis AXIS_RIGHT_H (Py.Int MID_VAL) ;;
  set_axis AXIS_RIGHT_V (Py.Int MID_VAL) ;;
  for_each rounds throttle_down_iteration.

(** [start_thread]: the worker runs in its thread until Enter is
    pressed, then the sticks are centred; the banner is left out. *)
Definition start_thread (target_func : M unit unit) : M unit unit :=
  thread target_func ;; center_sticks.

(** What the user selects at the menu, options 1 to 7 and anything else,
    with the run of the pattern started. *)
Inductive choice : Type :=
| Circles (turns : list (Q * Q))
| ThrottleUp (rounds : list nat)
| PitchUp (rounds : list nat)
| RollRight (rounds : list nat)
| YawLeft (rounds : list nat)
| ThrottleDown (rounds : list nat)
| ForceRecenter
| Invalid.

Definition menu_choice (c : choice) : M unit unit :=
  match c with
  | Circles turns => start_thread (circles_worker turns)
  | ThrottleUp rounds => start_thread (throttle_up_worker rounds)
  | PitchUp rounds => start_thread (pitch_up_worker rounds)
  | RollRight rounds => start_thread (roll_right_worker rounds)
  | YawLeft rounds => start_thread (yaw_left_worker rounds)
  | ThrottleDown rounds => start_thread (throttle_down_worker rounds)
  | ForceRecenter => center_sticks
  | Invalid => emit (Print "Invalid selection.")
  end.

(** [main_menu], for the selections made before option 8, which centres
    the sticks and leaves; the menu text is left out. *)
Definition main_menu (choices : list choice) : M unit unit :=
  center_sticks ;;
  for_each choices menu_choice ;;
  center_sticks.

End WithDevice.

End Calibration.

(** ** calibration_with_display.py *)
Module CalibrationWithDisplay.
Import IO.

Definition DEVICE_ID : Z := 1.
Definition MIN_VAL : Z := 1.
Definition MAX_VAL : Z := 32768.
Definition MID_VAL : Z := 16384.
Definition RADIUS : Z := 16000.

Definition AXIS_LEFT_H : axis := HID_USAGE_RX.
Definition AXIS_LEFT_V : axis := HID_USAGE_Z.
Definition AXIS_RIGHT_H : axis := HID_USAGE_X.
Definition AXIS_RIGHT_V : axis := HID_USAGE_Y.

Definition setup_vjoy (d : device_init) : startup_result :=
  match d with
  | DeviceLoaded => FallsThrough []
  | DeviceError =>
      Exits (exit_status (Some 1)) [Print "Error initializing vJoy"]
  end.

(** [axis_state]: what was last written to each axis, for the dashboard. *)
Definition axis_state : axis -> Z :=
  fun a => if decide (a = AXIS_LEFT_V) then MIN_VAL else MID_VAL.

Definition clamp (v lo hi : Py.value) : Py.value :=
  Py.max lo (Py.min hi v).

Section WithDevice.
Variable accepts : axis -> Z -> bool.

(** [set_axis]: the write, then the record of it in [axis_state]; the
    time stamp of [_touch_update] is left out. *)
Definition set_axis (axis_id : axis) (value : Py.value)
  : M (axis -> Z) unit :=
  match Py.int (clamp value (Py.Int MIN_VAL) (Py.Int MAX_VAL)) with
  | Some val =>
      joystick_set_axis accepts axis_id val ;;
      modify (fun st a => if decide (a = axis_id) then val else st a)
  | None => raise
  end.

Definition center_for_calibration : M (axis -> Z) unit :=
  set_axis AXIS_LEFT_H (Py.Int MID_VAL) ;;
  set_axis AXIS_LEFT_V (Py.Int MID_VAL) ;;
  set_axis AXIS_RIGHT_H (Py.Int MID_VAL) ;;
  set_axis AXIS_RIGHT_V (Py.Int MID_VAL).

Definition disarm_safe : M (axis -> Z) unit :=
  set_axis AXIS_LEFT_H (Py.Int MID_VAL) ;;
  set_axis AXIS_RIGHT_H (Py.Int MID_VAL) ;;
  set_axis AXIS_RIGHT_V (Py.Int MID_VAL) ;;
  set_axis AXIS_LEFT_V (Py.Int MIN_VAL).

(** [MID_VAL + int(x * RADIUS)] for a float [x]; [None] when [int]
    raises. *)
Definition around_mid (x : Q) : option Z :=
  match Py.int (Py.Float (Py.Finite (x * inject_Z RADIUS))) with
  | Some k => Some (MID_VAL + k)
  | None => None
  end.

Definition set_axis_around_mid (axis_id : axis) (x : Q)
  : M (axis -> Z) unit :=
  match around_mid x with
  | Some v => set_axis axis_id (Py.Int v)
  | None => raise
  end.

(** One turn of [circles_worker], from [math.cos(angle)] and
    [math.sin(angle)]. *)
Definition circles_iteration (cos_a sin_a : Q) : M (axis -> Z) unit :=
  set_axis_around_mid AXIS_LEFT_H cos_a ;;
  set_axis_around_mid AXIS_LEFT_V sin_a ;;
  set_axis_around_mid AXIS_RIGHT_H cos_a ;;
  set_axis_around_mid AXIS_RIGHT_V (- sin_a) ;;
  emit (Sleep 10).

Definition circles_worker (turns : list (Q * Q)) : M (axis -> Z) unit :=
  for_each turns (fun cs => circles_iteration (fst cs) (snd cs)).

(** The throttle ramp; it takes the stop event.  A run makes [full]
    whole turns of the outer loop; then the event is seen set, either by
    the [while] ([stopped = None]) or inside the [for] loop after [k]
    ramp values ([stopped = Some k]), where the worker returns at
    once. *)
Definition throttle_up_round : M (axis -> Z) unit :=
  for_each (Py.range MID_VAL MAX_VAL 1000)
    (fun i => set_axis AXIS_LEFT_V (Py.Int i) ;; emit (Sleep 10)) ;;
  set_axis AXIS_LEFT_V (Py.Int MAX_VAL) ;;
  emit (Sleep 400) ;;
  set_axis AXIS_LEFT_V (Py.Int MID_VAL) ;;
  emit (Sleep 300).

Definition throttle_up_worker (full : nat) (stopped : option nat)
  : M (axis -> Z) unit :=
  set_axis AXIS_LEFT_H (Py.Int MID_VAL) ;;
  set_axis AXIS_RIGHT_H (Py.Int MID_VAL) ;;
  set_axis AXIS_RIGHT_V (Py.Int MID_VAL) ;;
  for_each (repeat tt full) (fun _ => throttle_up_round) ;;
  match stopped with
  | Some k =>
      for_each (firstn k (Py.range MID_VAL MAX_VAL 1000))
        (fun i => set_axis AXIS_LEFT_V (Py.Int i) ;; emit (Sleep 10))
  | None => ret tt
  end.

(** [runner], the thread body of [start_pattern]: the worker, then, in
    the [finally], [disarm_safe]; the mode shown on the dashboard is left
    out. *)
Definition runner (worker_func : M (axis -> Z) unit) : M (axis -> Z) unit :=
  emit (Print "[HOTKEY] START") ;;
  try_finally worker_func (disarm_safe ;; emit (Print "[HOTKEY] END")).

End WithDevice.

(** The percentages of the dashboard.  The quotient is a float in
    Python; when it is not an integer it is at least 1/32767 away from
    one, far more than a rounding error, so [int] truncates it as it
    truncates the exact quotient. *)
Definition val_to_roll_pitch_yaw_percent (val : Z) : option Z :=
  if MID_VAL <=? val
  then match Py.truediv (100 * (val - MID_VAL)) (MAX_VAL - MID_VAL) with
       | Some q => Py.int q
       | None => None
       end
  else match Py.truediv (-100 * (MID_VAL - val)) (MID_VAL - MIN_VAL) with
       | Some q => Py.int q
       | None => None
       end.

Definition val_to_throttle_percent (val : Z) : option Z :=
  match Py.truediv (100 * (val - MIN_VAL)) (MAX_VAL - MIN_VAL) with
  | Some q => Py.int q
  | None => None
  end.

(** What [refresh] sets the four progress bars to, from [axis_state]:
    the yaw, roll and pitch bars run to 200, the throttle bar to 100. *)
Record bars : Type := {
  yaw_bar : Z;
  roll_bar : Z;
  pitch_bar : Z;
  thr_bar : Z
}.

Definition refresh (st : axis -> Z) : option bars :=
  match val_to_roll_pitch_yaw_percent (st AXIS_LEFT_H),
        val_to_roll_pitch_yaw_percent (st AXIS_RIGHT_H),
        val_to_roll_pitch_yaw_percent (st AXIS_RIGHT_V),
        val_to_throttle_percent (st AXIS_LEFT_V) with
  | Some yaw_p, Some roll_p, Some pitch_p, Some thr_p =>
      Some {| yaw_bar := 100 + yaw_p; roll_bar := 100 + roll_p;
              pitch_bar := 100 + pitch_p; thr_bar := thr_p |}
  | _, _, _, _ => None
  end.

End CalibrationWithDisplay.

(** ** movements.py *)
Module Movements.
Import IO.

Definition DEVICE_ID : Z := 1.
Definition AXIS_THROTTLE : axis := HID_USAGE_Z.
Definition MIN_VAL : Z := 1.
Definition MID_VAL : Z := 16384.
Definition MAX_VAL : Z := 32768.

(** [pyvjoy.VJoyDevice(DEVICE_ID)] is not guarded here: its exception
    is uncaught. *)
Definition setup_vjoy (d : device_init) : startup_result :=
  match d with
  | DeviceLoaded => FallsThrough []
  | DeviceError => Exits uncaught_status [Print "Traceback"]
  end.

Section WithDevice.
Variable accepts : axis -> Z -> bool.

Definition set_throttle (value : Py.value) : M unit unit :=
  match Py.int (Py.max (Py.Int MIN_VAL) (Py.min (Py.Int MAX_VAL) value)) with
  | Some val => joystick_set_axis accepts AXIS_THROTTLE val
  | None => raise
  end.

Definition gradual_throttle_drop : M unit unit :=
  emit (Print "Starting gradual drop to 0%...") ;;
  for_each (Py.range MID_VAL MIN_VAL (-100))
    (fun i => set_throttle (Py.Int i) ;; emit (Sleep 10)) ;;
  set_throttle (Py.Int MIN_VAL) ;;
  emit (Print "Throttle is now at 0% (Holding).").

Definition main : M unit unit :=
  set_throttle (Py.Int MID_VAL) ;;
  emit (Sleep 1000) ;;
  gradual_throttle_drop.

End WithDevice.

End Movements.

(** * Properties *)

Ltac lookup_keys :=
  repeat (rewrite lookup_insert_eq || rewrite lookup_insert_ne by done).

(** ** Bytes and 32-bit words *)
Module StructFacts.
Import Struct.

Lemma Z_of_byte_range (b : byte) : 0 <= Z_of_byte b < 256.
Proof.
  unfold Z_of_byte. pose proof (Byte.to_N_bounded b) as Hb.
  split; [apply N2Z.is_nonneg|].
  apply (Z.le_lt_trans _ (Z.of_N 255)); [|reflexivity].
  now apply N2Z.inj_le.
Qed.

Lemma Z_of_byte_of_Z (z : Z) : Z_of_byte (byte_of_Z z) = z mod 256.
Proof.
  unfold Z_of_byte, byte_of_Z.
  change 255 with (Z.ones 8). rewrite Z.land_ones by lia.
  change (2 ^ 8) with 256.
  pose proof (Z.mod_pos_bound z 256 ltac:(lia)) as Hm.
  destruct (Byte.of_N (Z.to_N (z mod 256))) as [b|] eqn:E.
  - apply Byte.to_of_N in E. rewrite E. apply Z2N.id. lia.
  - apply Byte.of_N_None_iff in E.
    apply N2Z.inj_lt in E. rewrite Z2N.id in E by lia.
    change (Z.of_N 255) with 255 in E. lia.
Qed.

Lemma lor_shiftl_8 (a b : Z) :
  0 <= a < 256 -> Z.lor a (Z.shiftl b 8) = a + 256 * b.
Proof.
  intros Ha. rewrite Z.shiftl_mul_pow2 by lia. change (2 ^ 8) with 256.
  rewrite <- Z.add_nocarry_lor; [lia|].
  apply Z.bits_inj'. intros n Hn.
  rewrite Z.land_spec, Z.bits_0.
  destruct (Z.lt_ge_cases n 8) as [Hlt|Hge].
  - replace (b * 256) with (Z.shiftl b 8)
      by (rewrite Z.shiftl_mul_pow2 by lia; reflexivity).
    rewrite (Z.shiftl_spec_low b 8 n Hlt). apply andb_false_r.
  - destruct (Z.eq_dec a 0) as [->|Hnz]; [now rewrite Z.bits_0|].
    rewrite (Z.bits_above_log2 a n); [reflexivity|lia|].
    apply (Z.lt_le_trans _ 8); [|exact Hge].
    apply Z.log2_lt_pow2; [lia|]. change (2 ^ 8) with 256. lia.
Qed.

Lemma word_of_four (a b c d : byte) :
  word_of_bytes [a; b; c; d]
  = Z_of_byte a + 256 * (Z_of_byte b + 256 * (Z_of_byte c + 256 * Z_of_byte d)).
Proof.
  unfold word_of_bytes. cbn [fold_right].
  rewrite Z.shiftl_0_l, Z.lor_0_r.
  rewrite !lor_shiftl_8 by apply Z_of_byte_range. reflexivity.
Qed.

Lemma word_of_four_range (a b c d : byte) :
  0 <= word_of_bytes [a; b; c; d] < 2 ^ 32.
Proof.
  rewrite word_of_four.
  pose proof (Z_of_byte_range a). pose proof (Z_of_byte_range b).
  pose proof (Z_of_byte_range c). pose proof (Z_of_byte_range d).
  change (2 ^ 32) with 4294967296. lia.
Qed.

Lemma word_of_word_bytes (u : Z) :
  0 <= u < 2 ^ 32 -> word_of_bytes (word_bytes u) = u.
Proof.
  intros Hu. unfold word_bytes. rewrite word_of_four.
  rewrite !Z_of_byte_of_Z, !Z.shiftr_div_pow2 by lia.
  change (2 ^ 32) with 4294967296 in Hu.
  change (2 ^ 8) with 256. change (2 ^ 16) with 65536.
  change (2 ^ 24) with 16777216.
  Z.to_euclidean_division_equations. lia.
Qed.

Lemma in_order_twice (o : byteorder) (l : list byte) :
  in_order o (in_order o l) = l.
Proof. destruct o; [reflexivity|apply rev_involutive]. Qed.

Lemma signed32_mod (v : Z) :
  INT_MIN <= v <= INT_MAX -> signed32 (v mod 2 ^ 32) = v.
Proof.
  unfold INT_MIN, INT_MAX, signed32.
  change (2 ^ 31) with 2147483648. change (2 ^ 32) with 4294967296.
  intros Hv. destruct (Z.ltb_spec (v mod 4294967296) 2147483648);
    Z.to_euclidean_division_equations; lia.
Qed.

Lemma signed32_range (u : Z) :
  0 <= u < 2 ^ 32 -> INT_MIN <= signed32 u <= INT_MAX.
Proof.
  unfold INT_MIN, INT_MAX, signed32.
  change (2 ^ 31) with 2147483648. change (2 ^ 32) with 4294967296.
  intros Hu. destruct (Z.ltb_spec u 2147483648); lia.
Qed.

(** One field survives the trip, in either byte order. *)
Lemma unpack_pack_i (o : byteorder) (v : Z) :
  INT_MIN <= v <= INT_MAX ->
  exists b0 b1 b2 b3,
    pack_i o v = Some [b0; b1; b2; b3] /\ unpack_i o [b0; b1; b2; b3] = v.
Proof.
  intros Hv. unfold pack_i.
  destruct (Z.leb_spec INT_MIN v); [|lia].
  destruct (Z.leb_spec v INT_MAX); [|lia]. cbn [andb].
  assert (Hw : unpack_i o (in_order o (word_bytes (v mod 2 ^ 32))) = v).
  { unfold unpack_i. rewrite in_order_twice, word_of_word_bytes.
    - now apply signed32_mod.
    - apply Z.mod_pos_bound. reflexivity. }
  destruct o; cbn [in_order word_bytes rev app] in *; eauto 6.
Qed.

Lemma unpack_i_range (o : byteorder) (a b c d : byte) :
  INT_MIN <= unpack_i o [a; b; c; d] <= INT_MAX.
Proof.
  unfold unpack_i. apply signed32_range.
  destruct o; cbn [in_order rev app]; apply word_of_four_range.
Qed.

Lemma unpack_pack_iiii (o : byteorder) (a b c d : Z) :
  INT_MIN <= a <= INT_MAX -> INT_MIN <= b <= INT_MAX ->
  INT_MIN <= c <= INT_MAX -> INT_MIN <= d <= INT_MAX ->
  exists packet,
    pack_iiii o a b c d = Some packet /\ length packet = 16%nat /\
    unpack_iiii o packet = Some (a, b, c, d).
Proof.
  intros Ha Hb Hc Hd. unfold pack_iiii.
  destruct (unpack_pack_i o a Ha) as (a0 & a1 & a2 & a3 & -> & Ea).
  destruct (unpack_pack_i o b Hb) as (b0 & b1 & b2 & b3 & -> & Eb).
  destruct (unpack_pack_i o c Hc) as (c0 & c1 & c2 & c3 & -> & Ec).
  destruct (unpack_pack_i o d Hd) as (d0 & d1 & d2 & d3 & -> & Ed).
  eexists. split; [reflexivity|]. split; [reflexivity|].
  cbn [app unpack_iiii]. now rewrite Ea, Eb, Ec, Ed.
Qed.

Lemma unpack_iiii_16 (o : byteorder) (data : list byte) :
  length data = 16%nat ->
  exists a b c d,
    unpack_iiii o data = Some (a, b, c, d) /\
    (INT_MIN <= a <= INT_MAX) /\ (INT_MIN <= b <= INT_MAX) /\
    (INT_MIN <= c <= INT_MAX) /\ (INT_MIN <= d <= INT_MAX).
Proof.
  intros Hlen.
  do 17 (destruct data as [|? data]; try discriminate Hlen).
  cbn [unpack_iiii]. do 4 eexists. split; [reflexivity|].
  repeat split; apply unpack_i_range.
Qed.

Lemma unpack_iiii_not_16 (o : byteorder) (data : list byte) :
  length data <> 16%nat -> unpack_iiii o data = None.
Proof.
  intros Hlen.
  do 17 (destruct data as [|? data]; try reflexivity).
  now contradiction Hlen.
Qed.

End StructFacts.

(** ** Comparisons, clamping and truncation *)
Module PyFacts.

Lemma Qcompare_inject_Z (a b : Z) :
  Qcompare (inject_Z a) (inject_Z b) = Z.compare a b.
Proof. unfold Qcompare, inject_Z. cbn. now rewrite !Z.mul_1_r. Qed.

Lemma lt_Int (a b : Z) : Py.lt (Py.Int a) (Py.Int b) = (a <? b).
Proof.
  unfold Py.lt. cbn. unfold Py.Qltb. rewrite Qcompare_inject_Z.
  unfold Z.ltb. now destruct (a ?= b).
Qed.

Lemma eq_Int (a b : Z) : Py.eq (Py.Int a) (Py.Int b) = (a =? b).
Proof.
  unfold Py.eq. cbn. unfold Py.Qeqb. rewrite Qcompare_inject_Z.
  destruct (Z.compare_spec a b), (Z.eqb_spec a b); try reflexivity; lia.
Qed.

Lemma le_Int (a b : Z) : Py.le (Py.Int a) (Py.Int b) = (a <=? b).
Proof.
  unfold Py.le. rewrite lt_Int, eq_Int.
  destruct (Z.ltb_spec a b), (Z.eqb_spec a b), (Z.leb_spec a b);
    cbn; try reflexivity; lia.
Qed.

Lemma between_Int (lo hi z : Z) :
  Py.between (Py.Int lo) (Py.Int hi) (Py.Int z) = (lo <=? z) && (z <=? hi).
Proof. unfold Py.between. now rewrite !le_Int. Qed.

Lemma lt_le (a b : Py.value) : Py.lt a b = true -> Py.le a b = true.
Proof. unfold Py.le. now intros ->. Qed.

Lemma Qle_le (a b : Q) :
  (a <= b)%Q -> Py.le (Py.Float (Py.Finite a)) (Py.Float (Py.Finite b)) = true.
Proof.
  intros H. apply Qle_alt in H. unfold Py.le, Py.lt, Py.eq. cbn.
  unfold Py.Qltb, Py.Qeqb.
  destruct (Qcompare a b) eqn:E; try reflexivity. now contradiction H.
Qed.

(** What [max(lo, min(hi, v))] returns, for integer bounds [lo < hi]:
    a bound, or [v] itself when it is strictly between them. *)
Lemma clamp_cases (lo hi : Z) (v : Py.value) :
  lo < hi ->
  let c := Py.max (Py.Int lo) (Py.min (Py.Int hi) v) in
  c = Py.Int lo \/ c = Py.Int hi \/
  (c = v /\ Py.lt (Py.Int lo) v = true /\ Py.lt v (Py.Int hi) = true).
Proof.
  intros Hlt c. subst c. unfold Py.max, Py.min, Py.gt.
  destruct (Py.lt v (Py.Int hi)) eqn:Ehi.
  - destruct (Py.lt (Py.Int lo) v) eqn:Elo; auto.
  - rewrite lt_Int. destruct (Z.ltb_spec lo hi); [auto|lia].
Qed.

Lemma clamp_between (lo hi : Z) (v : Py.value) :
  lo < hi ->
  Py.between (Py.Int lo) (Py.Int hi)
    (Py.max (Py.Int lo) (Py.min (Py.Int hi) v)) = true.
Proof.
  intros Hlt.
  destruct (clamp_cases lo hi v Hlt) as [->|[->|(-> & Hlo & Hhi)]].
  - rewrite between_Int. lia.
  - rewrite between_Int. lia.
  - unfold Py.between. now rewrite (lt_le _ _ Hlo), (lt_le _ _ Hhi).
Qed.

(** A number between two integer bounds truncates to an integer between
    them. *)
Lemma int_between (lo hi : Z) (v : Py.value) :
  0 <= lo ->
  Py.between (Py.Int lo) (Py.Int hi) v = true ->
  exists z, Py.int v = Some z /\ lo <= z <= hi.
Proof.
  intros Hlo Hb. destruct v as [z|[[n d]|[|]|]].
  - rewrite between_Int in Hb. exists z. split; [reflexivity|lia].
  - exists (Z.quot n (Z.pos d)). split; [reflexivity|].
    unfold Py.between, Py.le, Py.lt, Py.eq in Hb. cbn in Hb.
    unfold Py.Qltb, Py.Qeqb, Qcompare in Hb. cbn in Hb.
    rewrite !Z.mul_1_r in Hb. apply andb_prop in Hb as [H1 H2].
    assert (lo * Z.pos d <= n)
      by (destruct (Z.compare_spec (lo * Z.pos d) n); [lia|lia|discriminate]).
    assert (n <= hi * Z.pos d)
      by (destruct (Z.compare_spec n (hi * Z.pos d)); [lia|lia|discriminate]).
    assert (0 <= n) by nia.
    rewrite Z.quot_div_nonneg by lia. split.
    + apply Z.div_le_lower_bound; lia.
    + apply Z.div_le_upper_bound; lia.
  - discriminate Hb.
  - discriminate Hb.
  - discriminate Hb.
Qed.

(** [int(max(lo, min(hi, v)))] never raises: it is an integer between the
    bounds, whatever [v] is. *)
Lemma int_clamp (lo hi : Z) (v : Py.value) :
  0 <= lo -> lo < hi ->
  exists z, Py.int (Py.max (Py.Int lo) (Py.min (Py.Int hi) v)) = Some z /\
            lo <= z <= hi.
Proof.
  intros H0 Hlt. apply int_between; [exact H0|]. now apply clamp_between.
Qed.

End PyFacts.

(** ** The control codec *)

Lemma int_in_range_int32 (z : Z) :
  TestClient.int_in_range z = true -> Struct.INT_MIN <= z <= Struct.INT_MAX.
Proof.
  unfold TestClient.int_in_range, TestClient.MIN_VAL, TestClient.MAX_VAL,
    Struct.INT_MIN, Struct.INT_MAX.
  change (2 ^ 31) with 2147483648. lia.
Qed.

(** Four integers of the range are packed, and unpack to themselves. *)
Lemma packet_of_in_range (o : Struct.byteorder) (st : gmap string Py.value)
  (roll pitch yaw throttle : Z) :
  TestClient.int_of_key st "roll" = Some roll ->
  TestClient.int_of_key st "pitch" = Some pitch ->
  TestClient.int_of_key st "yaw" = Some yaw ->
  TestClient.int_of_key st "throttle" = Some throttle ->
  forallb TestClient.int_in_range [roll; pitch; yaw; throttle] = true ->
  exists packet,
    TestClient.packet_of o st = Some packet /\ length packet = 16%nat /\
    Struct.unpack_iiii o packet = Some (roll, pitch, yaw, throttle).
Proof.
  intros Er Ep Ey Et Hall. unfold TestClient.packet_of.
  rewrite Er, Ep, Ey, Et. cbn [forallb] in Hall.
  apply andb_prop in Hall as [Hr Hall]. apply andb_prop in Hall as [Hp Hall].
  apply andb_prop in Hall as [Hy Hall]. apply andb_prop in Hall as [Ht _].
  apply StructFacts.unpack_pack_iiii; now apply int_in_range_int32.
Qed.

(** C1: for every sample whose four values are integers of
    [MIN_VAL, MAX_VAL] = [1, 32768], [send_packet] sends one 16-byte
    datagram, the [struct.pack('iiii', ...)] of the sample, and
    [struct.unpack('iiii', ...)] of that datagram is the sample again:
    decode(encode(s)) == s, in either byte order, and whether the
    [sendto] goes through or raises. *)
Theorem control_packet_roundtrip (o : Struct.byteorder)
  (sendto_ok : list byte -> bool) (roll pitch yaw throttle : Z) :
  TestClient.MIN_VAL <= roll <= TestClient.MAX_VAL ->
  TestClient.MIN_VAL <= pitch <= TestClient.MAX_VAL ->
  TestClient.MIN_VAL <= yaw <= TestClient.MAX_VAL ->
  TestClient.MIN_VAL <= throttle <= TestClient.MAX_VAL ->
  exists packet,
    IO.trace_of (TestClient.send_packet o sendto_ok)
      (TestClient.state_of_sample roll pitch yaw throttle)
    = IO.Sendto packet TestClient.TARGET_IP TestClient.CONTROL_PORT
      :: (if sendto_ok packet then [] else [IO.Print "Send Error"]) /\
    length packet = 16%nat /\
    Struct.unpack_iiii o packet = Some (roll, pitch, yaw, throttle).
Proof.
  intros Hr Hp Hy Ht.
  destruct (packet_of_in_range o
              (TestClient.state_of_sample roll pitch yaw throttle)
              roll pitch yaw throttle) as (packet & Epk & Hlen & Hun).
  - unfold TestClient.int_of_key, TestClient.state_of_sample.
    now lookup_keys.
  - unfold TestClient.int_of_key, TestClient.state_of_sample.
    now lookup_keys.
  - unfold TestClient.int_of_key, TestClient.state_of_sample.
    now lookup_keys.
  - unfold TestClient.int_of_key, TestClient.state_of_sample.
    now lookup_keys.
  - unfold TestClient.int_in_range. cbn [forallb].
    repeat (apply andb_true_intro; split); try reflexivity; lia.
  - exists packet. repeat split; try assumption.
    unfold IO.trace_of, TestClient.send_packet. now rewrite Epk.
Qed.

Lemma control_packet_roundtrip_witness :
  exists packet,
    IO.trace_of (TestClient.send_packet Struct.LittleEndian (fun _ => true))
      (TestClient.state_of_sample 16384 16384 16384 1)
    = [IO.Sendto packet TestClient.TARGET_IP TestClient.CONTROL_PORT] /\
    length packet = 16%nat /\
    Struct.unpack_iiii Struct.LittleEndian packet
    = Some (16384, 16384, 16384, 1).
Proof.
  apply (control_packet_roundtrip Struct.LittleEndian (fun _ => true)
           16384 16384 16384 1);
    unfold TestClient.MIN_VAL, TestClient.MAX_VAL; lia.
Defined.

(** ** Clamping *)

Lemma eq_refl_above (lo : Z) (v : Py.value) :
  Py.lt (Py.Int lo) v = true -> Py.eq v v = true.
Proof.
  destruct v as [z|[q|s|]]; intros H.
  - rewrite PyFacts.eq_Int. apply Z.eqb_refl.
  - unfold Py.eq. cbn. unfold Py.Qeqb.
    now rewrite (proj1 (Qeq_alt q q) (Qeq_refl q)).
  - unfold Py.eq. cbn. now destruct s.
  - discriminate H.
Qed.

(** C4: for every value [v], [clamp(v) = max(MIN_VAL, min(MAX_VAL, v))]
    lies in [MIN_VAL, MAX_VAL], and clamping it again returns it:
    clamp(clamp(v)) == clamp(v). *)
Theorem clamp_in_range_idempotent (v : Py.value) :
  let lo := Py.Int CalibrationWithDisplay.MIN_VAL in
  let hi := Py.Int CalibrationWithDisplay.MAX_VAL in
  let c := CalibrationWithDisplay.clamp v lo hi in
  Py.between lo hi c = true /\
  CalibrationWithDisplay.clamp c lo hi = c /\
  Py.eq (CalibrationWithDisplay.clamp c lo hi) c = true.
Proof.
  cbv zeta. unfold CalibrationWithDisplay.clamp,
    CalibrationWithDisplay.MIN_VAL, CalibrationWithDisplay.MAX_VAL.
  split; [now apply PyFacts.clamp_between|].
  destruct (PyFacts.clamp_cases 1 32768 v ltac:(lia))
    as [->|[->|(-> & Hlo & Hhi)]].
  - split; reflexivity.
  - split; reflexivity.
  - assert (E : Py.max (Py.Int 1) (Py.min (Py.Int 32768) v) = v)
      by (unfold Py.max, Py.min, Py.gt; now rewrite Hhi, Hlo).
    rewrite E. split; [reflexivity|]. now apply (eq_refl_above 1).
Qed.

(** The three helpers write one value, an integer of the range. *)
Lemma joystick_set_axis_writes {S : Type} (accepts : IO.axis -> Z -> bool)
  (a : IO.axis) (z : Z) (st : S) :
  IO.device_writes (IO.trace_of (IO.joystick_set_axis accepts a z) st)
  = [(a, z)].
Proof.
  unfold IO.trace_of, IO.joystick_set_axis. now destruct (accepts a z).
Qed.

Section DeviceWrites.
Variable accepts : IO.axis -> Z -> bool.
Variables lo hi : Z.

Lemma writes_between_app (t1 t2 : IO.trace) :
  IO.writes_between lo hi t1 -> IO.writes_between lo hi t2 ->
  IO.writes_between lo hi (t1 ++ t2).
Proof.
  unfold IO.writes_between, IO.device_writes. intros H1 H2.
  rewrite flat_map_app. apply Forall_app. now split.
Qed.

Lemma writes_bind {S : Type} (m1 m2 : IO.M S unit) :
  IO.writes_only_between lo hi m1 -> IO.writes_only_between lo hi m2 ->
  IO.writes_only_between lo hi (m1 ;; m2).
Proof.
  unfold IO.writes_only_between, IO.trace_of. intros H1 H2 st.
  specialize (H1 st). unfold mbind, IO.M_bind, IO.bind.
  destruct (m1 st) as [[[[]|] st1] t1]; cbn [snd] in *; [|exact H1].
  specialize (H2 st1). destruct (m2 st1) as [[r2 st2] t2]. cbn [snd] in *.
  now apply writes_between_app.
Qed.

Lemma writes_emit {S : Type} (e : IO.event) :
  IO.device_writes [e] = [] ->
  IO.writes_only_between lo hi (IO.emit (S := S) e).
Proof.
  intros He st. unfold IO.writes_between, IO.trace_of, IO.emit. cbn [snd].
  rewrite He. constructor.
Qed.

Lemma writes_for_each {S A : Type} (l : list A) (body : A -> IO.M S unit) :
  (forall x, IO.writes_only_between lo hi (body x)) ->
  IO.writes_only_between lo hi (IO.for_each l body).
Proof.
  intros Hbody. induction l as [|x l IH]; cbn [IO.for_each].
  - intros st. constructor.
  - now apply writes_bind.
Qed.

Lemma writes_joystick_set_axis {S : Type} (a : IO.axis) (z : Z) :
  lo <= z <= hi ->
  IO.writes_only_between lo hi (IO.joystick_set_axis (S := S) accepts a z).
Proof.
  intros Hz st. unfold IO.writes_between.
  rewrite joystick_set_axis_writes. now repeat constructor.
Qed.

End DeviceWrites.

Lemma writes_calibration_set_axis (accepts : IO.axis -> Z -> bool)
  (a : IO.axis) (v : Py.value) :
  IO.writes_only_between 1 32768 (Calibration.set_axis accepts a v).
Proof.
  unfold Calibration.set_axis, Calibration.MIN_VAL, Calibration.MAX_VAL.
  destruct (PyFacts.int_clamp 1 32768 v ltac:(lia) ltac:(lia))
    as (val & -> & Hval).
  now apply writes_joystick_set_axis.
Qed.

Lemma writes_display_set_axis (accepts : IO.axis -> Z -> bool)
  (a : IO.axis) (v : Py.value) :
  IO.writes_only_between 1 32768 (CalibrationWithDisplay.set_axis accepts a v).
Proof.
  unfold CalibrationWithDisplay.set_axis, CalibrationWithDisplay.clamp,
    CalibrationWithDisplay.MIN_VAL, CalibrationWithDisplay.MAX_VAL.
  destruct (PyFacts.int_clamp 1 32768 v ltac:(lia) ltac:(lia))
    as (val & -> & Hval).
  apply writes_bind; [now apply writes_joystick_set_axis|].
  intros st. constructor.
Qed.

Lemma writes_set_throttle (accepts : IO.axis -> Z -> bool) (v : Py.value) :
  IO.writes_only_between 1 32768 (Movements.set_throttle accepts v).
Proof.
  unfold Movements.set_throttle, Movements.MIN_VAL, Movements.MAX_VAL.
  destruct (PyFacts.int_clamp 1 32768 v ltac:(lia) ltac:(lia))
    as (val & -> & Hval).
  now apply writes_joystick_set_axis.
Qed.

(** C10: in the local calibration tools every write to the output device
    goes through a clamping helper: whatever value it is given (an
    integer, a float with a fraction, an infinity, a NaN, in or out of
    range), [set_axis] of calibration.py, [set_axis] of
    calibration_with_display.py and [set_throttle] of movements.py make
    exactly one call to [joystick.set_axis], with an integer of
    [MIN_VAL, MAX_VAL] = [1, 32768]; so the writes of the code built on
    them (the script of movements.py, the centring, disarming and circle
    steps of the two calibration files) are all in that range. *)
Theorem calibration_writes_in_range (accepts : IO.axis -> Z -> bool)
  (axis_id : IO.axis) (value : Py.value) (shown : IO.axis -> Z)
  (cos_a sin_a : Q) :
  (exists val,
     IO.device_writes
       (IO.trace_of (Calibration.set_axis accepts axis_id value) tt)
     = [(axis_id, val)] /\
     Calibration.MIN_VAL <= val <= Calibration.MAX_VAL) /\
  (exists val,
     IO.device_writes
       (IO.trace_of (CalibrationWithDisplay.set_axis accepts axis_id value)
          shown)
     = [(axis_id, val)] /\
     CalibrationWithDisplay.MIN_VAL <= val <= CalibrationWithDisplay.MAX_VAL) /\
  (exists val,
     IO.device_writes
       (IO.trace_of (Movements.set_throttle accepts value) tt)
     = [(Movements.AXIS_THROTTLE, val)] /\
     Movements.MIN_VAL <= val <= Movements.MAX_VAL) /\
  IO.writes_only_between 1 32768 (Movements.main accepts) /\
  IO.writes_only_between 1 32768 (Calibration.center_sticks accepts) /\
  IO.writes_only_between 1 32768
    (Calibration.circles_iteration accepts cos_a sin_a) /\
  IO.writes_only_between 1 32768
    (CalibrationWithDisplay.center_for_calibration accepts) /\
  IO.writes_only_between 1 32768 (CalibrationWithDisplay.disarm_safe accepts).
Proof.
  destruct (PyFacts.int_clamp 1 32768 value ltac:(lia) ltac:(lia))
    as (val & Eval & Hval).
  split; [|split; [|split]].
  - exists val. split; [|exact Hval].
    unfold Calibration.set_axis, Calibration.MIN_VAL, Calibration.MAX_VAL.
    rewrite Eval. apply joystick_set_axis_writes.
  - exists val. split; [|exact Hval].
    unfold CalibrationWithDisplay.set_axis, CalibrationWithDisplay.clamp,
      CalibrationWithDisplay.MIN_VAL, CalibrationWithDisplay.MAX_VAL.
    rewrite Eval. unfold IO.trace_of, mbind, IO.M_bind, IO.bind,
      IO.joystick_set_axis, IO.modify.
    now destruct (accepts axis_id val).
  - exists val. split; [|exact Hval].
    unfold Movements.set_throttle, Movements.MIN_VAL, Movements.MAX_VAL.
    rewrite Eval. apply joystick_set_axis_writes.
  - repeat split.
    + unfold Movements.main, Movements.gradual_throttle_drop.
      apply writes_bind; [apply writes_set_throttle|].
      apply writes_bind; [now apply writes_emit|].
      apply writes_bind; [now apply writes_emit|].
      apply writes_bind.
      { apply writes_for_each. intros i.
        apply writes_bind; [apply writes_set_throttle|now apply writes_emit]. }
      apply writes_bind; [apply writes_set_throttle|now apply writes_emit].
    + unfold Calibration.center_sticks.
      do 4 (apply writes_bind; [apply writes_calibration_set_axis|]).
      now apply writes_emit.
    + unfold Calibration.circles_iteration.
      do 4 (apply writes_bind; [apply writes_calibration_set_axis|]).
      now apply writes_emit.
    + unfold CalibrationWithDisplay.center_for_calibration.
      do 3 (apply writes_bind; [apply writes_display_set_axis|]).
      apply writes_display_set_axis.
    + unfold CalibrationWithDisplay.disarm_safe.
      do 3 (apply writes_bind; [apply writes_display_set_axis|]).
      apply writes_display_set_axis.
Qed.

(** ** The dictionary of the client stays in range *)
Section ClientRange.
Variable o : Struct.byteorder.
Variable sendto_ok : list byte -> bool.

Local Abbreviation dict := (gmap string Py.value).

Lemma transmits_app (t1 t2 : IO.trace) :
  TestClient.transmits_in_range o (t1 ++ t2)
  = TestClient.transmits_in_range o t1 && TestClient.transmits_in_range o t2.
Proof.
  unfold TestClient.transmits_in_range, IO.datagrams.
  now rewrite flat_map_app, forallb_app.
Qed.

Lemma keeps_bind (m1 m2 : IO.M dict unit) :
  TestClient.keeps_range o m1 -> TestClient.keeps_range o m2 ->
  TestClient.keeps_range o (m1 ;; m2).
Proof.
  unfold TestClient.keeps_range, IO.state_of, IO.trace_of.
  intros H1 H2 st Hst. specialize (H1 st Hst).
  unfold mbind, IO.M_bind, IO.bind.
  destruct (m1 st) as [[r1 st1] t1]. cbn [fst snd] in H1.
  destruct H1 as [Hs1 Ht1]. destruct r1 as [[]|]; [|now split].
  specialize (H2 st1 Hs1). destruct (m2 st1) as [[r2 st2] t2].
  cbn [fst snd] in *. destruct H2 as [Hs2 Ht2].
  split; [exact Hs2|]. now rewrite transmits_app, Ht1, Ht2.
Qed.

Lemma sets_bind (m1 m2 : IO.M dict unit) :
  TestClient.sets_range o m1 -> TestClient.keeps_range o m2 ->
  TestClient.sets_range o (m1 ;; m2).
Proof.
  unfold TestClient.sets_range, TestClient.keeps_range, IO.state_of,
    IO.trace_of.
  intros H1 H2 st. specialize (H1 st).
  unfold mbind, IO.M_bind, IO.bind.
  destruct (m1 st) as [[r1 st1] t1]. cbn [fst snd] in H1.
  destruct H1 as [Hs1 Ht1]. destruct r1 as [[]|]; [|now split].
  specialize (H2 st1 Hs1). destruct (m2 st1) as [[r2 st2] t2].
  cbn [fst snd] in *. destruct H2 as [Hs2 Ht2].
  split; [exact Hs2|]. now rewrite transmits_app, Ht1, Ht2.
Qed.

Lemma keeps_of_sets (m : IO.M dict unit) :
  TestClient.sets_range o m -> TestClient.keeps_range o m.
Proof. intros H st _. apply H. Qed.

Lemma keeps_ret : TestClient.keeps_range o (IO.ret tt).
Proof. intros st Hst. now split. Qed.

Lemma keeps_emit (e : IO.event) :
  IO.datagrams [e] = [] -> TestClient.keeps_range o (IO.emit e).
Proof.
  intros He st Hst. split; [exact Hst|].
  unfold IO.trace_of, IO.emit, TestClient.transmits_in_range. cbn [snd].
  now rewrite He.
Qed.

Lemma keeps_thread (m : IO.M dict unit) :
  TestClient.keeps_range o m -> TestClient.keeps_range o (IO.thread m).
Proof.
  intros H st Hst. specialize (H st Hst).
  unfold IO.state_of, IO.trace_of, IO.thread, IO.try_except, IO.ret in *.
  destruct (m st) as [[r1 st1] t1]. cbn [fst snd] in H.
  destruct r1; cbn [fst snd]; [exact H|]. now rewrite app_nil_r.
Qed.

Lemma keeps_for_each {A : Type} (l : list A) (body : A -> IO.M dict unit) :
  Forall (fun x => TestClient.keeps_range o (body x)) l ->
  TestClient.keeps_range o (IO.for_each l body).
Proof.
  induction 1 as [|x l Hx _ IH]; cbn [IO.for_each].
  - apply keeps_ret.
  - now apply keeps_bind.
Qed.

Lemma state_in_range_keys (st : dict) :
  TestClient.state_in_range st = true <->
  TestClient.axis_in_range st "roll" = true /\
  TestClient.axis_in_range st "pitch" = true /\
  TestClient.axis_in_range st "yaw" = true /\
  TestClient.axis_in_range st "throttle" = true.
Proof.
  unfold TestClient.state_in_range. cbn [forallb].
  rewrite !andb_true_iff. tauto.
Qed.

Lemma axis_in_range_insert (st : dict) (k key : string) (v : Py.value) :
  TestClient.value_in_range v = true ->
  TestClient.axis_in_range st key = true ->
  TestClient.axis_in_range (<[k := v]> st) key = true.
Proof.
  intros Hv Hk. unfold TestClient.axis_in_range in *.
  rewrite lookup_insert. now case_decide.
Qed.

Lemma keeps_setitem (k : string) (v : Py.value) :
  TestClient.value_in_range v = true ->
  TestClient.keeps_range o (TestClient.setitem k v).
Proof.
  intros Hv st Hst. split; [|reflexivity].
  unfold IO.state_of, TestClient.setitem, IO.modify. cbn [fst snd].
  apply state_in_range_keys in Hst as (Hr & Hp & Hy & Ht).
  apply state_in_range_keys.
  repeat split; now apply axis_in_range_insert.
Qed.

Lemma int_of_key_in_range (st : dict) (key : string) :
  TestClient.axis_in_range st key = true ->
  exists z, TestClient.int_of_key st key = Some z /\
            TestClient.int_in_range z = true.
Proof.
  unfold TestClient.axis_in_range, TestClient.int_of_key,
    TestClient.value_in_range.
  destruct (st !! key) as [v|]; [|discriminate]. intros Hv.
  destruct (PyFacts.int_between TestClient.MIN_VAL TestClient.MAX_VAL v
              ltac:(unfold TestClient.MIN_VAL; lia) Hv) as (z & Ez & Hz).
  exists z. split; [exact Ez|]. unfold TestClient.int_in_range. lia.
Qed.

(** On a dictionary in range [send_packet] sends one datagram, and the
    datagram is in range. *)
Lemma keeps_send_packet :
  TestClient.keeps_range o (TestClient.send_packet o sendto_ok).
Proof.
  intros st Hst.
  pose proof Hst as Hkeys.
  apply state_in_range_keys in Hkeys as (Hr & Hp & Hy & Ht).
  destruct (int_of_key_in_range st _ Hr) as (r & Er & Ir).
  destruct (int_of_key_in_range st _ Hp) as (p & Ep & Ip).
  destruct (int_of_key_in_range st _ Hy) as (y & Ey & Iy).
  destruct (int_of_key_in_range st _ Ht) as (t & Et & It).
  assert (Hall : forallb TestClient.int_in_range [r; p; y; t] = true)
    by (cbn [forallb]; now rewrite Ir, Ip, Iy, It).
  destruct (packet_of_in_range o st r p y t Er Ep Ey Et Hall)
    as (packet & Epk & _ & Hun).
  unfold IO.state_of, IO.trace_of, TestClient.send_packet. rewrite Epk.
  cbn [fst snd]. split; [exact Hst|].
  unfold TestClient.transmits_in_range.
  destruct (sendto_ok packet); cbn [IO.datagrams flat_map app forallb];
    unfold TestClient.packet_in_range; now rewrite Hun, Hall.
Qed.

Lemma value_in_range_Int (z : Z) :
  TestClient.MIN_VAL <= z <= TestClient.MAX_VAL ->
  TestClient.value_in_range (Py.Int z) = true.
Proof.
  intros Hz. unfold TestClient.value_in_range.
  rewrite PyFacts.between_Int. lia.
Qed.

Lemma keeps_update_axis (axis_name : string) (value : Py.value) :
  TestClient.keeps_range o (TestClient.update_axis o sendto_ok axis_name value).
Proof.
  unfold TestClient.update_axis, TestClient.MIN_VAL, TestClient.MAX_VAL.
  destruct (PyFacts.int_clamp 1 32768 value ltac:(lia) ltac:(lia))
    as (val & -> & Hval).
  apply keeps_bind; [|apply keeps_send_packet].
  apply keeps_setitem, value_in_range_Int.
  unfold TestClient.MIN_VAL, TestClient.MAX_VAL. lia.
Qed.

Lemma mid_in_range :
  TestClient.value_in_range (Py.Int TestClient.MID_VAL) = true.
Proof. reflexivity. Qed.

(** [center_sticks] brings any dictionary into range. *)
Lemma sets_center_sticks :
  TestClient.sets_range o (TestClient.center_sticks o sendto_ok).
Proof.
  intros st.
  set (st4 := <["throttle" := Py.Int TestClient.MID_VAL]>
                (<["yaw" := Py.Int TestClient.MID_VAL]>
                   (<["pitch" := Py.Int TestClient.MID_VAL]>
                      (<["roll" := Py.Int TestClient.MID_VAL]> st)))).
  assert (E : TestClient.center_sticks o sendto_ok st
              = (TestClient.send_packet o sendto_ok ;;
                 IO.emit (IO.Print " -> Sticks Centered.")) st4).
  { unfold TestClient.center_sticks, mbind, IO.M_bind, IO.bind,
      TestClient.setitem, IO.modify. fold st4.
    destruct (TestClient.send_packet o sendto_ok st4) as [[[[]|] s1] t1];
      reflexivity. }
  assert (Hs : TestClient.state_in_range st4 = true).
  { apply state_in_range_keys. unfold TestClient.axis_in_range, st4.
    repeat split; lookup_keys; apply mid_in_range. }
  unfold IO.state_of, IO.trace_of. rewrite E.
  apply (keeps_bind _ _ keeps_send_packet
           (keeps_emit (IO.Print " -> Sticks Centered.") eq_refl) st4 Hs).
Qed.

Lemma around_mid_in_range (c : Q) :
  TestClient.unit_interval c = true ->
  TestClient.value_in_range (TestClient.around_mid c) = true.
Proof.
  unfold TestClient.unit_interval. intros H.
  apply andb_prop in H as [H1 H2].
  apply Qle_bool_iff in H1. apply Qle_bool_iff in H2.
  unfold TestClient.value_in_range, Py.between, TestClient.around_mid.
  apply andb_true_intro. split.
  - apply (PyFacts.Qle_le (inject_Z TestClient.MIN_VAL)).
    unfold TestClient.MIN_VAL, TestClient.MID_VAL, TestClient.RADIUS, inject_Z.
    lra.
  - apply (PyFacts.Qle_le _ (inject_Z TestClient.MAX_VAL)).
    unfold TestClient.MAX_VAL, TestClient.MID_VAL, TestClient.RADIUS, inject_Z.
    lra.
Qed.

Lemma unit_interval_opp (c : Q) :
  TestClient.unit_interval c = true -> TestClient.unit_interval (- c) = true.
Proof.
  unfold TestClient.unit_interval. intros H.
  apply andb_prop in H as [H1 H2].
  apply Qle_bool_iff in H1. apply Qle_bool_iff in H2.
  apply andb_true_intro. split; apply Qle_bool_iff; lra.
Qed.

Lemma keeps_circles_iteration (cos_a sin_a : Q) :
  TestClient.unit_interval cos_a = true ->
  TestClient.unit_interval sin_a = true ->
  TestClient.keeps_range o
    (TestClient.circles_iteration o sendto_ok cos_a sin_a).
Proof.
  intros Hc Hs. unfold TestClient.circles_iteration.
  repeat apply keeps_bind;
    try (apply keeps_setitem, around_mid_in_range;
         auto using unit_interval_opp).
  - apply keeps_send_packet.
  - now apply keeps_emit.
Qed.

Lemma keeps_circles_worker (turns : list (Q * Q)) :
  TestClient.choice_ok (TestClient.Circles turns) = true ->
  TestClient.keeps_range o (TestClient.circles_worker o sendto_ok turns).
Proof.
  cbn [TestClient.choice_ok]. intros Hok.
  apply keeps_for_each. apply Forall_forall. intros [c s] Hin.
  apply list_elem_of_In in Hin.
  rewrite forallb_forall in Hok. specialize (Hok _ Hin).
  apply andb_prop in Hok as [Hc Hs]. now apply keeps_circles_iteration.
Qed.

Lemma keeps_throttle_up_worker (rounds : list nat) :
  TestClient.keeps_range o (TestClient.throttle_up_worker o sendto_ok rounds).
Proof.
  unfold TestClient.throttle_up_worker.
  apply keeps_bind; [apply keeps_of_sets, sets_center_sticks|].
  apply keeps_for_each, Forall_forall. intros steps _.
  unfold TestClient.throttle_up_iteration.
  apply keeps_bind.
  { apply keeps_for_each, Forall_forall. intros i _.
    apply keeps_bind; [apply keeps_update_axis|now apply keeps_emit]. }
  apply keeps_bind; [apply keeps_update_axis|].
  apply keeps_bind; [now apply keeps_emit|].
  apply keeps_bind; [apply keeps_update_axis|now apply keeps_emit].
Qed.

Lemma keeps_menu_choice (c : TestClient.choice) :
  TestClient.choice_ok c = true ->
  TestClient.keeps_range o (TestClient.menu_choice o sendto_ok c).
Proof.
  intros Hok. destruct c as [turns|rounds|]; cbn [TestClient.menu_choice].
  - apply keeps_bind; [|apply keeps_of_sets, sets_center_sticks].
    now apply keeps_thread, keeps_circles_worker.
  - apply keeps_bind; [|apply keeps_of_sets, sets_center_sticks].
    apply keeps_thread, keeps_throttle_up_worker.
  - apply keeps_ret.
Qed.

End ClientRange.

(** C3, as the code has it: [send_packet] does not clamp, it packs
    [int(v)] of whatever the dictionary holds; what keeps the transmitted
    values in range is the program around it.  Every datagram the client
    sends in a run (the [center_sticks] of start-up, then any menu
    choices, each running [circles_worker], with the results of
    [math.cos] and [math.sin] in [-1, 1], or [throttle_up_worker], and
    each followed by [center_sticks]) carries four integers of
    [MIN_VAL, MAX_VAL] = [1, 32768]. *)
Theorem client_transmits_in_range (o : Struct.byteorder)
  (sendto_ok : list byte -> bool) (choices : list TestClient.choice) :
  forallb TestClient.choice_ok choices = true ->
  TestClient.transmits_in_range o (TestClient.run o sendto_ok choices) = true.
Proof.
  intros Hok. unfold TestClient.run, TestClient.main.
  apply (sets_bind o).
  - apply sets_center_sticks.
  - apply keeps_bind.
    + apply keeps_for_each, Forall_forall. intros c Hin.
      apply keeps_menu_choice. rewrite forallb_forall in Hok.
      now apply Hok, list_elem_of_In.
    + apply keeps_bind; now apply keeps_emit.
Qed.

Lemma client_transmits_in_range_witness :
  let choices :=
    [TestClient.Circles [(1, 0); (0, - 1)]%Q; TestClient.ThrottleUp [2%nat];
     TestClient.OtherKey] in
  forallb TestClient.choice_ok choices = true /\
  TestClient.transmits_in_range Struct.LittleEndian
    (TestClient.run Struct.LittleEndian (fun _ => true) choices) = true.
Proof.
  split; [reflexivity|].
  apply (client_transmits_in_range Struct.LittleEndian); reflexivity.
Defined.

(** C3, as stated, fails on the dictionary the module starts with:
    [send_packet] packs its throttle, 0, as it is. *)
Lemma send_packet_passes_zero_throttle :
  exists packet,
    IO.trace_of (TestClient.send_packet Struct.LittleEndian (fun _ => true))
      TestClient.stick_state
    = [IO.Sendto packet TestClient.TARGET_IP TestClient.CONTROL_PORT] /\
    Struct.unpack_iiii Struct.LittleEndian packet
    = Some (16384, 16384, 16384, 0) /\
    TestClient.int_in_range 0 = false /\
    TestClient.transmits_in_range Struct.LittleEndian
      (IO.trace_of (TestClient.send_packet Struct.LittleEndian (fun _ => true))
         TestClient.stick_state) = false.
Proof. eexists. repeat split; vm_compute; reflexivity. Qed.

(** C9: the dictionary the client starts with is
    {roll = MID_VAL, pitch = MID_VAL, yaw = MID_VAL, throttle = 0}; its
    throttle, 0, is strictly below MIN_VAL = 1, so it is not in range; it
    is in range once [center_sticks] has run, or [update_axis] on the
    throttle, whatever value it is given. *)
Theorem initial_throttle_below_range (o : Struct.byteorder)
  (sendto_ok : list byte -> bool) :
  TestClient.stick_state !! "roll" = Some (Py.Int TestClient.MID_VAL) /\
  TestClient.stick_state !! "pitch" = Some (Py.Int TestClient.MID_VAL) /\
  TestClient.stick_state !! "yaw" = Some (Py.Int TestClient.MID_VAL) /\
  TestClient.stick_state !! "throttle" = Some (Py.Int 0) /\
  0 < TestClient.MIN_VAL /\
  TestClient.state_in_range TestClient.stick_state = false /\
  TestClient.state_in_range
    (IO.state_of (TestClient.center_sticks o sendto_ok)
       TestClient.stick_state) = true /\
  forall value,
    TestClient.state_in_range
      (IO.state_of (TestClient.update_axis o sendto_ok "throttle" value)
         TestClient.stick_state) = true.
Proof.
  do 6 (split; [reflexivity|]).
  split; [apply sets_center_sticks|].
  intros value.
  unfold TestClient.update_axis, TestClient.MIN_VAL, TestClient.MAX_VAL.
  destruct (PyFacts.int_clamp 1 32768 value ltac:(lia) ltac:(lia))
    as (val & -> & Hval).
  unfold IO.state_of, mbind, IO.M_bind, IO.bind, TestClient.setitem,
    IO.modify, TestClient.send_packet.
  destruct (TestClient.packet_of o _); cbn [fst snd];
    apply state_in_range_keys;
    unfold TestClient.axis_in_range, TestClient.stick_state;
    (repeat split; lookup_keys; try reflexivity);
    apply value_in_range_Int;
    unfold TestClient.MIN_VAL, TestClient.MAX_VAL; lia.
Qed.

(** ** The control receiver *)
Section Receiver.
Variable o : Struct.byteorder.
Variable accepts : IO.axis -> Z -> bool.

(** A turn of the receive loop never lets an exception escape. *)
Lemma receive_iteration_returns (r : TestServer.recv_result) :
  TestServer.receive_iteration o accepts r tt
  = (IO.Returned tt, tt,
     IO.trace_of (TestServer.receive_iteration o accepts r) tt).
Proof.
  unfold IO.trace_of, TestServer.receive_iteration, IO.try_except.
  match goal with
  | |- context [match ?body tt with _ => _ end] =>
      destruct (body tt) as [[[[]|] []] t]
  end; reflexivity.
Qed.

Lemma receive_turns (turns : list TestServer.recv_result) :
  IO.for_each turns (TestServer.receive_iteration o accepts) tt
  = (IO.Returned tt, tt,
     flat_map
       (fun r => IO.trace_of (TestServer.receive_iteration o accepts r) tt)
       turns).
Proof.
  induction turns as [|r turns IH]; [reflexivity|].
  cbn [IO.for_each flat_map]. unfold mbind, IO.M_bind, IO.bind.
  now rewrite receive_iteration_returns, IH.
Qed.

Lemma receive_controls_trace (turns : list TestServer.recv_result) :
  TestServer.receive_controls o accepts turns tt
  = (IO.Returned tt, tt,
     IO.Print "Control listener thread started..."
     :: flat_map
          (fun r => IO.trace_of (TestServer.receive_iteration o accepts r) tt)
          turns).
Proof.
  unfold TestServer.receive_controls, mbind, IO.M_bind, IO.bind, IO.emit.
  now rewrite receive_turns.
Qed.

End Receiver.

(** C6: a control datagram whose length is not 16 is discarded: the turn
    that receives it makes no call at all (no write to the device, no
    decoding, whose failure would be printed) and returns; the loop goes
    on with the turns that follow, as if the datagram had not come, and
    ends normally. *)
Theorem malformed_datagram_discarded (o : Struct.byteorder)
  (accepts : IO.axis -> Z -> bool) (data : list byte)
  (before after : list TestServer.recv_result) :
  length data <> 16%nat ->
  TestServer.receive_iteration o accepts (TestServer.Datagram data) tt
  = (IO.Returned tt, tt, []) /\
  TestServer.receive_controls o accepts
    (before ++ TestServer.Datagram data :: after) tt
  = TestServer.receive_controls o accepts (before ++ after) tt /\
  IO.outcome_of
    (TestServer.receive_controls o accepts
       (before ++ TestServer.Datagram data :: after)) tt
  = IO.Returned tt.
Proof.
  intros Hlen.
  assert (E : TestServer.receive_iteration o accepts
                (TestServer.Datagram data) tt = (IO.Returned tt, tt, [])).
  { unfold TestServer.receive_iteration, IO.try_except.
    destruct (Nat.eqb_spec (length data) 16); [contradiction|reflexivity]. }
  split; [exact E|]. unfold IO.outcome_of.
  rewrite !receive_controls_trace, !flat_map_app. cbn [flat_map].
  unfold IO.trace_of at 2. rewrite E. split; reflexivity.
Qed.

Lemma malformed_datagram_discarded_witness :
  let data := [x01; x02; x03] in
  let before := [TestServer.BlockingIOError] in
  let after := [TestServer.Datagram (repeat x00 16)] in
  length data <> 16%nat /\
  TestServer.receive_controls Struct.LittleEndian (fun _ _ => true)
    (before ++ TestServer.Datagram data :: after) tt
  = TestServer.receive_controls Struct.LittleEndian (fun _ _ => true)
      (before ++ after) tt.
Proof.
  split; [cbn; lia|].
  apply (malformed_datagram_discarded Struct.LittleEndian (fun _ _ => true)
           [x01; x02; x03]).
  cbn; lia.
Defined.

(** C2, as the code has it: the receiver does not clamp.  For every
    16-byte datagram the four decoded signed 32-bit integers are passed
    to [joystick.set_axis] as they are, in the order X = roll, Y = pitch,
    RX = yaw, Z = throttle, up to the first call the driver refuses,
    that call included and none after it; all four when it refuses
    none. *)
Theorem receiver_writes_decoded_values (o : Struct.byteorder)
  (accepts : IO.axis -> Z -> bool) (data : list byte) :
  length data = 16%nat ->
  exists roll pitch yaw throttle,
    Struct.unpack_iiii o data = Some (roll, pitch, yaw, throttle) /\
    Forall (fun z => Struct.INT_MIN <= z <= Struct.INT_MAX)
      [roll; pitch; yaw; throttle] /\
    IO.device_writes
      (IO.trace_of
         (TestServer.receive_iteration o accepts (TestServer.Datagram data))
         tt)
    = IO.calls_made accepts
        [(IO.HID_USAGE_X, roll); (IO.HID_USAGE_Y, pitch);
         (IO.HID_USAGE_RX, yaw); (IO.HID_USAGE_Z, throttle)] /\
    (accepts IO.HID_USAGE_X roll = false ->
     IO.device_writes
       (IO.trace_of
          (TestServer.receive_iteration o accepts (TestServer.Datagram data))
          tt)
     = [(IO.HID_USAGE_X, roll)]) /\
    (accepts IO.HID_USAGE_X roll = true ->
     accepts IO.HID_USAGE_Y pitch = false ->
     IO.device_writes
       (IO.trace_of
          (TestServer.receive_iteration o accepts (TestServer.Datagram data))
          tt)
     = [(IO.HID_USAGE_X, roll); (IO.HID_USAGE_Y, pitch)]) /\
    (accepts IO.HID_USAGE_X roll = true ->
     accepts IO.HID_USAGE_Y pitch = true ->
     accepts IO.HID_USAGE_RX yaw = false ->
     IO.device_writes
       (IO.trace_of
          (TestServer.receive_iteration o accepts (TestServer.Datagram data))
          tt)
     = [(IO.HID_USAGE_X, roll); (IO.HID_USAGE_Y, pitch);
        (IO.HID_USAGE_RX, yaw)]) /\
    (accepts IO.HID_USAGE_X roll = true ->
     accepts IO.HID_USAGE_Y pitch = true ->
     accepts IO.HID_USAGE_RX yaw = true ->
     IO.device_writes
       (IO.trace_of
          (TestServer.receive_iteration o accepts (TestServer.Datagram data))
          tt)
     = [(IO.HID_USAGE_X, roll); (IO.HID_USAGE_Y, pitch);
        (IO.HID_USAGE_RX, yaw); (IO.HID_USAGE_Z, throttle)]).
Proof.
  intros Hlen.
  destruct (StructFacts.unpack_iiii_16 o data Hlen)
    as (roll & pitch & yaw & throttle & Hun & Hr & Hp & Hy & Ht).
  exists roll, pitch, yaw, throttle.
  split; [exact Hun|].
  split; [do 4 (constructor; [assumption|]); constructor|].
  unfold IO.trace_of, TestServer.receive_iteration, IO.try_except,
    TestServer.apply_controls.
  rewrite Hlen, Hun. cbn [Nat.eqb].
  unfold mbind, IO.M_bind, IO.bind, IO.joystick_set_axis, IO.emit, IO.ret.
  cbn [IO.calls_made fst snd].
  destruct (accepts IO.HID_USAGE_X roll);
    [destruct (accepts IO.HID_USAGE_Y pitch);
     [destruct (accepts IO.HID_USAGE_RX yaw);
      [destruct (accepts IO.HID_USAGE_Z throttle);
       [destruct (1000 <? throttle)|]|]|]|];
    cbn; repeat split; intros; first [reflexivity | discriminate].
Qed.

Lemma receiver_writes_decoded_values_witness :
  let data := [x00; x40; x00; x00; x00; x40; x00; x00;
               x00; x00; x00; x00; x01; x00; x00; x00] in
  let accepts := fun (_ : IO.axis) (v : Z) => 0 <? v in
  length data = 16%nat /\
  IO.device_writes
    (IO.trace_of
       (TestServer.receive_iteration Struct.LittleEndian accepts
          (TestServer.Datagram data)) tt)
  = [(IO.HID_USAGE_X, 16384); (IO.HID_USAGE_Y, 16384); (IO.HID_USAGE_RX, 0)].
Proof.
  split; [reflexivity|].
  destruct (receiver_writes_decoded_values Struct.LittleEndian
              (fun _ v => 0 <? v)
              [x00; x40; x00; x00; x00; x40; x00; x00;
               x00; x00; x00; x00; x01; x00; x00; x00] eq_refl)
    as (roll & pitch & yaw & throttle & Hun & _ & Hw & _).
  vm_compute in Hun. injection Hun as <- <- <- <-.
  rewrite Hw. reflexivity.
Defined.

(** C2, as stated, fails on a datagram of sixteen zero bytes: the value
    0, below MIN_VAL, is written to each of the four axes. *)
Lemma receiver_writes_zero :
  let data := repeat x00 16 in
  length data = 16%nat /\
  IO.device_writes
    (IO.trace_of
       (TestServer.receive_iteration Struct.LittleEndian (fun _ _ => true)
          (TestServer.Datagram data)) tt)
  = [(IO.HID_USAGE_X, 0); (IO.HID_USAGE_Y, 0);
     (IO.HID_USAGE_RX, 0); (IO.HID_USAGE_Z, 0)] /\
  TestClient.int_in_range 0 = false.
Proof. repeat split. Qed.

(** ** The video producer *)

Section Video.
Variable frame : Type.
Variable resize : frame -> frame.
Variable imencode : frame -> list byte.

Lemma video_iteration_returns (latest : option frame) :
  TestServer.video_iteration frame resize imencode latest tt
  = (IO.Returned tt, tt,
     IO.trace_of (TestServer.video_iteration frame resize imencode latest) tt).
Proof.
  unfold IO.trace_of, TestServer.video_iteration.
  destruct latest as [g|]; [|reflexivity].
  now destruct (Z.of_nat (length (imencode (resize g))) <? 65000).
Qed.

Lemma video_turns (frames : list (option frame)) :
  IO.for_each frames (TestServer.video_iteration frame resize imencode) tt
  = (IO.Returned tt, tt,
     flat_map
       (fun latest =>
          IO.trace_of
            (TestServer.video_iteration frame resize imencode latest) tt)
       frames).
Proof.
  induction frames as [|x l IH]; [reflexivity|].
  cbn [IO.for_each flat_map]. unfold mbind, IO.M_bind, IO.bind.
  now rewrite video_iteration_returns, IH.
Qed.

End Video.

(** C5: a compressed frame is sent, as one datagram to the video
    endpoint of the client, if and only if its size is strictly below
    65,000 bytes: over a run of the main loop the datagrams sent are the
    buffers under the ceiling, each once and in order; a buffer of 65,000
    bytes or more leads to no call at all. *)
Theorem video_sent_iff_under_ceiling (frame : Type)
  (resize : frame -> frame) (imencode : frame -> list byte)
  (frames : list (option frame)) (f : frame) :
  let buffer := imencode (resize f) in
  let turn :=
    IO.trace_of
      (TestServer.video_iteration frame resize imencode (Some f)) tt in
  IO.datagrams
    (IO.trace_of (TestServer.video_loop frame resize imencode frames) tt)
  = List.filter (fun b => Z.of_nat (length b) <? 65000)
      (flat_map (fun latest =>
                   match latest with
                   | Some g => [imencode (resize g)]
                   | None => []
                   end) frames) /\
  (turn = [IO.Sendto buffer TestServer.CLIENT_IP TestServer.VIDEO_PORT]
   <-> Z.of_nat (length buffer) < 65000) /\
  (turn = [] <-> 65000 <= Z.of_nat (length buffer)).
Proof.
  cbv zeta. split; [|split].
  - unfold TestServer.video_loop, IO.trace_of.
    unfold mbind, IO.M_bind, IO.bind. rewrite video_turns. cbn [snd IO.emit].
    unfold IO.datagrams. rewrite flat_map_app. cbn [flat_map app].
    rewrite app_nil_r.
    induction frames as [|x l IH]; [reflexivity|].
    cbn [flat_map]. rewrite flat_map_app, List.filter_app, IH. f_equal.
    unfold IO.trace_of, TestServer.video_iteration.
    destruct x as [g|]; [|reflexivity]. cbn [List.filter].
    now destruct (Z.of_nat (length (imencode (resize g))) <? 65000).
  - unfold IO.trace_of, TestServer.video_iteration.
    destruct (Z.ltb_spec (Z.of_nat (length (imencode (resize f)))) 65000);
      cbn; split; intros; (reflexivity || discriminate || lia).
  - unfold IO.trace_of, TestServer.video_iteration.
    destruct (Z.ltb_spec (Z.of_nat (length (imencode (resize f)))) 65000);
      cbn; split; intros; (reflexivity || discriminate || lia).
Qed.

(** ** Start-up *)

(** C7, where the code departs from it: when the vJoy device cannot be
    opened, test_server.py prints and calls [exit()] without an
    argument, so the process ends, before any socket or loop, with
    status 0; calibration.py and calibration_with_display.py end with
    status 1, and so does the uncaught exception of movements.py. *)
Theorem server_exit_status_on_device_error :
  TestServer.setup_vjoy IO.DeviceError = IO.Exits 0 [IO.Print "vJoy Error"] /\
  Calibration.setup_vjoy IO.DeviceError
  = IO.Exits 1 [IO.Print "Error initializing vJoy"] /\
  CalibrationWithDisplay.setup_vjoy IO.DeviceError
  = IO.Exits 1 [IO.Print "Error initializing vJoy"] /\
  Movements.setup_vjoy IO.DeviceError = IO.Exits 1 [IO.Print "Traceback"].
Proof. repeat split. Qed.

(** ** Stopping the loops *)







(** * Further properties of the code *)

(** ** The codec, from bytes to values and back *)

Lemma Z_of_byte_inj (a b : byte) : Struct.Z_of_byte a = Struct.Z_of_byte b -> a = b.
Proof.
  unfold Struct.Z_of_byte. intros H. apply N2Z.inj in H.
  pose proof (Byte.of_to_N a) as Ha. rewrite H, Byte.of_to_N in Ha.
  now injection Ha.
Qed.

Lemma byte_of_Z_mod (z : Z) (b : byte) :
  z mod 256 = Struct.Z_of_byte b -> Struct.byte_of_Z z = b.
Proof.
  intros H. apply Z_of_byte_inj. now rewrite StructFacts.Z_of_byte_of_Z.
Qed.

Lemma word_bytes_of_four (a b c d : byte) :
  Struct.word_bytes (Struct.word_of_bytes [a; b; c; d]) = [a; b; c; d].
Proof.
  rewrite StructFacts.word_of_four. unfold Struct.word_bytes.
  pose proof (StructFacts.Z_of_byte_range a).
  pose proof (StructFacts.Z_of_byte_range b).
  pose proof (StructFacts.Z_of_byte_range c).
  pose proof (StructFacts.Z_of_byte_range d).
  rewrite !Z.shiftr_div_pow2 by lia.
  change (2 ^ 8) with 256. change (2 ^ 16) with 65536.
  change (2 ^ 24) with 16777216.
  repeat f_equal; apply byte_of_Z_mod;
    Z.to_euclidean_division_equations; lia.
Qed.

Lemma signed32_back (u : Z) :
  0 <= u < 2 ^ 32 -> Struct.signed32 u mod 2 ^ 32 = u.
Proof.
  unfold Struct.signed32.
  change (2 ^ 31) with 2147483648. change (2 ^ 32) with 4294967296.
  intros Hu. destruct (Z.ltb_spec u 2147483648);
    Z.to_euclidean_division_equations; lia.
Qed.

Lemma pack_unpack_i (o : Struct.byteorder) (a b c d : byte) :
  Struct.pack_i o (Struct.unpack_i o [a; b; c; d]) = Some [a; b; c; d].
Proof.
  pose proof (StructFacts.unpack_i_range o a b c d) as Hr.
  unfold Struct.pack_i.
  destruct (Z.leb_spec Struct.INT_MIN (Struct.unpack_i o [a; b; c; d]));
    [|lia].
  destruct (Z.leb_spec (Struct.unpack_i o [a; b; c; d]) Struct.INT_MAX);
    [|lia].
  cbn [andb]. f_equal. unfold Struct.unpack_i.
  destruct o; cbn [Struct.in_order rev app].
  - rewrite signed32_back by apply StructFacts.word_of_four_range.
    apply word_bytes_of_four.
  - rewrite signed32_back by apply StructFacts.word_of_four_range.
    now rewrite word_bytes_of_four.
Qed.

(** Every 16-byte datagram is the packing of the four integers it
    unpacks to: [struct.pack('iiii', *struct.unpack('iiii', data))] is
    [data] again, in either byte order.  No two datagrams stand for the
    same sample. *)
Theorem pack_unpack_roundtrip (o : Struct.byteorder) (data : list byte) :
  length data = 16%nat ->
  exists roll pitch yaw throttle,
    Struct.unpack_iiii o data = Some (roll, pitch, yaw, throttle) /\
    Struct.pack_iiii o roll pitch yaw throttle = Some data.
Proof.
  intros Hlen.
  do 17 (destruct data as [|? data]; try discriminate Hlen).
  cbn [Struct.unpack_iiii]. do 4 eexists. split; [reflexivity|].
  unfold Struct.pack_iiii. now rewrite !pack_unpack_i.
Qed.

Lemma pack_unpack_roundtrip_witness :
  let data := [x10; xff; x00; x80; x01; x02; x03; x04;
               xfe; xff; xff; xff; x00; x00; x00; x7f] in
  length data = 16%nat /\
  exists roll pitch yaw throttle,
    Struct.unpack_iiii Struct.BigEndian data
    = Some (roll, pitch, yaw, throttle) /\
    Struct.pack_iiii Struct.BigEndian roll pitch yaw throttle = Some data.
Proof.
  split; [reflexivity|].
  apply (pack_unpack_roundtrip Struct.BigEndian). reflexivity.
Defined.

(** ** What [send_packet] does on any dictionary *)

Lemma pack_i_Some (o : Struct.byteorder) (v : Z) (l : list byte) :
  Struct.pack_i o v = Some l ->
  Struct.INT_MIN <= v <= Struct.INT_MAX /\ length l = 4%nat.
Proof.
  unfold Struct.pack_i.
  destruct (Z.leb_spec Struct.INT_MIN v);
    destruct (Z.leb_spec v Struct.INT_MAX); cbn [andb]; try discriminate.
  intros [= <-]. split; [lia|]. now destruct o.
Qed.

Lemma pack_i_None (o : Struct.byteorder) (v : Z) :
  Struct.pack_i o v = None -> ~ (Struct.INT_MIN <= v <= Struct.INT_MAX).
Proof.
  unfold Struct.pack_i.
  destruct (Z.leb_spec Struct.INT_MIN v);
    destruct (Z.leb_spec v Struct.INT_MAX); cbn [andb];
    try discriminate; lia.
Qed.

Lemma pack_iiii_Some (o : Struct.byteorder) (a b c d : Z) :
  is_Some (Struct.pack_iiii o a b c d) <->
  Forall (fun z => Struct.INT_MIN <= z <= Struct.INT_MAX) [a; b; c; d].
Proof.
  unfold Struct.pack_iiii. split.
  - intros [l Hl].
    destruct (Struct.pack_i o a) eqn:Ea; [|discriminate].
    destruct (Struct.pack_i o b) eqn:Eb; [|discriminate].
    destruct (Struct.pack_i o c) eqn:Ec; [|discriminate].
    destruct (Struct.pack_i o d) eqn:Ed; [|discriminate].
    apply pack_i_Some in Ea, Eb, Ec, Ed.
    repeat (constructor; [tauto|]). constructor.
  - intros H.
    apply Forall_cons in H as [Ha H]. apply Forall_cons in H as [Hb H].
    apply Forall_cons in H as [Hc H]. apply Forall_cons in H as [Hd _].
    destruct (StructFacts.unpack_pack_iiii o a b c d Ha Hb Hc Hd)
      as (packet & E & _).
    unfold Struct.pack_iiii in E. rewrite E. now exists packet.
Qed.

(** [send_packet] never lets an exception escape and never changes the
    dictionary, on each of its three paths.  When a key is missing,
    [int] refuses a value or an integer does not fit a C int, nothing is
    sent and the error is printed.  Otherwise [sendto] is called once,
    with a 16-byte datagram for the control endpoint that carries the
    four integers, and the error is printed after it exactly when that
    call raised. *)
Theorem send_packet_sends_or_reports (o : Struct.byteorder)
  (sendto_ok : list byte -> bool) (st : gmap string Py.value) :
  IO.outcome_of (TestClient.send_packet o sendto_ok) st = IO.Returned tt /\
  IO.state_of (TestClient.send_packet o sendto_ok) st = st /\
  ((exists roll pitch yaw throttle,
      TestClient.int_of_key st "roll" = Some roll /\
      TestClient.int_of_key st "pitch" = Some pitch /\
      TestClient.int_of_key st "yaw" = Some yaw /\
      TestClient.int_of_key st "throttle" = Some throttle /\
      Forall (fun z => Struct.INT_MIN <= z <= Struct.INT_MAX)
        [roll; pitch; yaw; throttle])
   <-> exists packet,
         length packet = 16%nat /\
         IO.datagrams (IO.trace_of (TestClient.send_packet o sendto_ok) st)
         = [packet]) /\
  (forall packet,
     IO.datagrams (IO.trace_of (TestClient.send_packet o sendto_ok) st)
     = [packet] ->
     exists roll pitch yaw throttle,
       TestClient.int_of_key st "roll" = Some roll /\
       TestClient.int_of_key st "pitch" = Some pitch /\
       TestClient.int_of_key st "yaw" = Some yaw /\
       TestClient.int_of_key st "throttle" = Some throttle /\
       Struct.unpack_iiii o packet = Some (roll, pitch, yaw, throttle)) /\
  (IO.trace_of (TestClient.send_packet o sendto_ok) st
   = [IO.Print "Send Error"] \/
   exists packet,
     (sendto_ok packet = true /\
      IO.trace_of (TestClient.send_packet o sendto_ok) st
      = [IO.Sendto packet TestClient.TARGET_IP TestClient.CONTROL_PORT]) \/
     (sendto_ok packet = false /\
      IO.trace_of (TestClient.send_packet o sendto_ok) st
      = [IO.Sendto packet TestClient.TARGET_IP TestClient.CONTROL_PORT;
         IO.Print "Send Error"])).
Proof.
  unfold IO.outcome_of, IO.state_of, IO.trace_of, TestClient.send_packet.
  split; [now destruct (TestClient.packet_of o st)|].
  split; [now destruct (TestClient.packet_of o st)|].
  split; [|split].
  - unfold TestClient.packet_of. split.
    + intros (r & p & y & t & -> & -> & -> & -> & Hall).
      apply Forall_cons in Hall as [Hr Hall].
      apply Forall_cons in Hall as [Hp Hall].
      apply Forall_cons in Hall as [Hy Hall].
      apply Forall_cons in Hall as [Ht _].
      destruct (StructFacts.unpack_pack_iiii o r p y t Hr Hp Hy Ht)
        as (packet & -> & Hlen & _).
      exists packet. split; [exact Hlen|]. cbn [snd].
      now destruct (sendto_ok packet).
    + intros (packet & Hlen & E).
      destruct (TestClient.int_of_key st "roll") as [r|]; [|discriminate E].
      destruct (TestClient.int_of_key st "pitch") as [p|]; [|discriminate E].
      destruct (TestClient.int_of_key st "yaw") as [y|]; [|discriminate E].
      destruct (TestClient.int_of_key st "throttle") as [t|];
        [|discriminate E].
      exists r, p, y, t. repeat (split; [reflexivity|]).
      apply (proj1 (pack_iiii_Some o r p y t)).
      destruct (Struct.pack_iiii o r p y t); [eauto|discriminate E].
  - unfold TestClient.packet_of. intros packet E.
    destruct (TestClient.int_of_key st "roll") as [r|]; [|discriminate E].
    destruct (TestClient.int_of_key st "pitch") as [p|]; [|discriminate E].
    destruct (TestClient.int_of_key st "yaw") as [y|]; [|discriminate E].
    destruct (TestClient.int_of_key st "throttle") as [t|];
      [|discriminate E].
    exists r, p, y, t. repeat (split; [reflexivity|]).
    destruct (Struct.pack_iiii o r p y t) as [sent|] eqn:Epk;
      [|discriminate E].
    assert (Hfit : is_Some (Struct.pack_iiii o r p y t)) by eauto.
    apply (proj1 (pack_iiii_Some o r p y t)) in Hfit.
    apply Forall_cons in Hfit as [Hr Hfit].
    apply Forall_cons in Hfit as [Hp Hfit].
    apply Forall_cons in Hfit as [Hy Hfit].
    apply Forall_cons in Hfit as [Ht _].
    destruct (StructFacts.unpack_pack_iiii o r p y t Hr Hp Hy Ht)
      as (packet' & Epk' & _ & Hun).
    rewrite Epk in Epk'. injection Epk' as <-.
    cbn [snd] in E.
    destruct (sendto_ok sent); cbn in E; injection E as <-; exact Hun.
  - destruct (TestClient.packet_of o st) as [packet|]; cbn [snd];
      [|now left].
    right. exists packet. destruct (sendto_ok packet) eqn:E; auto.
Qed.

(** ** Clamping, case by case *)

Ltac py_compare :=
  unfold Py.le, Py.lt, Py.eq, Py.gt, Py.as_float, Py.float_lt, Py.float_eq,
    Py.Qltb, Py.Qeqb, Qcompare, inject_Z in *;
  cbn [Qnum Qden] in *;
  rewrite ?Z.mul_1_r in *;
  repeat match goal with
         | H : context [Z.compare ?a ?b] |- _ =>
             destruct (Z.compare_spec a b); cbn [orb andb] in H
         | |- context [Z.compare ?a ?b] =>
             destruct (Z.compare_spec a b); cbn [orb andb]
         end;
  try discriminate; try reflexivity; try lia; try nia.

(** What [int(max(lo, min(hi, v)))] is, by the position of [v]: the
    lower bound for a value not above it, the upper bound for a value not
    below it and for a NaN, and [int(v)] for a value strictly between
    the bounds. *)
Lemma int_clamp_cases (lo hi : Z) (v : Py.value) :
  0 <= lo -> lo < hi ->
  exists z,
    Py.int (Py.max (Py.Int lo) (Py.min (Py.Int hi) v)) = Some z /\
    lo <= z <= hi /\
    (Py.le v (Py.Int lo) = true -> z = lo) /\
    (Py.le (Py.Int hi) v = true -> z = hi) /\
    (v = Py.Float Py.NaN -> z = hi) /\
    (Py.lt (Py.Int lo) v = true -> Py.lt v (Py.Int hi) = true ->
     Py.int v = Some z).
Proof.
  intros H0 Hlt.
  destruct (PyFacts.int_clamp lo hi v H0 Hlt) as (z & Ez & Hz).
  exists z. split; [exact Ez|]. split; [exact Hz|].
  unfold Py.max, Py.min, Py.gt in Ez.
  assert (Hlohi : Py.lt (Py.Int lo) (Py.Int hi) = true)
    by (rewrite PyFacts.lt_Int; lia).
  destruct (Py.lt v (Py.Int hi)) eqn:Ehi;
    [destruct (Py.lt (Py.Int lo) v) eqn:Elo|rewrite Hlohi in Ez];
    cbn [Py.int] in Ez.
  - repeat split.
    + intros Hle. exfalso. clear Ez.
      destruct v as [k|[[n d]|[|]|]]; py_compare.
    + intros Hle. exfalso. clear Ez.
      destruct v as [k|[[n d]|[|]|]]; py_compare.
    + intros ->. discriminate Ehi.
    + intros _ _. exact Ez.
  - injection Ez as <-. repeat split; try reflexivity.
    + intros Hle. exfalso.
      destruct v as [k|[[n d]|[|]|]]; py_compare.
    + intros ->. discriminate Ehi.
    + intros Hc. discriminate Hc.
  - injection Ez as <-. repeat split; try reflexivity.
    + intros Hle. exfalso.
      destruct v as [k|[[n d]|[|]|]]; py_compare.
    + intros _ Hc. discriminate Hc.
Qed.

Lemma float_lt_finite (a b : Q) :
  Py.float_lt (Py.Finite a) (Py.Finite b) = true <-> (a < b)%Q.
Proof.
  cbn. unfold Py.Qltb. rewrite Qlt_alt.
  destruct (Qcompare a b); split; congruence.
Qed.

Lemma float_le_finite (a b : Q) :
  Py.float_lt (Py.Finite a) (Py.Finite b)
  || Py.float_eq (Py.Finite a) (Py.Finite b) = true <-> (a <= b)%Q.
Proof.
  cbn. unfold Py.Qltb, Py.Qeqb. rewrite Qle_alt.
  destruct (Qcompare a b); cbn; split; congruence.
Qed.

(** A number is finite, and then [int] truncates the rational it
    denotes, or it is an infinity or a NaN. *)
Lemma value_kind (v : Py.value) :
  (exists q, Py.as_float v = Py.Finite q /\
             Py.int v = Some (Z.quot (Qnum q) (Z.pos (Qden q)))) \/
  (exists s, v = Py.Float (Py.Inf s)) \/ v = Py.Float Py.NaN.
Proof.
  destruct v as [z|[q|s|]]; eauto.
  left. exists (inject_Z z). split; [reflexivity|].
  cbn. now rewrite Z.quot_1_r.
Qed.

Lemma truncate_mono (a b : Q) :
  (0 <= a)%Q -> (a <= b)%Q ->
  Z.quot (Qnum a) (Z.pos (Qden a)) <= Z.quot (Qnum b) (Z.pos (Qden b)).
Proof.
  destruct a as [n1 d1], b as [n2 d2]. unfold Qle. cbn.
  rewrite Z.mul_1_r. intros H0 Hab.
  assert (0 <= n2) by nia.
  rewrite !Z.quot_div_nonneg by lia.
  apply Z.div_le_lower_bound; [lia|].
  pose proof (Z.mul_div_le n1 (Z.pos d1) ltac:(lia)). nia.
Qed.

(** Clamping keeps the order: of two numbers, the smaller does not clamp
    to the larger integer. *)
Lemma int_clamp_mono (lo hi : Z) (v w : Py.value) (zv zw : Z) :
  0 <= lo -> lo < hi ->
  Py.le v w = true ->
  Py.int (Py.max (Py.Int lo) (Py.min (Py.Int hi) v)) = Some zv ->
  Py.int (Py.max (Py.Int lo) (Py.min (Py.Int hi) w)) = Some zw ->
  zv <= zw.
Proof.
  intros H0 Hlt Hle Ev Ew.
  destruct (int_clamp_cases lo hi v H0 Hlt)
    as (zv' & Ev' & Rv & Vlo & Vhi & _ & Vin).
  destruct (int_clamp_cases lo hi w H0 Hlt)
    as (zw' & Ew' & Rw & Wlo & Whi & _ & Win).
  rewrite Ev in Ev'. injection Ev' as <-.
  rewrite Ew in Ew'. injection Ew' as <-.
  destruct (value_kind v) as [(qv & Fv & Iv)|[[s ->]| ->]];
    [|destruct s|discriminate Hle].
  - destruct (value_kind w) as [(qw & Fw & Iw)|[[s ->]| ->]];
      [|destruct s|].
    + unfold Py.le, Py.lt, Py.eq in *. rewrite ?Fv, ?Fw in *.
      cbn [Py.as_float] in *.
      apply float_le_finite in Hle.
      destruct (Qlt_le_dec (inject_Z lo) qv) as [Hlov|Hlov].
      * destruct (Qlt_le_dec qw (inject_Z hi)) as [Hwhi|Hwhi].
        -- assert (Hvhi : (qv < inject_Z hi)%Q)
             by (eapply Qle_lt_trans; eauto).
           assert (Hlow : (inject_Z lo < qw)%Q)
             by (eapply Qlt_le_trans; eauto).
           rewrite Iv in Vin. rewrite Iw in Win.
           specialize (Vin (proj2 (float_lt_finite _ _) Hlov)
                           (proj2 (float_lt_finite _ _) Hvhi)).
           specialize (Win (proj2 (float_lt_finite _ _) Hlow)
                           (proj2 (float_lt_finite _ _) Hwhi)).
           injection Vin as <-. injection Win as <-.
           apply truncate_mono; [|exact Hle].
           apply Qle_trans with (inject_Z lo); [|now apply Qlt_le_weak].
           change 0%Q with (inject_Z 0). now rewrite <- Zle_Qle.
        -- rewrite (Whi (proj2 (float_le_finite _ _) Hwhi)). lia.
      * rewrite (Vlo (proj2 (float_le_finite _ _) Hlov)). lia.
    + unfold Py.le, Py.lt, Py.eq in Hle. rewrite Fv in Hle. discriminate Hle.
    + rewrite (Whi eq_refl). lia.
    + unfold Py.le, Py.lt, Py.eq in Hle. rewrite Fv in Hle. discriminate Hle.
  - rewrite (Vlo eq_refl). lia.
  - destruct w as [k|[q|[|]|]]; try discriminate Hle.
    rewrite (Whi eq_refl). lia.
Qed.

(** [update_axis] never raises.  It stores under the given name the
    integer the value clamps to, and sends the packet of the dictionary
    so changed: MIN_VAL for a value not above it, MAX_VAL for a value
    not below it, and for a NaN as well, and [int(value)] for a value
    strictly between the two. *)
Theorem update_axis_stores_clamped (o : Struct.byteorder)
  (sendto_ok : list byte -> bool) (axis_name : string) (value : Py.value)
  (st : gmap string Py.value) :
  exists val,
    TestClient.update_axis o sendto_ok axis_name value st
    = TestClient.send_packet o sendto_ok (<[axis_name := Py.Int val]> st) /\
    TestClient.MIN_VAL <= val <= TestClient.MAX_VAL /\
    (Py.le value (Py.Int TestClient.MIN_VAL) = true ->
     val = TestClient.MIN_VAL) /\
    (Py.le (Py.Int TestClient.MAX_VAL) value = true ->
     val = TestClient.MAX_VAL) /\
    (value = Py.Float Py.NaN -> val = TestClient.MAX_VAL) /\
    (Py.lt (Py.Int TestClient.MIN_VAL) value = true ->
     Py.lt value (Py.Int TestClient.MAX_VAL) = true ->
     Py.int value = Some val).
Proof.
  destruct (int_clamp_cases TestClient.MIN_VAL TestClient.MAX_VAL value)
    as (val & E & Hval); [unfold TestClient.MIN_VAL; lia|reflexivity|].
  exists val. split; [|exact Hval].
  unfold TestClient.update_axis. rewrite E.
  unfold mbind, IO.M_bind, IO.bind, TestClient.setitem, IO.modify.
  now destruct (TestClient.send_packet o sendto_ok _) as [[r s] t].
Qed.

(** [update_axis] does not check the name it is given: under a name
    that is none of the four channels it adds a key, and the packet it
    sends is that of the dictionary as it was. *)
Theorem update_axis_other_name (o : Struct.byteorder)
  (sendto_ok : list byte -> bool) (axis_name : string)
  (value : Py.value) (st : gmap string Py.value) :
  axis_name <> "roll" -> axis_name <> "pitch" ->
  axis_name <> "yaw" -> axis_name <> "throttle" ->
  IO.trace_of (TestClient.update_axis o sendto_ok axis_name value) st
  = IO.trace_of (TestClient.send_packet o sendto_ok) st /\
  is_Some (IO.state_of (TestClient.update_axis o sendto_ok axis_name value) st
           !! axis_name).
Proof.
  intros Hr Hp Hy Ht.
  destruct (update_axis_stores_clamped o sendto_ok axis_name value st)
    as (val & E & _).
  unfold IO.trace_of, IO.state_of. rewrite E.
  unfold TestClient.send_packet, TestClient.packet_of, TestClient.int_of_key.
  rewrite !lookup_insert_ne by done.
  split.
  - now destruct (match st !! "roll" with Some v => Py.int v | None => None end),
      (match st !! "pitch" with Some v => Py.int v | None => None end),
      (match st !! "yaw" with Some v => Py.int v | None => None end),
      (match st !! "throttle" with Some v => Py.int v | None => None end);
      try destruct (Struct.pack_iiii o _ _ _ _).
  - match goal with
    | |- is_Some ((match ?x with _ => _ end).1.2 !! _) => destruct x
    end; cbn [fst snd]; rewrite lookup_insert_eq; eauto.
Qed.

Lemma update_axis_other_name_witness :
  IO.trace_of
    (TestClient.update_axis Struct.LittleEndian (fun _ => true) "flaps"
       (Py.Int 5))
    TestClient.stick_state
  = IO.trace_of (TestClient.send_packet Struct.LittleEndian (fun _ => true))
      TestClient.stick_state.
Proof.
  apply (update_axis_other_name Struct.LittleEndian (fun _ => true)
           "flaps" (Py.Int 5) TestClient.stick_state); discriminate.
Defined.

(** The helpers keep the order of the values they are given: of two
    numbers, the smaller is never written as the larger integer. *)
Theorem set_axis_monotone (accepts : IO.axis -> Z -> bool)
  (axis_id : IO.axis) (v w : Py.value) (zv zw : Z) :
  Py.le v w = true ->
  IO.device_writes (IO.trace_of (Calibration.set_axis accepts axis_id v) tt)
  = [(axis_id, zv)] ->
  IO.device_writes (IO.trace_of (Calibration.set_axis accepts axis_id w) tt)
  = [(axis_id, zw)] ->
  zv <= zw.
Proof.
  unfold Calibration.set_axis. intros Hle.
  destruct (PyFacts.int_clamp Calibration.MIN_VAL Calibration.MAX_VAL v)
    as (zv' & Ev & _); [unfold Calibration.MIN_VAL; lia|reflexivity|].
  destruct (PyFacts.int_clamp Calibration.MIN_VAL Calibration.MAX_VAL w)
    as (zw' & Ew & _); [unfold Calibration.MIN_VAL; lia|reflexivity|].
  rewrite Ev, Ew, !joystick_set_axis_writes.
  intros [= <-] [= <-].
  apply (int_clamp_mono Calibration.MIN_VAL Calibration.MAX_VAL v w);
    try assumption; [unfold Calibration.MIN_VAL; lia|reflexivity].
Qed.

Lemma set_axis_monotone_witness :
  let v := Py.Float (Py.Finite (-7 # 2)) in
  let w := Py.Float (Py.Finite (40001 # 2)) in
  Py.le v w = true /\
  IO.device_writes
    (IO.trace_of (Calibration.set_axis (fun _ _ => true) IO.HID_USAGE_Z v) tt)
  = [(IO.HID_USAGE_Z, 1)] /\
  IO.device_writes
    (IO.trace_of (Calibration.set_axis (fun _ _ => true) IO.HID_USAGE_Z w) tt)
  = [(IO.HID_USAGE_Z, 20000)] /\
  1 <= 20000.
Proof.
  repeat split; try reflexivity.
  apply (set_axis_monotone (fun _ _ => true) IO.HID_USAGE_Z
           (Py.Float (Py.Finite (-7 # 2)))
           (Py.Float (Py.Finite (40001 # 2)))); reflexivity.
Defined.

(** ** Reasoning about statements *)
Section Hoare.
Context {S : Type}.
Variable T : IO.trace -> Prop.
Hypothesis T_nil : T [].
Hypothesis T_app : forall t1 t2, T t1 -> T t2 -> T (t1 ++ t2).

Lemma hoare_bind (P Q : S -> Prop) (m1 m2 : IO.M S unit) :
  IO.hoare P Q T m1 -> IO.hoare Q Q T m2 -> IO.hoare P Q T (m1 ;; m2).
Proof.
  unfold IO.hoare, IO.state_of, IO.trace_of. intros H1 H2 st Hst.
  specialize (H1 st Hst). unfold mbind, IO.M_bind, IO.bind.
  destruct (m1 st) as [[[[]|] st1] t1]; cbn [fst snd] in *; [|exact H1].
  destruct H1 as [Hq Ht1]. specialize (H2 st1 Hq).
  destruct (m2 st1) as [[r2 st2] t2]. cbn [fst snd] in *.
  destruct H2 as [Hq2 Ht2]. split; [exact Hq2|now apply T_app].
Qed.

Lemma hoare_ret (Q : S -> Prop) : IO.hoare Q Q T (IO.ret tt).
Proof. intros st Hst. now split. Qed.

Lemma hoare_emit (Q : S -> Prop) (e : IO.event) :
  T [e] -> IO.hoare Q Q T (IO.emit e).
Proof. intros He st Hst. now split. Qed.

Lemma hoare_for_each {A : Type} (Q : S -> Prop) (l : list A)
  (body : A -> IO.M S unit) :
  Forall (fun x => IO.hoare Q Q T (body x)) l ->
  IO.hoare Q Q T (IO.for_each l body).
Proof.
  induction 1 as [|x l Hx _ IH]; cbn [IO.for_each].
  - apply hoare_ret.
  - now apply hoare_bind.
Qed.

Lemma hoare_thread (P Q : S -> Prop) (m : IO.M S unit) :
  IO.hoare P Q T m -> IO.hoare P Q T (IO.thread m).
Proof.
  unfold IO.hoare, IO.state_of, IO.trace_of, IO.thread, IO.try_except, IO.ret.
  intros H st Hst. specialize (H st Hst).
  destruct (m st) as [[[[]|] st1] t1]; cbn [fst snd] in *; [exact H|].
  now rewrite app_nil_r.
Qed.


End Hoare.

(** A sequence whose first statement returns. *)
Lemma seq_returned {S : Type} (m1 m2 : IO.M S unit) (st s : S)
  (t : IO.trace) :
  m1 st = (IO.Returned tt, s, t) ->
  (m1 ;; m2) st
  = (IO.outcome_of m2 s, IO.state_of m2 s, t ++ IO.trace_of m2 s).
Proof.
  intros E. unfold mbind, IO.M_bind, IO.bind, IO.outcome_of, IO.state_of,
    IO.trace_of.
  rewrite E. now destruct (m2 s) as [[r s2] t2].
Qed.

Lemma datagrams_app (t1 t2 : IO.trace) :
  IO.datagrams (t1 ++ t2) = IO.datagrams t1 ++ IO.datagrams t2.
Proof. apply flat_map_app. Qed.

Lemma device_writes_app (t1 t2 : IO.trace) :
  IO.device_writes (t1 ++ t2) = IO.device_writes t1 ++ IO.device_writes t2.
Proof. apply flat_map_app. Qed.

Lemma Forall_datagrams_app (F : list byte -> Prop) (t1 t2 : IO.trace) :
  Forall F (IO.datagrams t1) -> Forall F (IO.datagrams t2) ->
  Forall F (IO.datagrams (t1 ++ t2)).
Proof. intros H1 H2. rewrite datagrams_app. apply Forall_app. now split. Qed.

(** ** The patterns of the client *)
Section ClientPatterns.
Variable o : Struct.byteorder.
Variable sendto_ok : list byte -> bool.

Local Abbreviation MID := TestClient.MID_VAL.

Local Abbreviation centred st :=
  (<["throttle" := Py.Int MID]>
     (<["yaw" := Py.Int MID]>
        (<["pitch" := Py.Int MID]> (<["roll" := Py.Int MID]> st)))).

(** [center_sticks] writes the four keys, then sends. *)
Lemma center_sticks_unfold (st : gmap string Py.value) :
  TestClient.center_sticks o sendto_ok st
  = (TestClient.send_packet o sendto_ok ;;
     IO.emit (IO.Print " -> Sticks Centered."))
      (centred st).
Proof.
  unfold TestClient.center_sticks, mbind, IO.M_bind, IO.bind,
    TestClient.setitem, IO.modify.
  destruct (TestClient.send_packet o sendto_ok (centred st))
    as [[[[]|] s1] t1]; reflexivity.
Qed.

(** What [send_packet] does when the four keys hold integers of the
    range. *)
Lemma send_packet_ints (st : gmap string Py.value) (r p y t : Z) :
  st !! "roll" = Some (Py.Int r) -> st !! "pitch" = Some (Py.Int p) ->
  st !! "yaw" = Some (Py.Int y) -> st !! "throttle" = Some (Py.Int t) ->
  forallb TestClient.int_in_range [r; p; y; t] = true ->
  exists packet t',
    TestClient.send_packet o sendto_ok st = (IO.Returned tt, st, t') /\
    IO.datagrams t' = [packet] /\
    TestClient.packet_of o st = Some packet /\
    Struct.unpack_iiii o packet = Some (r, p, y, t).
Proof.
  intros Er Ep Ey Et Hall.
  destruct (packet_of_in_range o st r p y t) as (packet & E & _ & Hun);
    try (unfold TestClient.int_of_key; now rewrite ?Er, ?Ep, ?Ey, ?Et).
  exists packet. unfold TestClient.send_packet. rewrite E.
  eexists. split; [reflexivity|]. split; [|now split].
  now destruct (sendto_ok packet).
Qed.

Lemma center_sticks_trace (st : gmap string Py.value) :
  exists c t,
    TestClient.center_sticks o sendto_ok st
    = (IO.Returned tt, centred st, t) /\
    IO.datagrams t = [c] /\
    Struct.pack_iiii o MID MID MID MID = Some c /\
    Struct.unpack_iiii o c = Some (MID, MID, MID, MID).
Proof.
  destruct (send_packet_ints (centred st) MID MID MID MID)
    as (c & t & E & Hd & Epk & Hun); try (now lookup_keys).
  exists c. rewrite center_sticks_unfold.
  unfold mbind, IO.M_bind, IO.bind. rewrite E. eexists.
  split; [reflexivity|]. split; [|split; [|exact Hun]].
  - rewrite datagrams_app, Hd. reflexivity.
  - unfold TestClient.packet_of, TestClient.int_of_key in Epk.
    revert Epk. lookup_keys. cbn [Py.int]. tauto.
Qed.

(** *** The throttle ramp *)

Local Abbreviation ramp_state :=
  (fun st : gmap string Py.value =>
     st !! "roll" = Some (Py.Int MID) /\ st !! "pitch" = Some (Py.Int MID) /\
     st !! "yaw" = Some (Py.Int MID) /\
     exists t, st !! "throttle" = Some (Py.Int t) /\
               MID <= t <= TestClient.MAX_VAL).

Local Abbreviation ramp_packet p :=
  (exists throttle,
     Struct.unpack_iiii o p = Some (MID, MID, MID, throttle) /\
     MID <= throttle <= TestClient.MAX_VAL).

Local Abbreviation ramp_trace :=
  (fun t : IO.trace => Forall (fun p => ramp_packet p) (IO.datagrams t)).

Lemma ramp_trace_app (t1 t2 : IO.trace) :
  ramp_trace t1 -> ramp_trace t2 -> ramp_trace (t1 ++ t2).
Proof. apply Forall_datagrams_app. Qed.

Lemma ramp_send_packet :
  IO.hoare ramp_state ramp_state ramp_trace
    (TestClient.send_packet o sendto_ok).
Proof.
  intros st (Er & Ep & Ey & t & Et & Ht).
  destruct (send_packet_ints st MID MID MID t Er Ep Ey Et)
    as (c & t' & E & Hd & _ & Hun).
  { unfold TestClient.int_in_range, TestClient.MIN_VAL, TestClient.MAX_VAL,
      TestClient.MID_VAL in *. cbn [forallb]. lia. }
  unfold IO.state_of, IO.trace_of. rewrite E. cbn [fst snd].
  split; [eauto 10|]. rewrite Hd. repeat constructor. eauto.
Qed.

Lemma ramp_update_throttle (i : Z) :
  MID <= i <= TestClient.MAX_VAL ->
  IO.hoare ramp_state ramp_state ramp_trace
    (TestClient.update_axis o sendto_ok "throttle" (Py.Int i)).
Proof.
  intros Hi st (Er & Ep & Ey & _).
  destruct (update_axis_stores_clamped o sendto_ok "throttle" (Py.Int i) st)
    as (val & E & _ & _ & Hmax & _ & Hin).
  assert (val = i) as ->.
  { rewrite PyFacts.le_Int in Hmax. rewrite !PyFacts.lt_Int in Hin.
    unfold TestClient.MIN_VAL, TestClient.MAX_VAL, TestClient.MID_VAL in *.
    destruct (Z.eq_dec i 32768) as [->|Hne].
    - now apply Hmax.
    - assert (Some i = Some val) as [= ->] by (apply Hin; lia).
      reflexivity. }
  unfold IO.state_of, IO.trace_of. rewrite E.
  apply ramp_send_packet. repeat split; lookup_keys; eauto.
Qed.

Lemma ramp_values (steps : nat) :
  Forall (fun i => MID <= i <= TestClient.MAX_VAL)
    (firstn steps (Py.range MID TestClient.MAX_VAL 1000)).
Proof.
  apply Forall_take.
  unfold TestClient.MID_VAL, TestClient.MAX_VAL.
  vm_compute Py.range. repeat (constructor; [lia|]). constructor.
Qed.

(** While [throttle_up_worker] runs, from any dictionary and wherever it
    is stopped, every datagram sent holds roll, pitch and yaw at MID_VAL
    and a throttle between MID_VAL and MAX_VAL: the ramp moves the
    throttle alone, and never below the centre. *)
Theorem throttle_up_moves_throttle_only (rounds : list nat)
  (st : gmap string Py.value) :
  Forall
    (fun p => exists throttle,
       Struct.unpack_iiii o p = Some (MID, MID, MID, throttle) /\
       MID <= throttle <= TestClient.MAX_VAL)
    (IO.datagrams
       (IO.trace_of (TestClient.throttle_up_worker o sendto_ok rounds) st)).
Proof.
  assert (Hemit : forall e, IO.datagrams [e] = [] ->
            IO.hoare ramp_state ramp_state
              ramp_trace (IO.emit e)).
  { intros e He. apply hoare_emit. cbv beta. rewrite He. constructor. }
  assert (H : IO.hoare (fun _ => True) ramp_state ramp_trace
                (TestClient.throttle_up_worker o sendto_ok rounds)).
  { unfold TestClient.throttle_up_worker.
    apply hoare_bind; [apply ramp_trace_app| |].
    - intros s _.
      destruct (center_sticks_trace s) as (c & t & E & Hd & _ & Hun).
      unfold IO.state_of, IO.trace_of. rewrite E. cbn [fst snd]. split.
      + repeat split; lookup_keys; try reflexivity.
        exists MID. split; [reflexivity|]. split; [lia|discriminate].
      + rewrite Hd. repeat constructor. exists MID.
        split; [exact Hun|]. split; [lia|discriminate].
    - apply hoare_for_each; [constructor|apply ramp_trace_app|].
      apply Forall_forall. intros steps _.
      unfold TestClient.throttle_up_iteration.
      apply hoare_bind; [apply ramp_trace_app| |].
      { apply hoare_for_each; [constructor|apply ramp_trace_app|].
        eapply Forall_impl; [apply (ramp_values steps)|].
        intros i Hi. cbv beta.
        apply hoare_bind; [apply ramp_trace_app| |now apply Hemit].
        now apply ramp_update_throttle. }
      apply hoare_bind; [apply ramp_trace_app| |].
      { apply ramp_update_throttle. split; [discriminate|lia]. }
      apply hoare_bind; [apply ramp_trace_app|now apply Hemit|].
      apply hoare_bind; [apply ramp_trace_app| |now apply Hemit].
      apply ramp_update_throttle. split; [lia|discriminate]. }
  now apply H.
Qed.

End ClientPatterns.

Section ClientCircles.
Variable o : Struct.byteorder.
Variable sendto_ok : list byte -> bool.

Lemma around_mid_close (c : Q) :
  TestClient.unit_interval c = true ->
  exists z, Py.int (TestClient.around_mid c) = Some z /\
            TestClient.MID_VAL - TestClient.RADIUS <= z
            <= TestClient.MID_VAL + TestClient.RADIUS.
Proof.
  unfold TestClient.unit_interval. intros H.
  apply andb_prop in H as [H1 H2].
  apply Qle_bool_iff in H1. apply Qle_bool_iff in H2.
  apply PyFacts.int_between; [discriminate|].
  unfold Py.between, TestClient.around_mid.
  apply andb_true_intro. split.
  - apply (PyFacts.Qle_le
             (inject_Z (TestClient.MID_VAL - TestClient.RADIUS))).
    unfold TestClient.MID_VAL, TestClient.RADIUS, inject_Z.
    change (16384 - 16000) with 384. lra.
  - apply (PyFacts.Qle_le _
             (inject_Z (TestClient.MID_VAL + TestClient.RADIUS))).
    unfold TestClient.MID_VAL, TestClient.RADIUS, inject_Z.
    change (16384 + 16000) with 32384. lra.
Qed.

(** One turn of the circles sends one datagram, whatever the dictionary
    held before: its four values lie within RADIUS of MID_VAL, and its
    roll and its yaw are the same integer. *)
Lemma circles_iteration_trace (cos_a sin_a : Q)
  (st : gmap string Py.value) :
  TestClient.unit_interval cos_a = true ->
  TestClient.unit_interval sin_a = true ->
  exists packet roll pitch throttle,
    IO.datagrams
      (IO.trace_of (TestClient.circles_iteration o sendto_ok cos_a sin_a) st)
    = [packet] /\
    Struct.unpack_iiii o packet = Some (roll, pitch, roll, throttle) /\
    Forall (fun z => TestClient.MID_VAL - TestClient.RADIUS <= z
                     <= TestClient.MID_VAL + TestClient.RADIUS)
      [roll; pitch; throttle].
Proof.
  intros Hc Hs.
  destruct (around_mid_close cos_a Hc) as (r & Er & Hr).
  destruct (around_mid_close sin_a Hs) as (t & Et & Ht).
  destruct (around_mid_close (- sin_a) (unit_interval_opp _ Hs))
    as (p & Ep & Hp).
  set (st4 := <["pitch" := TestClient.around_mid (- sin_a)]>
                (<["roll" := TestClient.around_mid cos_a]>
                   (<["throttle" := TestClient.around_mid sin_a]>
                      (<["yaw" := TestClient.around_mid cos_a]> st)))).
  assert (E : TestClient.circles_iteration o sendto_ok cos_a sin_a st
              = (TestClient.send_packet o sendto_ok ;;
                 IO.emit (IO.Sleep 10)) st4).
  { unfold TestClient.circles_iteration, mbind, IO.M_bind, IO.bind,
      TestClient.setitem, IO.modify. fold st4.
    destruct (TestClient.send_packet o sendto_ok st4) as [[[[]|] s1] t1];
      reflexivity. }
  destruct (packet_of_in_range o st4 r p r t) as (packet & Epk & _ & Hun);
    try (unfold TestClient.int_of_key, st4; now lookup_keys).
  { unfold TestClient.int_in_range, TestClient.MIN_VAL, TestClient.MAX_VAL,
      TestClient.MID_VAL, TestClient.RADIUS in *. cbn [forallb]. lia. }
  exists packet, r, p, t. split; [|split; [exact Hun|]].
  - unfold IO.trace_of. rewrite E.
    unfold mbind, IO.M_bind, IO.bind, TestClient.send_packet.
    rewrite Epk. now destruct (sendto_ok packet).
  - repeat (constructor; [assumption|]). constructor.
Qed.

(** While [circles_worker] runs, every datagram sent carries four values
    within RADIUS = 16000 of MID_VAL, so between 384 and 32384, and the
    same integer as roll and as yaw: the circles never reach the ends of
    the range. *)
Theorem circles_stay_within_radius (turns : list (Q * Q))
  (st : gmap string Py.value) :
  TestClient.choice_ok (TestClient.Circles turns) = true ->
  Forall
    (fun packet => exists roll pitch throttle,
       Struct.unpack_iiii o packet = Some (roll, pitch, roll, throttle) /\
       Forall (fun z => 384 <= z <= 32384) [roll; pitch; throttle])
    (IO.datagrams
       (IO.trace_of (TestClient.circles_worker o sendto_ok turns) st)).
Proof.
  cbn [TestClient.choice_ok]. intros Hok.
  assert (H : IO.hoare (fun _ : gmap string Py.value => True) (fun _ => True)
                (fun t => Forall
                   (fun packet => exists roll pitch throttle,
                      Struct.unpack_iiii o packet
                      = Some (roll, pitch, roll, throttle) /\
                      Forall (fun z => 384 <= z <= 32384)
                        [roll; pitch; throttle])
                   (IO.datagrams t))
                (TestClient.circles_worker o sendto_ok turns)).
  { unfold TestClient.circles_worker.
    apply hoare_for_each; [constructor|apply Forall_datagrams_app|].
    apply Forall_forall. intros [c s] Hin. apply list_elem_of_In in Hin.
    rewrite forallb_forall in Hok. specialize (Hok _ Hin).
    apply andb_prop in Hok as [Hc Hs]. intros s0 _. split; [exact I|].
    destruct (circles_iteration_trace c s s0 Hc Hs)
      as (packet & r & p & t & Etr & Hun & Hall).
    cbv beta. cbn [fst snd]. rewrite Etr.
    repeat constructor. now exists r, p, t. }
  now apply H.
Qed.

(** *** Every session ends with the sticks centred *)

Local Abbreviation centred_state :=
  (fun st : gmap string Py.value =>
     st !! "roll" = Some (Py.Int TestClient.MID_VAL) /\
     st !! "pitch" = Some (Py.Int TestClient.MID_VAL) /\
     st !! "yaw" = Some (Py.Int TestClient.MID_VAL) /\
     st !! "throttle" = Some (Py.Int TestClient.MID_VAL)).

Local Abbreviation ends_centred c :=
  (fun t : IO.trace =>
     IO.datagrams t = [] \/ last (IO.datagrams t) = Some c).


Lemma thread_returns {S : Type} (m : IO.M S unit) (st : S) :
  exists s t, IO.thread m st = (IO.Returned tt, s, t).
Proof.
  unfold IO.thread, IO.try_except, IO.ret.
  destruct (m st) as [[[[]|] s] t]; eauto.
Qed.



End ClientCircles.

Lemma circles_stay_within_radius_witness :
  let turns := [(1, 0); (3 # 5, 4 # 5); (0, -1)]%Q in
  TestClient.choice_ok (TestClient.Circles turns) = true /\
  Forall
    (fun packet => exists roll pitch throttle,
       Struct.unpack_iiii Struct.LittleEndian packet
       = Some (roll, pitch, roll, throttle) /\
       Forall (fun z => 384 <= z <= 32384) [roll; pitch; throttle])
    (IO.datagrams
       (IO.trace_of
          (TestClient.circles_worker Struct.LittleEndian (fun _ => true)
             turns)
          TestClient.stick_state)).
Proof.
  split; [reflexivity|].
  apply (circles_stay_within_radius Struct.LittleEndian). reflexivity.
Defined.

(** ** From the client to the device *)

Lemma apply_controls_accepting (o : Struct.byteorder)
  (accepts : IO.axis -> Z -> bool) (data : list byte)
  (roll pitch yaw throttle : Z) :
  Struct.unpack_iiii o data = Some (roll, pitch, yaw, throttle) ->
  accepts IO.HID_USAGE_X roll = true ->
  accepts IO.HID_USAGE_Y pitch = true ->
  accepts IO.HID_USAGE_RX yaw = true ->
  accepts IO.HID_USAGE_Z throttle = true ->
  TestServer.apply_controls o accepts data tt
  = (IO.Returned tt, tt,
     [IO.SetAxis IO.HID_USAGE_X roll; IO.SetAxis IO.HID_USAGE_Y pitch;
      IO.SetAxis IO.HID_USAGE_RX yaw; IO.SetAxis IO.HID_USAGE_Z throttle]
     ++ (if 1000 <? throttle
         then [IO.PrintRecv roll pitch yaw throttle] else [])).
Proof.
  intros Hun Hx Hy Hrx Hz. unfold TestServer.apply_controls. rewrite Hun.
  unfold mbind, IO.M_bind, IO.bind, IO.joystick_set_axis, IO.emit, IO.ret.
  rewrite Hx, Hy, Hrx, Hz. now destruct (1000 <? throttle).
Qed.

(** The two ends of the control link fit together.  For a dictionary in
    range, the datagram [send_packet] sends, when it reaches
    [receive_controls] on a machine of the same byte order and the
    driver takes the calls, sets the X axis to the roll, the Y axis to
    the pitch, the RX axis to the yaw and the Z axis to the throttle of
    the dictionary, each as the integer [int] makes of it.  The client
    makes the one [sendto] call with that datagram, and prints
    "Send Error" after it when the call raises. *)
Theorem link_applies_sample (o : Struct.byteorder)
  (sendto_ok : list byte -> bool)
  (accepts : IO.axis -> Z -> bool) (st : gmap string Py.value) :
  TestClient.state_in_range st = true ->
  (forall a v, accepts a v = true) ->
  exists packet roll pitch yaw throttle,
    TestClient.int_of_key st "roll" = Some roll /\
    TestClient.int_of_key st "pitch" = Some pitch /\
    TestClient.int_of_key st "yaw" = Some yaw /\
    TestClient.int_of_key st "throttle" = Some throttle /\
    IO.trace_of (TestClient.send_packet o sendto_ok) st
    = IO.Sendto packet TestClient.TARGET_IP TestClient.CONTROL_PORT
      :: (if sendto_ok packet then [] else [IO.Print "Send Error"]) /\
    IO.device_writes
      (IO.trace_of
         (TestServer.receive_iteration o accepts (TestServer.Datagram packet))
         tt)
    = [(IO.HID_USAGE_X, roll); (IO.HID_USAGE_Y, pitch);
       (IO.HID_USAGE_RX, yaw); (IO.HID_USAGE_Z, throttle)].
Proof.
  intros Hst Hacc.
  apply state_in_range_keys in Hst as (Hr & Hp & Hy & Ht).
  destruct (int_of_key_in_range st _ Hr) as (r & Er & Ir).
  destruct (int_of_key_in_range st _ Hp) as (p & Ep & Ip).
  destruct (int_of_key_in_range st _ Hy) as (y & Ey & Iy).
  destruct (int_of_key_in_range st _ Ht) as (t & Et & It).
  assert (Hall : forallb TestClient.int_in_range [r; p; y; t] = true)
    by (cbn [forallb]; now rewrite Ir, Ip, Iy, It).
  destruct (packet_of_in_range o st r p y t Er Ep Ey Et Hall)
    as (packet & Epk & Hlen & Hun).
  exists packet, r, p, y, t. repeat (split; [assumption|]). split.
  - unfold IO.trace_of, TestClient.send_packet. now rewrite Epk.
  - unfold IO.trace_of, TestServer.receive_iteration, IO.try_except.
    rewrite Hlen. cbn [Nat.eqb].
    rewrite (apply_controls_accepting o accepts packet r p y t Hun)
      by apply Hacc.
    cbn [snd]. now destruct (1000 <? t).
Qed.

Lemma link_applies_sample_witness :
  let st := TestClient.state_of_sample 20000 16384 16384 1 in
  TestClient.state_in_range st = true /\
  exists packet roll pitch yaw throttle,
    TestClient.int_of_key st "roll" = Some roll /\
    TestClient.int_of_key st "pitch" = Some pitch /\
    TestClient.int_of_key st "yaw" = Some yaw /\
    TestClient.int_of_key st "throttle" = Some throttle /\
    IO.trace_of (TestClient.send_packet Struct.BigEndian (fun _ => true)) st
    = [IO.Sendto packet TestClient.TARGET_IP TestClient.CONTROL_PORT] /\
    IO.device_writes
      (IO.trace_of
         (TestServer.receive_iteration Struct.BigEndian (fun _ _ => true)
            (TestServer.Datagram packet)) tt)
    = [(IO.HID_USAGE_X, roll); (IO.HID_USAGE_Y, pitch);
       (IO.HID_USAGE_RX, yaw); (IO.HID_USAGE_Z, throttle)].
Proof.
  split; [reflexivity|].
  apply (link_applies_sample Struct.BigEndian (fun _ => true)
           (fun _ _ => true)
           (TestClient.state_of_sample 20000 16384 16384 1));
    reflexivity.
Defined.

(** When the driver refuses one of the four writes of a datagram, the
    writes after it are not made, no value is echoed, the error is
    printed once and the turn returns: the first refusal ends the
    datagram, not the loop. *)
Theorem driver_refusal_skips_rest (o : Struct.byteorder)
  (accepts : IO.axis -> Z -> bool) (data : list byte)
  (roll pitch yaw throttle : Z) :
  length data = 16%nat ->
  Struct.unpack_iiii o data = Some (roll, pitch, yaw, throttle) ->
  let writes := [(IO.HID_USAGE_X, roll); (IO.HID_USAGE_Y, pitch);
                 (IO.HID_USAGE_RX, yaw); (IO.HID_USAGE_Z, throttle)] in
  forallb (fun w => accepts (fst w) (snd w)) writes = false ->
  exists n w,
    writes !! n = Some w /\ accepts (fst w) (snd w) = false /\
    forallb (fun w => accepts (fst w) (snd w)) (firstn n writes) = true /\
    TestServer.receive_iteration o accepts (TestServer.Datagram data) tt
    = (IO.Returned tt, tt,
       map (fun w => IO.SetAxis (fst w) (snd w)) (firstn (S n) writes)
       ++ [IO.Print "Control Error"]).
Proof.
  intros Hlen Hun writes Hrefused. subst writes.
  unfold TestServer.receive_iteration, IO.try_except,
    TestServer.apply_controls.
  rewrite Hlen, Hun. cbn [Nat.eqb].
  unfold mbind, IO.M_bind, IO.bind, IO.joystick_set_axis, IO.emit, IO.ret.
  cbn [forallb fst snd] in Hrefused.
  destruct (accepts IO.HID_USAGE_X roll) eqn:Ex;
    [destruct (accepts IO.HID_USAGE_Y pitch) eqn:Ey;
     [destruct (accepts IO.HID_USAGE_RX yaw) eqn:Erx;
      [destruct (accepts IO.HID_USAGE_Z throttle) eqn:Ez;
       [discriminate Hrefused|]|]|]|].
  - exists 3%nat, (IO.HID_USAGE_Z, throttle). cbn. now rewrite Ex, Ey, Erx.
  - exists 2%nat, (IO.HID_USAGE_RX, yaw). cbn. now rewrite Ex, Ey.
  - exists 1%nat, (IO.HID_USAGE_Y, pitch). cbn. now rewrite Ex.
  - now exists 0%nat, (IO.HID_USAGE_X, roll).
Qed.

Lemma driver_refusal_skips_rest_witness :
  let data := [x00; x40; x00; x00; x00; x00; x00; x00;
               x00; x40; x00; x00; x01; x00; x00; x00] in
  let accepts := fun (_ : IO.axis) (v : Z) => 1 <=? v in
  TestServer.receive_iteration Struct.LittleEndian accepts
    (TestServer.Datagram data) tt
  = (IO.Returned tt, tt,
     [IO.SetAxis IO.HID_USAGE_X 16384; IO.SetAxis IO.HID_USAGE_Y 0;
      IO.Print "Control Error"]).
Proof.
  destruct (driver_refusal_skips_rest Struct.LittleEndian
              (fun (_ : IO.axis) (v : Z) => 1 <=? v)
              [x00; x40; x00; x00; x00; x00; x00; x00;
               x00; x40; x00; x00; x01; x00; x00; x00]
              16384 0 16384 1 eq_refl eq_refl eq_refl)
    as (n & w & _ & _ & _ & E).
  reflexivity.
Defined.

(** Only well-formed datagrams move the device: the writes of a run of
    [receive_controls] are those of the run in which every turn that
    brought no 16-byte datagram (nothing waiting, a connection reset,
    another error, a datagram of another length) is left out. *)
Theorem only_samples_reach_device (o : Struct.byteorder)
  (accepts : IO.axis -> Z -> bool) (turns : list TestServer.recv_result) :
  IO.device_writes
    (IO.trace_of (TestServer.receive_controls o accepts turns) tt)
  = IO.device_writes
      (IO.trace_of
         (TestServer.receive_controls o accepts
            (List.filter
               (fun r => match r with
                         | TestServer.Datagram data =>
                             Nat.eqb (length data) 16
                         | _ => false
                         end) turns)) tt).
Proof.
  unfold IO.trace_of. rewrite !receive_controls_trace. cbn [snd].
  change (IO.device_writes (?e :: ?t)) with (IO.device_writes ([e] ++ t)).
  cbn [IO.device_writes flat_map app].
  induction turns as [|r turns IH]; [reflexivity|].
  cbn [flat_map List.filter].
  fold (IO.device_writes) in *.
  assert (Hskip : forall t1 t2 : IO.trace,
            IO.device_writes t1 = [] ->
            flat_map (fun e => match e with
                               | IO.SetAxis a v => [(a, v)]
                               | _ => []
                               end) (t1 ++ t2)
            = flat_map (fun e => match e with
                                 | IO.SetAxis a v => [(a, v)]
                                 | _ => []
                                 end) t2).
  { intros t1 t2 H. rewrite flat_map_app. unfold IO.device_writes in H.
    now rewrite H. }
  destruct r as [data| | |].
  - destruct (Nat.eqb (length data) 16) eqn:Elen.
    + cbn [flat_map]. rewrite !flat_map_app. now rewrite IH.
    + rewrite Hskip; [exact IH|].
      unfold IO.trace_of, TestServer.receive_iteration, IO.try_except.
      now rewrite Elen.
  - rewrite Hskip; [exact IH|reflexivity].
  - rewrite Hskip; [exact IH|reflexivity].
  - rewrite Hskip; [exact IH|reflexivity].
Qed.

(** ** The dashboard of calibration_with_display.py *)

Lemma int_truediv (a b : Z) :
  0 < b ->
  match Py.truediv a b with
  | Some q => Py.int q
  | None => None
  end = Some (Z.quot a b).
Proof.
  intros Hb. unfold Py.truediv.
  destruct (Z.eqb_spec b 0) as [->|_]; [lia|].
  destruct b as [|p|p]; try lia.
  cbn. now rewrite Z.mul_1_r.
Qed.

Lemma throttle_percent_quot (val : Z) :
  CalibrationWithDisplay.val_to_throttle_percent val
  = Some (Z.quot (100 * (val - 1)) 32767).
Proof.
  unfold CalibrationWithDisplay.val_to_throttle_percent.
  apply int_truediv. reflexivity.
Qed.

Lemma roll_pitch_yaw_percent_quot (val : Z) :
  CalibrationWithDisplay.val_to_roll_pitch_yaw_percent val
  = Some (if 16384 <=? val
          then Z.quot (100 * (val - 16384)) 16384
          else Z.quot (-100 * (16384 - val)) 16383).
Proof.
  unfold CalibrationWithDisplay.val_to_roll_pitch_yaw_percent,
    CalibrationWithDisplay.MID_VAL.
  destruct (16384 <=? val); apply int_truediv; reflexivity.
Qed.

(** The throttle percentage runs from 0 at MIN_VAL to 100 at MAX_VAL,
    and grows with the value in between. *)
Theorem throttle_percent_scale (val val' : Z) :
  CalibrationWithDisplay.MIN_VAL <= val ->
  val <= val' ->
  val' <= CalibrationWithDisplay.MAX_VAL ->
  exists p p',
    CalibrationWithDisplay.val_to_throttle_percent val = Some p /\
    CalibrationWithDisplay.val_to_throttle_percent val' = Some p' /\
    0 <= p /\ p <= p' /\ p' <= 100 /\
    CalibrationWithDisplay.val_to_throttle_percent
      CalibrationWithDisplay.MIN_VAL = Some 0 /\
    CalibrationWithDisplay.val_to_throttle_percent
      CalibrationWithDisplay.MAX_VAL = Some 100.
Proof.
  unfold CalibrationWithDisplay.MIN_VAL, CalibrationWithDisplay.MAX_VAL.
  intros Hlo Hle Hhi. do 2 eexists.
  rewrite !throttle_percent_quot.
  split; [reflexivity|]. split; [reflexivity|].
  split; [apply Z.quot_pos; lia|].
  split; [apply Z.quot_le_mono; lia|].
  split; [|split; reflexivity].
  apply Z.quot_le_upper_bound; lia.
Qed.

Lemma throttle_percent_scale_witness :
  exists p p',
    CalibrationWithDisplay.val_to_throttle_percent 8192 = Some p /\
    CalibrationWithDisplay.val_to_throttle_percent 24576 = Some p' /\
    0 <= p /\ p <= p' /\ p' <= 100.
Proof.
  destruct (throttle_percent_scale 8192 24576)
    as (p & p' & E & E' & H0 & Hle & H100 & _);
    [unfold CalibrationWithDisplay.MIN_VAL; lia | lia
    | unfold CalibrationWithDisplay.MAX_VAL; lia |].
  now exists p, p'.
Defined.

(** The roll, pitch and yaw percentage runs from -100 at MIN_VAL through
    0 at MID_VAL to 100 at MAX_VAL, and grows with the value in
    between. *)
Theorem roll_pitch_yaw_percent_scale (val val' : Z) :
  CalibrationWithDisplay.MIN_VAL <= val ->
  val <= val' ->
  val' <= CalibrationWithDisplay.MAX_VAL ->
  exists p p',
    CalibrationWithDisplay.val_to_roll_pitch_yaw_percent val = Some p /\
    CalibrationWithDisplay.val_to_roll_pitch_yaw_percent val' = Some p' /\
    -100 <= p /\ p <= p' /\ p' <= 100 /\
    CalibrationWithDisplay.val_to_roll_pitch_yaw_percent
      CalibrationWithDisplay.MIN_VAL = Some (-100) /\
    CalibrationWithDisplay.val_to_roll_pitch_yaw_percent
      CalibrationWithDisplay.MID_VAL = Some 0 /\
    CalibrationWithDisplay.val_to_roll_pitch_yaw_percent
      CalibrationWithDisplay.MAX_VAL = Some 100.
Proof.
  unfold CalibrationWithDisplay.MIN_VAL, CalibrationWithDisplay.MAX_VAL,
    CalibrationWithDisplay.MID_VAL.
  intros Hlo Hle Hhi. do 2 eexists.
  rewrite !roll_pitch_yaw_percent_quot.
  split; [reflexivity|]. split; [reflexivity|].
  split; [|split; [|split; [|repeat split; reflexivity]]].
  - destruct (Z.leb_spec 16384 val).
    + pose proof (Z.quot_pos (100 * (val - 16384)) 16384). lia.
    + apply Z.quot_le_lower_bound; lia.
  - destruct (Z.leb_spec 16384 val), (Z.leb_spec 16384 val'); try lia.
    + apply Z.quot_le_mono; lia.
    + pose proof (Z.quot_pos (100 * (val' - 16384)) 16384).
      assert (Z.quot (-100 * (16384 - val)) 16383 <= 0); [|lia].
      rewrite <- (Z.quot_0_l 16383) by lia. apply Z.quot_le_mono; lia.
    + apply Z.quot_le_mono; lia.
  - destruct (Z.leb_spec 16384 val').
    + apply Z.quot_le_upper_bound; lia.
    + assert (Z.quot (-100 * (16384 - val')) 16383 <= 0); [|lia].
      rewrite <- (Z.quot_0_l 16383) by lia. apply Z.quot_le_mono; lia.
Qed.

Lemma roll_pitch_yaw_percent_scale_witness :
  exists p p',
    CalibrationWithDisplay.val_to_roll_pitch_yaw_percent 100 = Some p /\
    CalibrationWithDisplay.val_to_roll_pitch_yaw_percent 30000 = Some p' /\
    -100 <= p /\ p <= p' /\ p' <= 100.
Proof.
  destruct (roll_pitch_yaw_percent_scale 100 30000)
    as (p & p' & E & E' & H0 & Hle & H100 & _);
    [unfold CalibrationWithDisplay.MIN_VAL; lia | lia
    | unfold CalibrationWithDisplay.MAX_VAL; lia |].
  now exists p, p'.
Defined.

Lemma throttle_percent_bounds (val : Z) :
  1 <= val <= 32768 ->
  0 <= Z.quot (100 * (val - 1)) 32767 <= 100.
Proof.
  intros H. split; [apply Z.quot_pos; lia|].
  apply Z.quot_le_upper_bound; lia.
Qed.

Lemma roll_pitch_yaw_percent_bounds (val : Z) :
  1 <= val <= 32768 ->
  -100 <= (if 16384 <=? val
           then Z.quot (100 * (val - 16384)) 16384
           else Z.quot (-100 * (16384 - val)) 16383) <= 100.
Proof.
  intros H. destruct (Z.leb_spec 16384 val).
  - pose proof (Z.quot_pos (100 * (val - 16384)) 16384).
    split; [lia|]. apply Z.quot_le_upper_bound; lia.
  - split; [apply Z.quot_le_lower_bound; lia|].
    assert (Z.quot (-100 * (16384 - val)) 16383 <= 0); [|lia].
    rewrite <- (Z.quot_0_l 16383) by lia. apply Z.quot_le_mono; lia.
Qed.

Section Display.
Variable accepts : IO.axis -> Z -> bool.

Local Abbreviation shown_in_range :=
  (fun st : IO.axis -> Z =>
     forall a, CalibrationWithDisplay.MIN_VAL <= st a
               <= CalibrationWithDisplay.MAX_VAL).

(** What one call of [set_axis] does: the clamped value goes to the
    driver, and into [axis_state] when the driver took it. *)
Lemma display_set_axis_cases (axis_id : IO.axis) (value : Py.value)
  (st : IO.axis -> Z) :
  exists val,
    CalibrationWithDisplay.MIN_VAL <= val <= CalibrationWithDisplay.MAX_VAL /\
    CalibrationWithDisplay.set_axis accepts axis_id value st
    = if accepts axis_id val
      then (IO.Returned tt,
            (fun a => if decide (a = axis_id) then val else st a),
            [IO.SetAxis axis_id val])
      else (IO.Raised, st, [IO.SetAxis axis_id val]).
Proof.
  unfold CalibrationWithDisplay.set_axis, CalibrationWithDisplay.clamp.
  destruct (PyFacts.int_clamp CalibrationWithDisplay.MIN_VAL
              CalibrationWithDisplay.MAX_VAL value)
    as (val & -> & Hval);
    [unfold CalibrationWithDisplay.MIN_VAL; lia|reflexivity|].
  exists val. split; [exact Hval|].
  unfold mbind, IO.M_bind, IO.bind, IO.joystick_set_axis, IO.modify.
  now destruct (accepts axis_id val).
Qed.

Lemma display_set_axis_in_range (axis_id : IO.axis) (value : Py.value) :
  IO.hoare shown_in_range shown_in_range (fun _ => True)
    (CalibrationWithDisplay.set_axis accepts axis_id value).
Proof.
  intros st Hst. split; [|exact I].
  destruct (display_set_axis_cases axis_id value st) as (val & Hval & E).
  unfold IO.state_of. rewrite E.
  destruct (accepts axis_id val); cbn [fst snd]; [|exact Hst].
  intros a. now destruct (decide (a = axis_id)).
Qed.

(** Whatever is written through [set_axis], and whatever the driver
    does, [axis_state] holds values of the range, so [refresh] always
    finds its four percentages and never drives a progress bar beyond
    its scale: 0 to 200 for yaw, roll and pitch, 0 to 100 for the
    throttle. *)
Theorem dashboard_bars_within_scale (calls : list (IO.axis * Py.value)) :
  exists b,
    CalibrationWithDisplay.refresh
      (IO.state_of
         (IO.for_each calls
            (fun c => CalibrationWithDisplay.set_axis accepts (fst c) (snd c)))
         CalibrationWithDisplay.axis_state) = Some b /\
    0 <= CalibrationWithDisplay.yaw_bar b <= 200 /\
    0 <= CalibrationWithDisplay.roll_bar b <= 200 /\
    0 <= CalibrationWithDisplay.pitch_bar b <= 200 /\
    0 <= CalibrationWithDisplay.thr_bar b <= 100.
Proof.
  assert (H : IO.hoare shown_in_range shown_in_range (fun _ => True)
                (IO.for_each calls
                   (fun c => CalibrationWithDisplay.set_axis accepts
                               (fst c) (snd c)))).
  { apply hoare_for_each; [exact I|auto|].
    apply Forall_forall. intros c _. apply display_set_axis_in_range. }
  destruct (H CalibrationWithDisplay.axis_state) as [Hst _].
  { intros a. unfold CalibrationWithDisplay.axis_state.
    destruct (decide (a = CalibrationWithDisplay.AXIS_LEFT_V));
      split; discriminate. }
  set (st := IO.state_of _ _) in *. clearbody st.
  unfold CalibrationWithDisplay.refresh.
  rewrite !roll_pitch_yaw_percent_quot, throttle_percent_quot.
  eexists. split; [reflexivity|].
  unfold CalibrationWithDisplay.MIN_VAL, CalibrationWithDisplay.MAX_VAL in Hst.
  pose proof (roll_pitch_yaw_percent_bounds _
                (Hst CalibrationWithDisplay.AXIS_LEFT_H)).
  pose proof (roll_pitch_yaw_percent_bounds _
                (Hst CalibrationWithDisplay.AXIS_RIGHT_H)).
  pose proof (roll_pitch_yaw_percent_bounds _
                (Hst CalibrationWithDisplay.AXIS_RIGHT_V)).
  pose proof (throttle_percent_bounds _
                (Hst CalibrationWithDisplay.AXIS_LEFT_V)).
  cbn [CalibrationWithDisplay.yaw_bar CalibrationWithDisplay.roll_bar
       CalibrationWithDisplay.pitch_bar CalibrationWithDisplay.thr_bar].
  lia.
Qed.

End Display.

Lemma int_clamp_id (lo hi z : Z) :
  lo < hi -> lo <= z <= hi ->
  Py.int (Py.max (Py.Int lo) (Py.min (Py.Int hi) (Py.Int z))) = Some z.
Proof.
  intros Hlt Hz. unfold Py.max, Py.min, Py.gt. rewrite PyFacts.lt_Int.
  destruct (Z.ltb_spec z hi); rewrite PyFacts.lt_Int.
  - destruct (Z.ltb_spec lo z); cbn; f_equal; lia.
  - destruct (Z.ltb_spec lo hi); cbn; f_equal; lia.
Qed.

Section DisplayAccepting.
Variable accepts : IO.axis -> Z -> bool.
Hypothesis accepting : forall a v, accepts a v = true.

Lemma display_set_axis_accepted (axis_id : IO.axis) (value : Py.value)
  (st : IO.axis -> Z) :
  exists val,
    CalibrationWithDisplay.set_axis accepts axis_id value st
    = (IO.Returned tt,
       (fun a => if decide (a = axis_id) then val else st a),
       [IO.SetAxis axis_id val]).
Proof.
  destruct (display_set_axis_cases accepts axis_id value st)
    as (val & _ & E).
  exists val. now rewrite E, accepting.
Qed.

Lemma display_set_axis_int (axis_id : IO.axis) (z : Z) (st : IO.axis -> Z) :
  CalibrationWithDisplay.MIN_VAL <= z <= CalibrationWithDisplay.MAX_VAL ->
  CalibrationWithDisplay.set_axis accepts axis_id (Py.Int z) st
  = (IO.Returned tt,
     (fun a => if decide (a = axis_id) then z else st a),
     [IO.SetAxis axis_id z]).
Proof.
  intros Hz. unfold CalibrationWithDisplay.set_axis,
    CalibrationWithDisplay.clamp.
  rewrite int_clamp_id by (try reflexivity; exact Hz).
  unfold mbind, IO.M_bind, IO.bind, IO.joystick_set_axis, IO.modify.
  now rewrite accepting.
Qed.

(** [axis_state] is what was last written to the device: after any
    calls of [set_axis] that the driver took, the entry of each axis is
    the value of the last write to that axis, and the entry it had
    before when the axis was not written. *)
Theorem axis_state_mirrors_writes (calls : list (IO.axis * Py.value))
  (shown : IO.axis -> Z) (a : IO.axis) :
  IO.state_of
    (IO.for_each calls
       (fun c => CalibrationWithDisplay.set_axis accepts (fst c) (snd c)))
    shown a
  = IO.last_write a (shown a)
      (IO.trace_of
         (IO.for_each calls
            (fun c => CalibrationWithDisplay.set_axis accepts (fst c) (snd c)))
         shown).
Proof.
  revert shown. induction calls as [|[axis_id value] calls IH]; intros shown.
  - reflexivity.
  - cbn [IO.for_each fst snd].
    destruct (display_set_axis_accepted axis_id value shown) as (val & E).
    unfold IO.state_of, IO.trace_of.
    rewrite (seq_returned _ _ _ _ _ E). cbn [fst snd].
    fold (IO.state_of
            (IO.for_each calls
               (fun c => CalibrationWithDisplay.set_axis accepts
                           (fst c) (snd c)))
            (fun a0 => if decide (a0 = axis_id) then val else shown a0)).
    rewrite IH. unfold IO.last_write.
    rewrite device_writes_app. cbn [IO.device_writes flat_map app fold_left].
    cbn [fst snd].
    destruct (decide (a = axis_id)) as [->|Hne];
      destruct (decide (axis_id = _)); congruence.
Qed.

(** With [axis_state] as it is at start-up or anywhere later, whatever
    the worker does and even when it raises, [runner] ends by disarming:
    the last four writes centre yaw, roll and pitch and put the
    throttle at MIN_VAL, and [axis_state] says so. *)
Theorem runner_ends_disarmed
  (worker_func : IO.M (IO.axis -> Z) unit) (shown : IO.axis -> Z) :
  exists t final,
    IO.trace_of (CalibrationWithDisplay.runner accepts worker_func) shown
    = IO.Print "[HOTKEY] START" :: t ++
      [IO.SetAxis CalibrationWithDisplay.AXIS_LEFT_H
         CalibrationWithDisplay.MID_VAL;
       IO.SetAxis CalibrationWithDisplay.AXIS_RIGHT_H
         CalibrationWithDisplay.MID_VAL;
       IO.SetAxis CalibrationWithDisplay.AXIS_RIGHT_V
         CalibrationWithDisplay.MID_VAL;
       IO.SetAxis CalibrationWithDisplay.AXIS_LEFT_V
         CalibrationWithDisplay.MIN_VAL;
       IO.Print "[HOTKEY] END"] /\
    IO.state_of (CalibrationWithDisplay.runner accepts worker_func) shown
    = final /\
    final CalibrationWithDisplay.AXIS_LEFT_H = CalibrationWithDisplay.MID_VAL /\
    final CalibrationWithDisplay.AXIS_RIGHT_H = CalibrationWithDisplay.MID_VAL /\
    final CalibrationWithDisplay.AXIS_RIGHT_V = CalibrationWithDisplay.MID_VAL /\
    final CalibrationWithDisplay.AXIS_LEFT_V = CalibrationWithDisplay.MIN_VAL.
Proof.
  unfold CalibrationWithDisplay.runner, IO.trace_of, IO.state_of.
  rewrite (seq_returned (IO.emit (IO.Print "[HOTKEY] START")) _ shown shown
             [IO.Print "[HOTKEY] START"] eq_refl).
  unfold IO.outcome_of, IO.state_of, IO.trace_of, IO.try_finally.
  destruct (worker_func shown) as [[r s] t].
  assert (E : (CalibrationWithDisplay.disarm_safe accepts ;;
               IO.emit (IO.Print "[HOTKEY] END")) s
              = (IO.Returned tt,
                 (fun a =>
                    if decide (a = CalibrationWithDisplay.AXIS_LEFT_V)
                    then CalibrationWithDisplay.MIN_VAL
                    else if decide (a = CalibrationWithDisplay.AXIS_RIGHT_V)
                    then CalibrationWithDisplay.MID_VAL
                    else if decide (a = CalibrationWithDisplay.AXIS_RIGHT_H)
                    then CalibrationWithDisplay.MID_VAL
                    else if decide (a = CalibrationWithDisplay.AXIS_LEFT_H)
                    then CalibrationWithDisplay.MID_VAL
                    else s a),
                 [IO.SetAxis CalibrationWithDisplay.AXIS_LEFT_H
                    CalibrationWithDisplay.MID_VAL;
                  IO.SetAxis CalibrationWithDisplay.AXIS_RIGHT_H
                    CalibrationWithDisplay.MID_VAL;
                  IO.SetAxis CalibrationWithDisplay.AXIS_RIGHT_V
                    CalibrationWithDisplay.MID_VAL;
                  IO.SetAxis CalibrationWithDisplay.AXIS_LEFT_V
                    CalibrationWithDisplay.MIN_VAL;
                  IO.Print "[HOTKEY] END"])).
  { unfold CalibrationWithDisplay.disarm_safe, mbind, IO.M_bind, IO.bind.
    rewrite !display_set_axis_int by (split; discriminate).
    reflexivity. }
  rewrite E. cbn [fst snd]. exists t. eexists.
  split; [reflexivity|]. split; [reflexivity|].
  repeat split.
Qed.

End DisplayAccepting.

Lemma axis_state_mirrors_writes_witness :
  let calls := [(IO.HID_USAGE_Z, Py.Int 70000);
                (IO.HID_USAGE_X, Py.Float (Py.Finite (5 # 2)));
                (IO.HID_USAGE_Z, Py.Int 300)] in
  (forall a v, (fun (_ : IO.axis) (_ : Z) => true) a v = true) /\
  IO.state_of
    (IO.for_each calls
       (fun c => CalibrationWithDisplay.set_axis (fun _ _ => true)
                   (fst c) (snd c)))
    CalibrationWithDisplay.axis_state IO.HID_USAGE_Z
  = IO.last_write IO.HID_USAGE_Z
      (CalibrationWithDisplay.axis_state IO.HID_USAGE_Z)
      (IO.trace_of
         (IO.for_each calls
            (fun c => CalibrationWithDisplay.set_axis (fun _ _ => true)
                        (fst c) (snd c)))
         CalibrationWithDisplay.axis_state).
Proof.
  split; [reflexivity|].
  apply (axis_state_mirrors_writes (fun _ _ => true)). reflexivity.
Defined.

Lemma runner_ends_disarmed_witness :
  (forall a v, (fun (_ : IO.axis) (_ : Z) => true) a v = true) /\
  exists t final,
    IO.trace_of
      (CalibrationWithDisplay.runner (fun _ _ => true)
         (CalibrationWithDisplay.throttle_up_worker (fun _ _ => true)
            1 (Some 3%nat)))
      CalibrationWithDisplay.axis_state
    = IO.Print "[HOTKEY] START" :: t ++
      [IO.SetAxis CalibrationWithDisplay.AXIS_LEFT_H
         CalibrationWithDisplay.MID_VAL;
       IO.SetAxis CalibrationWithDisplay.AXIS_RIGHT_H
         CalibrationWithDisplay.MID_VAL;
       IO.SetAxis CalibrationWithDisplay.AXIS_RIGHT_V
         CalibrationWithDisplay.MID_VAL;
       IO.SetAxis CalibrationWithDisplay.AXIS_LEFT_V
         CalibrationWithDisplay.MIN_VAL;
       IO.Print "[HOTKEY] END"] /\
    final CalibrationWithDisplay.AXIS_LEFT_V = CalibrationWithDisplay.MIN_VAL.
Proof.
  split; [reflexivity|].
  destruct (runner_ends_disarmed (fun _ _ => true) (fun _ _ => eq_refl)
              (CalibrationWithDisplay.throttle_up_worker (fun _ _ => true)
                 1 (Some 3%nat))
              CalibrationWithDisplay.axis_state)
    as (t & final & Et & _ & _ & _ & _ & Hf).
  now exists t, final.
Defined.

(** ** movements.py and the menu of calibration.py *)

Lemma for_each_trace {A : Type} (l : list A) (body : A -> IO.M unit unit)
  (f : A -> IO.trace) :
  Forall (fun x => body x tt = (IO.Returned tt, tt, f x)) l ->
  IO.for_each l body tt = (IO.Returned tt, tt, flat_map f l).
Proof.
  induction 1 as [|x l Hx _ IH]; [reflexivity|].
  cbn [IO.for_each flat_map]. rewrite (seq_returned _ _ _ _ _ Hx).
  unfold IO.outcome_of, IO.state_of, IO.trace_of. now rewrite IH.
Qed.

Section MovementsAccepting.
Variable accepts : IO.axis -> Z -> bool.
Hypothesis accepting : forall a v, accepts a v = true.

Lemma set_throttle_int (z : Z) :
  Movements.MIN_VAL <= z <= Movements.MAX_VAL ->
  Movements.set_throttle accepts (Py.Int z) tt
  = (IO.Returned tt, tt, [IO.SetAxis Movements.AXIS_THROTTLE z]).
Proof.
  intros Hz. unfold Movements.set_throttle.
  rewrite int_clamp_id by (try reflexivity; exact Hz).
  unfold IO.joystick_set_axis. now rewrite accepting.
Qed.

(** The script of movements.py, with a driver that takes the calls,
    writes to the throttle axis alone; the values written start at
    MID_VAL, never increase, and end at MIN_VAL, where the throttle is
    left. *)
Theorem throttle_drop_descends :
  exists values,
    IO.device_writes (IO.trace_of (Movements.main accepts) tt)
    = map (fun v => (Movements.AXIS_THROTTLE, v)) values /\
    head values = Some Movements.MID_VAL /\
    last values = Some Movements.MIN_VAL /\
    Sorted (fun x y => y <= x) values /\
    IO.outcome_of (Movements.main accepts) tt = IO.Returned tt.
Proof.
  exists (Movements.MID_VAL
          :: Py.range Movements.MID_VAL Movements.MIN_VAL (-100)
          ++ [Movements.MIN_VAL]).
  assert (Hloop :
    IO.for_each (Py.range Movements.MID_VAL Movements.MIN_VAL (-100))
      (fun i => Movements.set_throttle accepts (Py.Int i) ;;
                IO.emit (IO.Sleep 10)) tt
    = (IO.Returned tt, tt,
       flat_map (fun i => [IO.SetAxis Movements.AXIS_THROTTLE i; IO.Sleep 10])
         (Py.range Movements.MID_VAL Movements.MIN_VAL (-100)))).
  { apply for_each_trace.
    assert (Hr : Forall (fun i => Movements.MIN_VAL <= i <= Movements.MAX_VAL)
                   (Py.range Movements.MID_VAL Movements.MIN_VAL (-100))).
    { unfold Movements.MIN_VAL, Movements.MID_VAL, Movements.MAX_VAL.
      vm_compute Py.range. repeat (constructor; [lia|]). constructor. }
    eapply Forall_impl; [exact Hr|]. intros i Hi. cbv beta.
    now rewrite (seq_returned _ _ _ _ _ (set_throttle_int i Hi)). }
  assert (E : Movements.main accepts tt
    = (IO.Returned tt, tt,
       [IO.SetAxis Movements.AXIS_THROTTLE Movements.MID_VAL; IO.Sleep 1000;
        IO.Print "Starting gradual drop to 0%..."]
       ++ flat_map
            (fun i => [IO.SetAxis Movements.AXIS_THROTTLE i; IO.Sleep 10])
            (Py.range Movements.MID_VAL Movements.MIN_VAL (-100))
       ++ [IO.SetAxis Movements.AXIS_THROTTLE Movements.MIN_VAL;
           IO.Print "Throttle is now at 0% (Holding)."])).
  { unfold Movements.main, Movements.gradual_throttle_drop.
    rewrite (seq_returned _ _ _ _ _
               (set_throttle_int Movements.MID_VAL
                  ltac:(split; discriminate))).
    unfold IO.outcome_of, IO.state_of, IO.trace_of.
    rewrite (seq_returned (IO.emit (IO.Sleep 1000)) _ tt tt
               [IO.Sleep 1000] eq_refl).
    unfold IO.outcome_of, IO.state_of, IO.trace_of.
    rewrite (seq_returned (IO.emit (IO.Print "Starting gradual drop to 0%..."))
               _ tt tt [IO.Print "Starting gradual drop to 0%..."] eq_refl).
    unfold IO.outcome_of, IO.state_of, IO.trace_of.
    rewrite (seq_returned _ _ _ _ _ Hloop).
    unfold IO.outcome_of, IO.state_of, IO.trace_of.
    rewrite (seq_returned _ _ _ _ _
               (set_throttle_int Movements.MIN_VAL
                  ltac:(split; discriminate))).
    reflexivity. }
  unfold IO.trace_of, IO.outcome_of. rewrite E. cbn [fst snd].
  split; [|split; [reflexivity|]].
  2: split; [apply last_snoc with (l := _ :: _)|split; [|reflexivity]].
  - rewrite !device_writes_app. cbn [map]. rewrite map_app. cbn [map].
    cbn [IO.device_writes flat_map app]. reflexivity.
  - unfold Movements.MID_VAL, Movements.MIN_VAL.
    vm_compute Py.range. cbn [app].
    repeat (first [ apply Sorted_nil
                  | apply Sorted_cons;
                    [|first [apply HdRel_nil | apply HdRel_cons; lia]] ]).
Qed.

End MovementsAccepting.

Lemma throttle_drop_descends_witness :
  (forall a v, (fun (_ : IO.axis) (_ : Z) => true) a v = true) /\
  exists values,
    IO.device_writes (IO.trace_of (Movements.main (fun _ _ => true)) tt)
    = map (fun v => (Movements.AXIS_THROTTLE, v)) values /\
    last values = Some Movements.MIN_VAL.
Proof.
  split; [reflexivity|].
  destruct (throttle_drop_descends (fun _ _ => true) (fun _ _ => eq_refl))
    as (values & E & _ & Hlast & _).
  now exists values.
Defined.

Section CalibrationWrites.
Variable accepts : IO.axis -> Z -> bool.

(** A property of every write of a run. *)
Local Abbreviation writes_all P :=
  (fun t : IO.trace => Forall P (IO.device_writes t)).

Lemma writes_all_app (P : IO.axis * Z -> Prop) (t1 t2 : IO.trace) :
  writes_all P t1 -> writes_all P t2 -> writes_all P (t1 ++ t2).
Proof.
  cbv beta. intros H1 H2. rewrite device_writes_app.
  apply Forall_app. now split.
Qed.

Local Abbreviation every_write P m :=
  (IO.hoare (fun _ : unit => True) (fun _ => True) (writes_all P) m).

Lemma every_write_run (P : IO.axis * Z -> Prop) (m : IO.M unit unit) :
  every_write P m -> Forall P (IO.device_writes (IO.trace_of m tt)).
Proof. intros H. now apply (H tt). Qed.

Lemma every_write_bind (P : IO.axis * Z -> Prop) (m1 m2 : IO.M unit unit) :
  every_write P m1 -> every_write P m2 -> every_write P (m1 ;; m2).
Proof. apply hoare_bind, writes_all_app. Qed.

Lemma every_write_emit (P : IO.axis * Z -> Prop) (e : IO.event) :
  IO.device_writes [e] = [] -> every_write P (IO.emit e).
Proof. intros He. apply hoare_emit. cbv beta. rewrite He. constructor. Qed.

Lemma every_write_for_each {A : Type} (P : IO.axis * Z -> Prop) (l : list A)
  (body : A -> IO.M unit unit) :
  Forall (fun x => every_write P (body x)) l ->
  every_write P (IO.for_each l body).
Proof.
  apply hoare_for_each; [constructor|apply writes_all_app].
Qed.

Lemma every_write_thread (P : IO.axis * Z -> Prop) (m : IO.M unit unit) :
  every_write P m -> every_write P (IO.thread m).
Proof. apply hoare_thread. Qed.

Lemma every_write_set_axis (P : IO.axis * Z -> Prop) (a : IO.axis)
  (v : Py.value) :
  (forall z, Calibration.MIN_VAL <= z <= Calibration.MAX_VAL ->
             Py.int (Py.max (Py.Int Calibration.MIN_VAL)
                       (Py.min (Py.Int Calibration.MAX_VAL) v)) = Some z ->
             P (a, z)) ->
  every_write P (Calibration.set_axis accepts a v).
Proof.
  intros HP st _. split; [exact I|]. cbv beta.
  unfold Calibration.set_axis.
  destruct (PyFacts.int_clamp Calibration.MIN_VAL Calibration.MAX_VAL v)
    as (z & E & Hz); [unfold Calibration.MIN_VAL; lia|reflexivity|].
  rewrite E, joystick_set_axis_writes. repeat constructor. now apply HP.
Qed.

Lemma every_write_set_axis_int (P : IO.axis * Z -> Prop) (a : IO.axis)
  (z : Z) :
  Calibration.MIN_VAL <= z <= Calibration.MAX_VAL -> P (a, z) ->
  every_write P (Calibration.set_axis accepts a (Py.Int z)).
Proof.
  intros Hz HP. apply every_write_set_axis. intros z' _.
  rewrite int_clamp_id by (try reflexivity; exact Hz). now intros [= <-].
Qed.

(** One of the five ramps: the three other sticks are centred, then the
    turns of the ramp write to one axis only. *)
Lemma every_write_ramp (P : IO.axis * Z -> Prop) (own : IO.axis)
  (ramp : list Z) (rounds : list nat) (hold : Z)
  (iteration : nat -> IO.M unit unit) :
  (forall steps,
     iteration steps
     = (IO.for_each (firstn steps ramp)
          (fun i => Calibration.set_axis accepts own (Py.Int i) ;;
                    IO.emit (IO.Sleep 10)) ;;
        Calibration.set_axis accepts own (Py.Int hold) ;;
        IO.emit (IO.Sleep 500) ;;
        Calibration.set_axis accepts own (Py.Int Calibration.MID_VAL) ;;
        IO.emit (IO.Sleep 500))) ->
  Forall (fun i => Calibration.MIN_VAL <= i <= Calibration.MAX_VAL /\
                   P (own, i)) (hold :: Calibration.MID_VAL :: ramp) ->
  every_write P (IO.for_each rounds iteration).
Proof.
  intros Hit Hall.
  apply Forall_cons in Hall as [[Hh Ph] Hall].
  apply Forall_cons in Hall as [[Hm Pm] Hall].
  apply every_write_for_each, Forall_forall. intros steps _. rewrite Hit.
  apply every_write_bind.
  { apply every_write_for_each.
    eapply Forall_impl; [apply Forall_take, Hall|].
    intros i [Hi Pi]. cbv beta. apply every_write_bind.
    - now apply every_write_set_axis_int.
    - now apply every_write_emit. }
  apply every_write_bind; [now apply every_write_set_axis_int|].
  apply every_write_bind; [now apply every_write_emit|].
  apply every_write_bind; [now apply every_write_set_axis_int|].
  now apply every_write_emit.
Qed.

Lemma ramp_up_values :
  Forall (fun i => Calibration.MID_VAL <= i <= Calibration.MAX_VAL)
    (Calibration.MAX_VAL :: Calibration.MID_VAL
     :: Py.range Calibration.MID_VAL Calibration.MAX_VAL 1000).
Proof.
  unfold Calibration.MID_VAL, Calibration.MAX_VAL.
  vm_compute Py.range. repeat (constructor; [lia|]). constructor.
Qed.

Lemma ramp_down_values :
  Forall (fun i => Calibration.MIN_VAL <= i <= Calibration.MID_VAL)
    (Calibration.MIN_VAL :: Calibration.MID_VAL
     :: Py.range Calibration.MID_VAL Calibration.MIN_VAL (-1000)).
Proof.
  unfold Calibration.MID_VAL, Calibration.MIN_VAL.
  vm_compute Py.range. repeat (constructor; [lia|]). constructor.
Qed.

Local Abbreviation centre_or own lo hi :=
  (fun w : IO.axis * Z =>
     snd w = Calibration.MID_VAL \/ (fst w = own /\ lo <= snd w <= hi)).

Lemma every_write_centre (own : IO.axis) (lo hi : Z) (a : IO.axis) :
  every_write (centre_or own lo hi)
    (Calibration.set_axis accepts a (Py.Int Calibration.MID_VAL)).
Proof.
  apply every_write_set_axis_int; [split; discriminate|now left].
Qed.

(** Each ramp of calibration.py moves one stick axis and leaves the others
    centred: wherever it is stopped, every write it makes is MID_VAL or
    goes to its own axis, on the side of the centre the ramp is meant
    for (MID_VAL to MAX_VAL for the throttle, pitch and roll ramps up,
    MIN_VAL to MID_VAL for the yaw and throttle ramps down). *)
Theorem ramps_move_one_axis (rounds : list nat) :
  Forall (centre_or Calibration.AXIS_LEFT_V
            Calibration.MID_VAL Calibration.MAX_VAL)
    (IO.device_writes
       (IO.trace_of (Calibration.throttle_up_worker accepts rounds) tt)) /\
  Forall (centre_or Calibration.AXIS_RIGHT_V
            Calibration.MID_VAL Calibration.MAX_VAL)
    (IO.device_writes
       (IO.trace_of (Calibration.pitch_up_worker accepts rounds) tt)) /\
  Forall (centre_or Calibration.AXIS_RIGHT_H
            Calibration.MID_VAL Calibration.MAX_VAL)
    (IO.device_writes
       (IO.trace_of (Calibration.roll_right_worker accepts rounds) tt)) /\
  Forall (centre_or Calibration.AXIS_LEFT_H
            Calibration.MIN_VAL Calibration.MID_VAL)
    (IO.device_writes
       (IO.trace_of (Calibration.yaw_left_worker accepts rounds) tt)) /\
  Forall (centre_or Calibration.AXIS_LEFT_V
            Calibration.MIN_VAL Calibration.MID_VAL)
    (IO.device_writes
       (IO.trace_of (Calibration.throttle_down_worker accepts rounds) tt)).
Proof.
  assert (Hup : forall own,
    Forall (fun i => Calibration.MIN_VAL <= i <= Calibration.MAX_VAL /\
              centre_or own Calibration.MID_VAL Calibration.MAX_VAL (own, i))
      (Calibration.MAX_VAL :: Calibration.MID_VAL
       :: Py.range Calibration.MID_VAL Calibration.MAX_VAL 1000)).
  { intros own. eapply Forall_impl; [apply ramp_up_values|].
    intros i Hi. cbv beta. unfold Calibration.MIN_VAL, Calibration.MID_VAL,
      Calibration.MAX_VAL in *. split; [lia|]. right. cbn. split; [done|lia]. }
  assert (Hdown : forall own,
    Forall (fun i => Calibration.MIN_VAL <= i <= Calibration.MAX_VAL /\
              centre_or own Calibration.MIN_VAL Calibration.MID_VAL (own, i))
      (Calibration.MIN_VAL :: Calibration.MID_VAL
       :: Py.range Calibration.MID_VAL Calibration.MIN_VAL (-1000))).
  { intros own. eapply Forall_impl; [apply ramp_down_values|].
    intros i Hi. cbv beta. unfold Calibration.MIN_VAL, Calibration.MID_VAL,
      Calibration.MAX_VAL in *. split; [lia|]. right. cbn. split; [done|lia]. }
  repeat split.
  - apply every_write_run.
    unfold Calibration.throttle_up_worker.
    do 3 (apply every_write_bind; [apply every_write_centre|]).
    eapply every_write_ramp; [reflexivity|apply Hup].
  - apply every_write_run.
    unfold Calibration.pitch_up_worker.
    do 3 (apply every_write_bind; [apply every_write_centre|]).
    eapply every_write_ramp; [reflexivity|apply Hup].
  - apply every_write_run.
    unfold Calibration.roll_right_worker.
    do 3 (apply every_write_bind; [apply every_write_centre|]).
    eapply every_write_ramp; [reflexivity|apply Hup].
  - apply every_write_run.
    unfold Calibration.yaw_left_worker.
    do 3 (apply every_write_bind; [apply every_write_centre|]).
    eapply every_write_ramp; [reflexivity|apply Hdown].
  - apply every_write_run.
    unfold Calibration.throttle_down_worker.
    do 3 (apply every_write_bind; [apply every_write_centre|]).
    eapply every_write_ramp; [reflexivity|apply Hdown].
Qed.

End CalibrationWrites.

Section CalibrationMenu.
Variable accepts : IO.axis -> Z -> bool.

Lemma writes_thread (m : IO.M unit unit) :
  IO.writes_only_between 1 32768 m ->
  IO.writes_only_between 1 32768 (IO.thread m).
Proof.
  unfold IO.writes_only_between, IO.trace_of, IO.thread, IO.try_except,
    IO.ret.
  intros H st. specialize (H st).
  destruct (m st) as [[[[]|] s] t]; cbn [snd] in *; [exact H|].
  now rewrite app_nil_r.
Qed.

Ltac in_range_writes :=
  repeat first
    [ apply writes_calibration_set_axis
    | apply writes_emit; reflexivity
    | apply writes_for_each; intros
    | apply writes_bind ].

Lemma writes_calibration_center_sticks :
  IO.writes_only_between 1 32768 (Calibration.center_sticks accepts).
Proof. unfold Calibration.center_sticks. in_range_writes. Qed.

Lemma writes_calibration_menu_choice (c : Calibration.choice) :
  IO.writes_only_between 1 32768 (Calibration.menu_choice accepts c).
Proof.
  destruct c; cbn [Calibration.menu_choice];
    try (unfold Calibration.start_thread;
         apply writes_bind;
         [apply writes_thread|apply writes_calibration_center_sticks]).
  - unfold Calibration.circles_worker, Calibration.circles_iteration.
    in_range_writes.
  - unfold Calibration.throttle_up_worker, Calibration.throttle_up_iteration.
    in_range_writes.
  - unfold Calibration.pitch_up_worker, Calibration.pitch_up_iteration.
    in_range_writes.
  - unfold Calibration.roll_right_worker, Calibration.roll_right_iteration.
    in_range_writes.
  - unfold Calibration.yaw_left_worker, Calibration.yaw_left_iteration.
    in_range_writes.
  - unfold Calibration.throttle_down_worker,
      Calibration.throttle_down_iteration.
    in_range_writes.
  - apply writes_calibration_center_sticks.
  - now apply writes_emit.
Qed.

(** Over a whole session at the menu of calibration.py, whatever is
    selected, whatever the trigonometric values, wherever the patterns
    are stopped and whatever the driver does, every value passed to
    [joystick.set_axis] is an integer of [1, 32768]. *)
Theorem calibration_session_in_range (choices : list Calibration.choice) :
  IO.writes_only_between Calibration.MIN_VAL Calibration.MAX_VAL
    (Calibration.main_menu accepts choices).
Proof.
  unfold Calibration.main_menu, Calibration.MIN_VAL, Calibration.MAX_VAL.
  apply writes_bind; [apply writes_calibration_center_sticks|].
  apply writes_bind; [|apply writes_calibration_center_sticks].
  apply writes_for_each. intros c. apply writes_calibration_menu_choice.
Qed.

Hypothesis accepting : forall a v, accepts a v = true.

Lemma calibration_set_axis_int (a : IO.axis) (z : Z) :
  Calibration.MIN_VAL <= z <= Calibration.MAX_VAL ->
  Calibration.set_axis accepts a (Py.Int z) tt
  = (IO.Returned tt, tt, [IO.SetAxis a z]).
Proof.
  intros Hz. unfold Calibration.set_axis.
  rewrite int_clamp_id by (try reflexivity; exact Hz).
  unfold IO.joystick_set_axis. now rewrite accepting.
Qed.

Lemma calibration_center_sticks_trace :
  Calibration.center_sticks accepts tt
  = (IO.Returned tt, tt,
     [IO.SetAxis Calibration.AXIS_LEFT_H Calibration.MID_VAL;
      IO.SetAxis Calibration.AXIS_LEFT_V Calibration.MID_VAL;
      IO.SetAxis Calibration.AXIS_RIGHT_H Calibration.MID_VAL;
      IO.SetAxis Calibration.AXIS_RIGHT_V Calibration.MID_VAL;
      IO.Print " -> Sticks Centered."]).
Proof.
  unfold Calibration.center_sticks, mbind, IO.M_bind, IO.bind.
  rewrite !calibration_set_axis_int by (split; discriminate).
  reflexivity.
Qed.

Lemma calibration_menu_choice_returns (c : Calibration.choice) :
  exists t, Calibration.menu_choice accepts c tt = (IO.Returned tt, tt, t).
Proof.
  assert (Hstart : forall m,
            exists t, Calibration.start_thread accepts m tt
                      = (IO.Returned tt, tt, t)).
  { intros m. unfold Calibration.start_thread.
    destruct (thread_returns m tt) as ([] & t & E).
    rewrite (seq_returned _ _ _ _ _ E).
    unfold IO.outcome_of, IO.state_of, IO.trace_of.
    rewrite calibration_center_sticks_trace. eauto. }
  destruct c; cbn [Calibration.menu_choice]; try apply Hstart.
  - rewrite calibration_center_sticks_trace. eauto.
  - eauto.
Qed.

Lemma calibration_choices_return (choices : list Calibration.choice) :
  exists t,
    IO.for_each choices (Calibration.menu_choice accepts) tt
    = (IO.Returned tt, tt, t).
Proof.
  induction choices as [|c choices [t IH]]; [now exists []|].
  destruct (calibration_menu_choice_returns c) as (t1 & E).
  cbn [IO.for_each]. rewrite (seq_returned _ _ _ _ _ E).
  unfold IO.outcome_of, IO.state_of, IO.trace_of. rewrite IH. eauto.
Qed.

(** With a driver that takes the calls, a session at the menu of
    calibration.py ends normally and with the sticks centred: whatever
    was selected and even when a worker thread died, the last four writes
    put the four axes at MID_VAL. *)
Theorem calibration_session_ends_centred
  (choices : list Calibration.choice) :
  exists t,
    Calibration.main_menu accepts choices tt
    = (IO.Returned tt, tt,
       t ++ [IO.SetAxis Calibration.AXIS_LEFT_H Calibration.MID_VAL;
             IO.SetAxis Calibration.AXIS_LEFT_V Calibration.MID_VAL;
             IO.SetAxis Calibration.AXIS_RIGHT_H Calibration.MID_VAL;
             IO.SetAxis Calibration.AXIS_RIGHT_V Calibration.MID_VAL;
             IO.Print " -> Sticks Centered."]).
Proof.
  destruct (calibration_choices_return choices) as (t & E).
  unfold Calibration.main_menu.
  rewrite (seq_returned _ _ _ _ _ calibration_center_sticks_trace).
  unfold IO.outcome_of, IO.state_of, IO.trace_of.
  rewrite (seq_returned _ _ _ _ _ E).
  unfold IO.outcome_of, IO.state_of, IO.trace_of.
  rewrite calibration_center_sticks_trace. cbn [fst snd].
  eexists. now rewrite app_assoc.
Qed.

End CalibrationMenu.

Lemma calibration_session_ends_centred_witness :
  let choices :=
    [Calibration.Circles [(1, 0)]%Q; Calibration.YawLeft [3%nat];
     Calibration.Invalid; Calibration.ForceRecenter] in
  (forall a v, (fun (_ : IO.axis) (_ : Z) => true) a v = true) /\
  exists t,
    Calibration.main_menu (fun _ _ => true) choices tt
    = (IO.Returned tt, tt,
       t ++ [IO.SetAxis Calibration.AXIS_LEFT_H Calibration.MID_VAL;
             IO.SetAxis Calibration.AXIS_LEFT_V Calibration.MID_VAL;
             IO.SetAxis Calibration.AXIS_RIGHT_H Calibration.MID_VAL;
             IO.SetAxis Calibration.AXIS_RIGHT_V Calibration.MID_VAL;
             IO.Print " -> Sticks Centered."]).
Proof.
  split; [reflexivity|].
  apply (calibration_session_ends_centred (fun _ _ => true)
           (fun _ _ => eq_refl)).
Defined.

(** ** The circles of calibration_with_display.py *)

Lemma display_around_mid_close (c : Q) :
  TestClient.unit_interval c = true ->
  exists v, CalibrationWithDisplay.around_mid c = Some v /\
            384 <= v <= 32384.
Proof.
  unfold TestClient.unit_interval. intros H.
  apply andb_prop in H as [H1 H2].
  apply Qle_bool_iff in H1. apply Qle_bool_iff in H2.
  destruct c as [n d]. unfold Qle in H1, H2. cbn in H1, H2.
  unfold CalibrationWithDisplay.around_mid, CalibrationWithDisplay.MID_VAL,
    CalibrationWithDisplay.RADIUS.
  cbn [Py.int Qmult Qnum Qden inject_Z].
  eexists. split; [reflexivity|].
  assert (-16000 <= Z.quot (n * 16000) (Z.pos (d * 1)) <= 16000); [|lia].
  split.
  - apply Z.quot_le_lower_bound; lia.
  - apply Z.quot_le_upper_bound; lia.
Qed.

(** While the [circles_worker] of calibration_with_display.py runs, with
    the results of [math.cos] and [math.sin] in [-1, 1] and whatever the
    driver does, every value written is within RADIUS = 16000 of
    MID_VAL, so between 384 and 32384: the clamp of [set_axis] never has
    to act. *)
Theorem display_circles_within_radius (accepts : IO.axis -> Z -> bool)
  (turns : list (Q * Q)) :
  forallb (fun cs => TestClient.unit_interval (fst cs)
                     && TestClient.unit_interval (snd cs)) turns = true ->
  IO.writes_only_between 384 32384
    (CalibrationWithDisplay.circles_worker accepts turns).
Proof.
  intros Hok.
  assert (Hset : forall a c, TestClient.unit_interval c = true ->
            IO.writes_only_between 384 32384
              (CalibrationWithDisplay.set_axis_around_mid accepts a c)).
  { intros a c Hc st.
    destruct (display_around_mid_close c Hc) as (v & E & Hv).
    unfold CalibrationWithDisplay.set_axis_around_mid. rewrite E.
    unfold CalibrationWithDisplay.set_axis, CalibrationWithDisplay.clamp.
    rewrite int_clamp_id
      by (unfold CalibrationWithDisplay.MIN_VAL,
            CalibrationWithDisplay.MAX_VAL; lia).
    apply writes_bind.
    - now apply writes_joystick_set_axis.
    - intros s. constructor. }
  unfold CalibrationWithDisplay.circles_worker.
  rewrite forallb_forall in Hok.
  assert (Hall : Forall (fun cs => TestClient.unit_interval (fst cs) = true /\
                           TestClient.unit_interval (snd cs) = true) turns).
  { apply Forall_forall. intros cs Hin. apply list_elem_of_In in Hin.
    now apply andb_prop, Hok. }
  clear Hok. induction Hall as [|[c s] turns [Hc Hs] _ IH];
    cbn [IO.for_each fst snd].
  - intros st. constructor.
  - apply writes_bind; [|exact IH].
    unfold CalibrationWithDisplay.circles_iteration.
    do 4 (apply writes_bind;
          [apply Hset; auto using unit_interval_opp|]).
    now apply writes_emit.
Qed.

Lemma display_circles_within_radius_witness :
  let turns := [(1, 0); (-3 # 5, 4 # 5)]%Q in
  forallb (fun cs => TestClient.unit_interval (fst cs)
                     && TestClient.unit_interval (snd cs)) turns = true /\
  IO.writes_only_between 384 32384
    (CalibrationWithDisplay.circles_worker (fun _ _ => true) turns).
Proof.
  split; [reflexivity|].
  apply (display_circles_within_radius (fun _ _ => true)). reflexivity.
Defined.
